(** * Nigeria economic dashboard

    A shallow embedding of [nigeria_data_processor.py] (the CSV cleaning
    pipeline) and of [nigeria_dashboard_app.py] (the Streamlit views and
    their helpers), followed by the properties of the specification that
    were checked against it.

    Numbers are modelled as the code has them: [Year] values are unbounded
    Python integers ([Z]), indicator values are IEEE-754 binary64 numbers
    (the kernel's primitive [float]), text is a [string] of one-byte
    characters.  Two limits of the embedding are stated as hypotheses
    where a property depends on them: a text is read as ASCII (beyond code
    127 Python knows further blanks and digits, which the model does not),
    and the labels of a frame are pairwise distinct, also once they are
    renamed (what pandas does with two columns under one label is not
    modelled). *)

From Stdlib Require Import ZArith List String Ascii Bool Lia Floats DecimalString DecimalPos.
Import ListNotations.
Local Open Scope Z_scope.

(* ================================================================== *)
(** * Python text: slicing, [str] and [int] *)
(* ================================================================== *)

Module PyStr.

Definition chars (s : string) : list ascii := list_ascii_of_string s.
Definition text (l : list ascii) : string := string_of_list_ascii l.

(** [s[-n:]]: the last [n] characters, or all of [s] when it is shorter. *)
Definition suffix (n : nat) (s : string) : string :=
  text (skipn (List.length (chars s) - n) (chars s)).

Definition code (c : ascii) : Z := Z.of_nat (nat_of_ascii c).

Definition is_digit (c : ascii) : bool := (48 <=? code c) && (code c <=? 57).

Definition digit_value (c : ascii) : Z := code c - 48.

Definition digit_char (d : Z) : ascii := ascii_of_nat (Z.to_nat (48 + d)).

(** The blanks [int] and [float] skip at both ends of an ASCII text:
    TAB, LF, VT, FF, CR and SPACE. *)
Definition is_space (c : ascii) : bool :=
  ((9 <=? code c) && (code c <=? 13)) || (code c =? 32).

Definition lower (c : ascii) : ascii :=
  if (65 <=? code c) && (code c <=? 90)
  then ascii_of_nat (nat_of_ascii c + 32) else c.

Fixpoint lstrip (l : list ascii) : list ascii :=
  match l with
  | c :: r => if is_space c then lstrip r else l
  | [] => []
  end.

Definition strip (l : list ascii) : list ascii :=
  rev (lstrip (rev (lstrip l))).

Definition split_sign (l : list ascii) : bool * list ascii :=
  match l with
  | c :: r =>
      if Ascii.eqb c "-" then (true, r)
      else if Ascii.eqb c "+" then (false, r)
      else (false, l)
  | [] => (false, l)
  end.

(** The digits of an integer literal once its first digit is read: more
    digits, each optionally preceded by one underscore. *)
Fixpoint int_tail (acc : Z) (l : list ascii) : option Z :=
  match l with
  | [] => Some acc
  | c :: r =>
      if is_digit c then int_tail (10 * acc + digit_value c) r
      else if Ascii.eqb c "_" then
        match r with
        | d :: r' =>
            if is_digit d then int_tail (10 * acc + digit_value d) r'
            else None
        | [] => None
        end
      else None
  end.

Definition int_digits (l : list ascii) : option Z :=
  match l with
  | c :: r => if is_digit c then int_tail (digit_value c) r else None
  | [] => None
  end.

(** [int(s)] in base ten; [None] stands for the [ValueError] it raises. *)
Definition py_int (s : string) : option Z :=
  let (neg, body) := split_sign (strip (chars s)) in
  option_map (fun v => if neg then - v else v) (int_digits body).

(** [str(n)] for an integer. *)
Definition str_of_int (z : Z) : string := NilZero.string_of_int (Z.to_int z).

End PyStr.

(* ================================================================== *)
(** * binary64 values: formatting and parsing *)
(* ================================================================== *)

Module F64.

Import PyStr.

Definition is_finite (x : float) : bool :=
  match Prim2SF x with
  | S754_zero _ | S754_finite _ _ _ => true
  | _ => false
  end.

(** Conversion of an integer to the nearest binary64 value, ties to even. *)
Definition of_Z (z : Z) : float := SF2Prim (binary_normalize prec emax z 0 false).

Definition round_half_even (num den : Z) : Z :=
  let q := num / den in
  match 2 * (num mod den) ?= den with
  | Lt => q
  | Gt => q + 1
  | Eq => if Z.even q then q else q + 1
  end.

(** [m * 2^e * 10^p] rounded to an integer, ties to even. *)
Definition scaled (p : nat) (m : positive) (e : Z) : Z :=
  let n := Zpos m * 10 ^ Z.of_nat p in
  if 0 <=? e then n * 2 ^ e else round_half_even n (2 ^ (- e)).

(** Exactly [w] decimal digits of [v], the most significant first. *)
Fixpoint fixed_digits (w : nat) (v : Z) : string :=
  match w with
  | O => EmptyString
  | S w' => append (fixed_digits w' (v / 10))
                   (String (digit_char (v mod 10)) EmptyString)
  end.

Definition fixed_point (p : nat) (neg : bool) (n : Z) : string :=
  append (if neg then "-" else "")
    (append (str_of_int (n / 10 ^ Z.of_nat p))
       (match p with
        | O => EmptyString
        | S _ => append "." (fixed_digits p n)
        end)).

(** The format specification [.<p>f] applied to a float. *)
Definition format_f (p : nat) (x : float) : string :=
  match Prim2SF x with
  | S754_nan => "nan"
  | S754_infinity s => if s then "-inf" else "inf"
  | S754_zero s => fixed_point p s 0
  | S754_finite s m e => fixed_point p s (scaled p m e)
  end.

(** ** [float(s)] *)

(** An underscore must stand between two digits. *)
Fixpoint underscores_ok (prev : ascii) (l : list ascii) : bool :=
  match l with
  | [] => negb (Ascii.eqb prev "_")
  | c :: r =>
      (if Ascii.eqb c "_" then is_digit prev
       else if Ascii.eqb prev "_" then is_digit c else true)
      && underscores_ok c r
  end.

Definition drop_underscores (l : list ascii) : list ascii :=
  filter (fun c => negb (Ascii.eqb c "_")) l.

(** Reads a run of digits: the accumulated value, how many were read, the rest. *)
Fixpoint take_digits (acc n : Z) (l : list ascii) : Z * Z * list ascii :=
  match l with
  | c :: r => if is_digit c then take_digits (10 * acc + digit_value c) (n + 1) r
              else (acc, n, l)
  | [] => (acc, n, l)
  end.

Definition parse_exponent (l : list ascii) : option Z :=
  match l with
  | [] => Some 0
  | c :: r =>
      if Ascii.eqb (lower c) "e" then
        let (neg, r1) := split_sign r in
        match take_digits 0 0 r1 with
        | (v, n, []) => if n =? 0 then None else Some (if neg then - v else v)
        | _ => None
        end
      else None
  end.

(** A decimal literal as a pair [(m, x)] standing for [m * 10^x]. *)
Definition parse_decimal (l : list ascii) : option (Z * Z) :=
  let '(i, ni, r1) := take_digits 0 0 l in
  let '(m, nf, r2) :=
    match r1 with
    | c :: r => if Ascii.eqb c "." then take_digits i 0 r else (i, 0, r1)
    | [] => (i, 0, r1)
    end in
  if ni + nf =? 0 then None
  else option_map (fun x => (m, x - nf)) (parse_exponent r2).

Definition signed (neg : bool) (x : float) : float :=
  if neg then PrimFloat.opp x else x.

(** The binary64 value nearest to [m * 10^x] (ties to even). *)
Definition of_decimal (neg : bool) (m x : Z) : float :=
  if m =? 0 then signed neg PrimFloat.zero
  else if 400 <? x then signed neg PrimFloat.infinity
  else if x <? - 400 - Z.log2 m - 1 then signed neg PrimFloat.zero
  else if 0 <=? x then
    signed neg (SF2Prim (binary_normalize prec emax (m * 10 ^ x) 0 false))
  else
    signed neg (SF2Prim (SFdiv prec emax (S754_finite false (Z.to_pos m) 0)
                           (S754_finite false (Z.to_pos (10 ^ (- x))) 0))).

(** [float(s)]; [None] stands for the [ValueError] it raises. *)
Definition py_float (s : string) : option float :=
  let l := strip (chars s) in
  if negb (underscores_ok Ascii.zero l) then None
  else
    let (neg, body) := split_sign (drop_underscores l) in
    let word := text (map lower body) in
    if String.eqb word "inf" || String.eqb word "infinity"
    then Some (signed neg PrimFloat.infinity)
    else if String.eqb word "nan" then Some PrimFloat.nan
    else option_map (fun '(m, x) => of_decimal neg m x) (parse_decimal body).

(** ** [repr(x)], the text [str] gives for a float *)

(** [n / d < 10^k] for positive [n], [d]. *)
Definition below_pow10 (n d k : Z) : bool :=
  if 0 <=? k then n <? d * 10 ^ k else n * 10 ^ (- k) <? d.

(** The least [k] from [k0] on with [n / d < 10^k]. *)
Fixpoint decimal_point (fuel : nat) (n d k : Z) : Z :=
  match fuel with
  | O => k
  | S fuel' => if below_pow10 n d k then k else decimal_point fuel' n d (k + 1)
  end.

(** [floor (n / (d * 10^s))] *)
Definition digits_floor (n d s : Z) : Z :=
  if 0 <=? s then n / (d * 10 ^ s) else (n * 10 ^ (- s)) / d.

(** Whether [c * 10^s] is nearer to [n / d] than [(c + 1) * 10^s], ties included. *)
Definition nearer_low (n d c s : Z) : bool :=
  if 0 <=? s then 2 * n <=? (2 * c + 1) * 10 ^ s * d
  else 2 * n * 10 ^ (- s) <=? (2 * c + 1) * d.

(** The shortest digits [c] and scale [s] such that [c * 10^s] reads back as [x]. *)
Fixpoint shortest (fuel : nat) (x : float) (n d k p : Z) : Z * Z :=
  let s := k - p in
  let lo := digits_floor n d s in
  let ok_lo := PrimFloat.eqb (of_decimal false lo s) x in
  let ok_hi := PrimFloat.eqb (of_decimal false (lo + 1) s) x in
  match fuel with
  | O => (if nearer_low n d lo s then lo else lo + 1, s)
  | S fuel' =>
      if ok_lo && ok_hi then (if nearer_low n d lo s then lo else lo + 1, s)
      else if ok_lo then (lo, s)
      else if ok_hi then (lo + 1, s)
      else shortest fuel' x n d k (p + 1)
  end.

Fixpoint drop_zeros (fuel : nat) (c s : Z) : Z * Z :=
  match fuel with
  | O => (c, s)
  | S fuel' => if (c mod 10 =? 0) && negb (c =? 0) then drop_zeros fuel' (c / 10) (s + 1) else (c, s)
  end.

Definition zeros (k : Z) : string := fixed_digits (Z.to_nat k) 0.

Definition repr_finite (neg : bool) (m : positive) (e : Z) (x : float) : string :=
  let n := Zpos m * 2 ^ Z.max e 0 in
  let d := 2 ^ Z.max (- e) 0 in
  let b := Z.log2 (Zpos m) + e in
  let k0 := (if 0 <=? b then b * 30102 / 100000 else b * 30103 / 100000) in
  let k := decimal_point 8 n d k0 in
  let '(c, s) := shortest 16 (PrimFloat.abs x) n d k 1 in
  let '(c, s) := drop_zeros 20 c s in
  let ds := str_of_int c in
  let len := Z.of_nat (String.length ds) in
  let decpt := s + len in
  append (if neg then "-" else "")
    (if (decpt <=? -4) || (16 <? decpt) then
       append (substring 0 1 ds)
         (append (if 1 <? len then append "." (substring 1 (String.length ds - 1) ds) else EmptyString)
            (append "e" (append (if decpt - 1 <? 0 then "-" else "+")
               (if Z.abs (decpt - 1) <? 10 then append "0" (str_of_int (Z.abs (decpt - 1)))
                else str_of_int (Z.abs (decpt - 1))))))
     else if decpt <=? 0 then append "0." (append (zeros (- decpt)) ds)
     else if len <=? decpt then append ds (append (zeros (decpt - len)) ".0")
     else append (substring 0 (Z.to_nat decpt) ds)
            (append "." (substring (Z.to_nat decpt) (String.length ds - Z.to_nat decpt) ds))).

(** The shortest decimal text that reads back as [x], in fixed notation
    when the decimal point falls within the first sixteen digits or up to
    four places before them, and in exponent notation otherwise. *)
Definition repr (x : float) : string :=
  match Prim2SF x with
  | S754_nan => "nan"
  | S754_infinity s => if s then "-inf" else "inf"
  | S754_zero s => if s then "-0.0" else "0.0"
  | S754_finite s m e => repr_finite s m e x
  end.

End F64.

(* ================================================================== *)
(** * Data frames *)
(* ================================================================== *)

Module Frame.

Import PyStr F64.

(** The exceptions the modelled code can raise. *)
Inductive error : Type :=
| FileNotFoundError
| KeyError (key : string)
| ValueError (what : string)
| TypeError (what : string).

Inductive result (A : Type) : Type :=
| Ok (a : A)
| Raise (e : error).

Arguments Ok {A} a.
Arguments Raise {A} e.

Definition bind {A B : Type} (r : result A) (k : A -> result B) : result B :=
  match r with
  | Ok a => k a
  | Raise e => Raise e
  end.

Notation "x <- c ;; k" := (bind c (fun x => k))
  (at level 61, c at next level, right associativity).

(** Element by element, stopping at the first exception. *)
Fixpoint traverse {A B : Type} (f : A -> result B) (l : list A) : result (list B) :=
  match l with
  | [] => Ok []
  | a :: r => b <- f a ;; bs <- traverse f r ;; Ok (b :: bs)
  end.

Definition is_ok {A : Type} (r : result A) : bool :=
  match r with Ok _ => true | Raise _ => false end.

(** A column carries its dtype: [int64], [float64], or [object] holding
    text, where a missing cell is [None] (pandas stores NaN there).  These
    are the dtypes [pd.read_csv] gives columns of numbers and of text; a
    column of booleans is not modelled. *)
Inductive column : Type :=
| IntCol (v : list Z)
| FloatCol (v : list float)
| StrCol (v : list (option string)).

(** Columns in display order, each under its label; labels are pairwise
    distinct in a frame read from a file. *)
Definition DataFrame : Type := list (string * column).

Definition labels (df : DataFrame) : list string := map fst df.

Fixpoint assoc {V : Type} (k : string) (l : list (string * V)) : option V :=
  match l with
  | [] => None
  | (k', v) :: r => if String.eqb k k' then Some v else assoc k r
  end.

Definition has_label (k : string) (df : DataFrame) : bool :=
  existsb (String.eqb k) (labels df).

(** [df[k]] *)
Definition get_col (k : string) (df : DataFrame) : result column :=
  match assoc k df with
  | Some c => Ok c
  | None => Raise (KeyError k)
  end.

(** [df[k] = c] on a frame of distinct labels: replaces the column in
    place, appends a new one. *)
Fixpoint set_col (k : string) (c : column) (df : DataFrame) : DataFrame :=
  match df with
  | [] => [(k, c)]
  | (k', c') :: r =>
      if String.eqb k k' then (k, c) :: r else (k', c') :: set_col k c r
  end.

(** The Python objects a column hands to [Series.apply]. *)
Inductive scalar : Type :=
| SInt (z : Z)
| SFloat (x : float)
| SStr (s : string).

Definition scalars (c : column) : list scalar :=
  match c with
  | IntCol v => map SInt v
  | FloatCol v => map SFloat v
  | StrCol v => map (fun o => match o with
                              | Some s => SStr s
                              | None => SFloat PrimFloat.nan
                              end) v
  end.

(** Keeps the rows whose flag is set. *)
Fixpoint select {A : Type} (keep : list bool) (v : list A) : list A :=
  match keep, v with
  | b :: keep', a :: v' => if b then a :: select keep' v' else select keep' v'
  | _, _ => []
  end.

Definition select_rows (keep : list bool) (c : column) : column :=
  match c with
  | IntCol v => IntCol (select keep v)
  | FloatCol v => FloatCol (select keep v)
  | StrCol v => StrCol (select keep v)
  end.

Definition height (c : column) : nat :=
  match c with
  | IntCol v => List.length v
  | FloatCol v => List.length v
  | StrCol v => List.length v
  end.

(** The cell of row [i], as a Python object. *)
Definition cell (c : column) (i : nat) : option scalar := nth_error (scalars c) i.

(** ** [astype] *)

Inductive dtype : Type := int64 | float64.

Definition float_of_text (o : option string) : result float :=
  match o with
  | None => Ok PrimFloat.nan
  | Some s =>
      match py_float s with
      | Some x => Ok x
      | None => Raise (ValueError "could not convert string to float")
      end
  end.

Definition to_float64 (c : column) : result column :=
  match c with
  | IntCol v => Ok (FloatCol (map of_Z v))
  | FloatCol v => Ok (FloatCol v)
  | StrCol v => v' <- traverse float_of_text v ;; Ok (FloatCol v')
  end.

(** Truncation toward zero of a finite float. *)
Definition trunc (x : float) : Z :=
  match Prim2SF x with
  | S754_finite s m e =>
      let a := if 0 <=? e then Zpos m * 2 ^ e else Zpos m / 2 ^ (- e) in
      if s then - a else a
  | _ => 0
  end.

Definition int_of_float (x : float) : result Z :=
  if is_finite x then Ok (trunc x)
  else Raise (ValueError "Cannot convert non-finite values (NA or inf) to integer").

Definition int_of_text (o : option string) : result Z :=
  match o with
  | None => Raise (ValueError "cannot convert float NaN to integer")
  | Some s =>
      match py_int s with
      | Some z => Ok z
      | None => Raise (ValueError "invalid literal for int() with base 10")
      end
  end.

Definition to_int64 (c : column) : result column :=
  match c with
  | IntCol v => Ok (IntCol v)
  | FloatCol v => v' <- traverse int_of_float v ;; Ok (IntCol v')
  | StrCol v => v' <- traverse int_of_text v ;; Ok (IntCol v')
  end.

Definition cast (t : dtype) (c : column) : result column :=
  match t with
  | int64 => to_int64 c
  | float64 => to_float64 c
  end.

Definition has_dtype (t : dtype) (c : column) : bool :=
  match t, c with
  | int64, IntCol _ => true
  | float64, FloatCol _ => true
  | _, _ => false
  end.

(** [df.astype(spec)] for a dict [spec]: every key must label a column
    ([KeyError] otherwise); the columns it names are cast, in column
    order, and the others are kept as they are. *)
Definition astype (spec : list (string * dtype)) (df : DataFrame) : result DataFrame :=
  match find (fun k => negb (has_label k df)) (map fst spec) with
  | Some k => Raise (KeyError k)
  | None =>
      traverse (fun '(l, c) =>
                  match assoc l spec with
                  | Some t => c' <- cast t c ;; Ok (l, c')
                  | None => Ok (l, c)
                  end) df
  end.

End Frame.

(* ================================================================== *)
(** * [nigeria_data_processor.py] *)
(* ================================================================== *)

Module Processor.

Import PyStr F64 Frame.
Local Open Scope string_scope.

(** The table handed to [df.rename(columns=...)]. *)
Definition rename_columns : list (string * string) :=
  [ ("Year", "Year");
    ("Fertility Rate", "Fertility Rate");
    ("GDP (current US$)", "GDP (US$)");
    ("GDP Growth (annual %)", "GDP Growth (%)");
    ("Life Expectancy (Years)", "Life Expectancy");
    ("Female Population (% Total)", "Female Population (%)");
    ("Male Population (% Total)", "Male Population (%)");
    ("Population Growth (annual %)", "Population Growth (%)");
    ("Urban Population Growth (annual %)", "Urban Growth (%)");
    ("Rural Population Growth (annual %)", "Rural Growth (%)");
    ("Employment to population ratio, 15+, total (%) ", "Employment Ratio (%)");
    ("Employment to population ratio, 15+, male (%) ", "Male Employment (%)");
    ("Employment to population ratio, 15+, female (%)", "Female Employment (%)");
    ("Unemployment, female (% of female labor force) ", "Female Unemployment (%)");
    ("Unemployment, male (% of male labor force)", "Male Unemployment (%)");
    ("Unemployment, total (% of total labor force) ", "Unemployment (%)") ].

(** The table handed to [df.astype(...)]. *)
Definition convert_dtype : list (string * dtype) :=
  [ ("Year", int64);
    ("Fertility Rate", float64);
    ("GDP (US$)", float64);
    ("GDP Growth (%)", float64);
    ("Life Expectancy", float64);
    ("Female Population (%)", float64);
    ("Male Population (%)", float64);
    ("Population Growth", float64);
    ("Urban Growth (%)", float64);
    ("Rural Growth (%)", float64);
    ("Employment Ratio (%)", float64);
    ("Male Employment (%)", float64);
    ("Female Employment (%)", float64);
    ("Female Unemployment (%)", float64);
    ("Male Unemployment (%)", float64);
    ("Unemployment (%)", float64) ].

(** [df.rename(columns=rename_columns)]: a label outside the table is kept. *)
Definition rename_label (l : string) : string :=
  match assoc l rename_columns with
  | Some l' => l'
  | None => l
  end.

Definition rename (df : DataFrame) : DataFrame :=
  map (fun '(l, c) => (rename_label l, c)) df.

Definition py_str (x : scalar) : string :=
  match x with
  | SInt z => str_of_int z
  | SFloat f => repr f
  | SStr s => s
  end.

(** [lambda x: int(str(x)[-4:])] *)
Definition year_of (x : scalar) : result Z :=
  match py_int (suffix 4 (py_str x)) with
  | Some z => Ok z
  | None => Raise (ValueError "invalid literal for int() with base 10")
  end.

(** [df["Year"] = df["Year"].apply(...)] *)
Definition normalize_year (df : DataFrame) : result DataFrame :=
  c <- get_col "Year" df ;;
  ys <- traverse year_of (scalars c) ;;
  Ok (set_col "Year" (IntCol ys) df).

(** [lambda x: float(f"{x:.0f}")] *)
Definition whole_units (x : float) : result float :=
  match py_float (format_f 0 x) with
  | Some y => Ok y
  | None => Raise (ValueError "could not convert string to float")
  end.

Definition whole_units_cell (x : scalar) : result float :=
  match x with
  | SInt z => whole_units (of_Z z)
  | SFloat f => whole_units f
  | SStr _ => Raise (ValueError "Unknown format code 'f' for object of type 'str'")
  end.

(** [df['GDP (US$)'] = df['GDP (US$)'].apply(...)] *)
Definition reformat_gdp (df : DataFrame) : result DataFrame :=
  c <- get_col "GDP (US$)" df ;;
  v <- traverse whole_units_cell (scalars c) ;;
  Ok (set_col "GDP (US$)" (FloatCol v) df).

(** [df["Year"] == 2023], row by row. *)
Definition year_is_2023 (c : column) : list bool :=
  match c with
  | IntCol v => map (fun y => Z.eqb y 2023) v
  | FloatCol v => map (fun y => PrimFloat.eqb y 2023%float) v
  | StrCol v => map (fun _ => false) v
  end.

(** [v[hit & (v == 0)] = nan] on float64 values. *)
Fixpoint mask_float (hit : list bool) (v : list float) : list float :=
  match v, hit with
  | x :: v', h :: hit' =>
      (if h && PrimFloat.eqb x 0%float then PrimFloat.nan else x)
        :: mask_float hit' v'
  | _, _ => v
  end.

(** [df.loc[hit & (df[column] == 0), column] = np.nan].  The assignment of
    a float makes an int64 column float64, whether or not a row is hit;
    text never equals [0], and an object column stays as it is. *)
Definition mask_column (hit : list bool) (c : column) : column :=
  match c with
  | FloatCol v => FloatCol (mask_float hit v)
  | IntCol v => FloatCol (mask_float hit (map of_Z v))
  | StrCol v => c
  end.

(** The loop over [df.columns] that skips ["Year"]. *)
Definition mask_zero_2023 (df : DataFrame) : result DataFrame :=
  y <- get_col "Year" df ;;
  Ok (map (fun '(l, c) =>
             if String.eqb l "Year" then (l, c)
             else (l, mask_column (year_is_2023 y) c)) df).

(** [load_and_process_data], from the frame [pd.read_csv] returns (or the
    exception it raises when the file is missing). *)
Definition load_and_process_data (csv : result DataFrame) : result DataFrame :=
  df <- csv ;;
  df <- normalize_year (rename df) ;;
  df <- astype convert_dtype df ;;
  df <- reformat_gdp df ;;
  mask_zero_2023 df.

End Processor.

(* ================================================================== *)
(** * [nigeria_dashboard_app.py] *)
(* ================================================================== *)

Module App.

Import PyStr F64 Frame.

(** ** What a run of the script puts on the page *)

Inductive element : Type :=
| Title (s : string)
| Subheader (s : string)
| Info (s : string)
| ErrorMsg (s : string)
| WriteText (s : string)
| DataTable (df : DataFrame)
| Slider (label : string) (min_value max_value : Z)
| Selectbox (label : string) (options : list string) (index : nat)
| Tabs (names : list string)
| Metric (label value : string) (delta : option string)
| LineChart (title : string) (x : list Z) (y : list (string * column))
| BarChart (title : string) (x : list Z) (y : list (option float)) (bar_text : list string).

(** A script step: the elements written so far, and a value or the
    exception that stopped the run. *)
Definition ui (A : Type) : Type := (list element * result A)%type.

Definition ret {A : Type} (a : A) : ui A := ([], Ok a).

Definition emit (e : element) : ui unit := ([e], Ok tt).

Definition lift {A : Type} (r : result A) : ui A := ([], r).

Definition ubind {A B : Type} (m : ui A) (k : A -> ui B) : ui B :=
  match m with
  | (out, Ok a) => let (out', r) := k a in (out ++ out', r)
  | (out, Raise e) => (out, Raise e)
  end.

Notation "x <~ c ;; k" := (ubind c (fun x => k))
  (at level 61, c at next level, right associativity).
Notation "c ;;; k" := (ubind c (fun _ => k))
  (at level 61, right associativity).

(** The values the widgets hold when the script runs: the two sliders, and
    for each select box the option picked by the user, if any. *)
Record widgets : Type := {
  start_choice : Z;
  end_choice : Z;
  indicator_choice : option string;
  x_choice : option string;
  y_choice : option string
}.

(** ** Helpers of the script *)

Definition end_before_start (start_year end_year : Z) : bool :=
  start_year >? end_year.

(** [Series.min()] and [Series.max()] of a float64 series: NaN entries are
    skipped, and the result is NaN when nothing is left. *)
Definition series_min (v : list float) : float :=
  if forallb PrimFloat.is_nan v then PrimFloat.nan
  else fold_left (fun acc x => if PrimFloat.ltb acc x then acc else x)
         (map (fun x => if PrimFloat.is_nan x then PrimFloat.infinity else x) v)
         PrimFloat.infinity.

Definition series_max (v : list float) : float :=
  if forallb PrimFloat.is_nan v then PrimFloat.nan
  else fold_left (fun acc x => if PrimFloat.ltb x acc then acc else x)
         (map (fun x => if PrimFloat.is_nan x then PrimFloat.neg_infinity else x) v)
         PrimFloat.neg_infinity.

(** The body of [min_max_normalize] on the values of [data[indicator]]. *)
Definition min_max_scale (v : list float) : list float :=
  let min_val := series_min v in
  let max_val := series_max v in
  if PrimFloat.eqb (max_val - min_val) 0 then v
  else map (fun x => ((x - min_val) / (max_val - min_val))%float) v.

(** int64 arithmetic wraps around. *)
Definition wrap64 (z : Z) : Z := (z + 2 ^ 63) mod 2 ^ 64 - 2 ^ 63.

(** The same body on an int64 series: the minimum, the maximum and the
    differences are int64, the division is of their conversions to
    float64.  The minimum of an empty series is NaN, which leaves an empty
    float64 series. *)
Definition min_max_scale_int (v : list Z) : column :=
  match v with
  | [] => FloatCol []
  | z :: r =>
      let min_val := fold_left Z.min r z in
      let max_val := fold_left Z.max r z in
      if wrap64 (max_val - min_val) =? 0 then IntCol v
      else FloatCol (map (fun x => (of_Z (wrap64 (x - min_val))
                                    / of_Z (wrap64 (max_val - min_val)))%float) v)
  end.

(** Subtraction of text raises; an empty series stays empty. *)
Definition min_max_normalize (data : DataFrame) (indicator : string) : result column :=
  c <- get_col indicator data ;;
  match c with
  | FloatCol v => Ok (FloatCol (min_max_scale v))
  | IntCol v => Ok (min_max_scale_int v)
  | StrCol [] => Ok (StrCol [])
  | StrCol _ => Raise (TypeError "unsupported operand type(s) for -: 'str' and 'str'")
  end.

Definition format_large_numbers (value : float) : string :=
  if PrimFloat.leb 1e9 value then append (format_f 2 (value / 1e9)) " Billion"
  else if PrimFloat.leb 1e6 value then append (format_f 2 (value / 1e6)) " Million"
  else if PrimFloat.leb 1e3 value then append (format_f 2 (value / 1e3)) " Thousand"
  else format_f 2 value.

(** ** [display_dashboard] *)

Definition year_values (data : DataFrame) : result (list Z) :=
  c <- get_col "Year" data ;;
  match c with
  | IntCol v => Ok v
  | _ => Raise (TypeError "Year is not int64")
  end.

(** [data[(data["Year"] >= start_year) & (data["Year"] <= end_year)]] *)
Definition in_range (start_year end_year : Z) (years : list Z) : list bool :=
  map (fun y => (start_year <=? y) && (y <=? end_year)) years.

Definition filter_rows (keep : list bool) (data : DataFrame) : DataFrame :=
  map (fun '(l, c) => (l, select_rows keep c)) data.

(** [df.empty]: no column, or no row. *)
Definition empty (data : DataFrame) : bool :=
  match data with
  | [] => true
  | (_, c) :: _ => Nat.eqb (height c) 0
  end.

(** [data.loc[data["Year"] == y, indicator].values], then its first entry,
    or [None] when there is none. *)
Definition value_at (years : list Z) (v : list scalar) (y : Z) : option scalar :=
  hd_error (select (map (Z.eqb y) years) v).

(** [f"{((final_value - initial_value) / initial_value * 100):.2f}%"] *)
Definition percent_change (initial_value final_value : float) : string :=
  append (format_f 2 ((final_value - initial_value) / initial_value * 100)%float) "%".

(** The [delta] handed to the end-year metric. *)
Definition delta_of (initial_value : option float) (final_value : float) : option string :=
  match initial_value with
  | None => None
  | Some i => Some (percent_change i final_value)
  end.

(** [format_large_numbers] on an entry of the table: a float64 as it is,
    an int64 through its conversion (the thresholds are whole numbers, and
    the division and the [.2f] format convert it); on text the first
    comparison raises. *)
Definition format_cell (x : scalar) : result string :=
  match x with
  | SFloat f => Ok (format_large_numbers f)
  | SInt z => Ok (format_large_numbers (of_Z z))
  | SStr _ => Raise (TypeError "'>=' not supported between instances of 'str' and 'float'")
  end.

(** The [delta] expression on two entries.  Between two int64 the
    difference is an int64 and wraps around, and the division is of the
    conversions to float64. *)
Definition delta_cell (initial_value : option scalar) (final_value : scalar)
    : result (option string) :=
  match initial_value, final_value with
  | None, _ => Ok None
  | Some (SFloat i), SFloat f => Ok (delta_of (Some i) f)
  | Some (SInt i), SInt f =>
      Ok (Some (append (format_f 2 (of_Z (wrap64 (f - i)) / of_Z i * 100)%float) "%"))
  | Some (SInt i), SFloat f => Ok (delta_of (Some (of_Z i)) f)
  | Some (SFloat i), SInt f => Ok (delta_of (Some i) (of_Z f))
  | Some _, _ => Raise (TypeError "unsupported operand type(s) for -")
  end.

(** The height of a bar: the entry as a float64, nothing for a missing or
    a text entry.  The chart draws an int64 entry at its conversion. *)
Definition chart_value (o : option scalar) : option float :=
  match o with
  | Some (SFloat x) => Some x
  | Some (SInt z) => Some (of_Z z)
  | _ => None
  end.

(** [comparison_df["Value"].apply(format_large_numbers)]: beside a number
    a missing value is stored as NaN; two missing values leave a column of
    [None], on which the comparison with a float raises. *)
Definition bar_text (o : option scalar) : result string :=
  match o with
  | Some x => format_cell x
  | None => Ok (format_large_numbers PrimFloat.nan)
  end.

Definition bar_texts (initial_value final_value : option scalar) : result (list string) :=
  match initial_value, final_value with
  | None, None =>
      Raise (TypeError "'>=' not supported between instances of 'NoneType' and 'float'")
  | _, _ =>
      a <- bar_text initial_value ;;
      b <- bar_text final_value ;;
      Ok [a; b]
  end.

(** [options.index(x)] *)
Fixpoint index_of (x : string) (options : list string) : result nat :=
  match options with
  | [] => Raise (ValueError (append "'" (append x "' is not in list")))
  | o :: r => if String.eqb o x then Ok O else n <- index_of x r ;; Ok (S n)
  end.

(** [st.selectbox]: the option the user picked, the one at [index] before
    any pick. *)
Definition selectbox (label : string) (options : list string) (index : nat)
    (pick : option string) : ui string :=
  emit (Selectbox label options index) ;;;
  ret (match pick with
       | Some s => s
       | None => nth index options EmptyString
       end).

Definition chart_series (data : DataFrame) (name : string) : result (string * column) :=
  match assoc name data with
  | Some c => Ok (name, c)
  | None => Raise (ValueError "Value of 'y' is not the name of a column in 'data_frame'")
  end.

Definition trend_tab (data : DataFrame) (start_year end_year : Z) (indicator : string) : ui unit :=
  emit (Subheader (append indicator (append " Trend from "
         (append (str_of_int start_year) (append " to " (str_of_int end_year)))))) ;;;
  years <~ lift (year_values data) ;;
  let filtered_data := filter_rows (in_range start_year end_year years) data in
  if negb (empty filtered_data) then
    s <~ lift (chart_series filtered_data indicator) ;;
    x <~ lift (year_values filtered_data) ;;
    emit (LineChart (append indicator (append " Trend ("
           (append (str_of_int start_year) (append "-"
             (append (str_of_int end_year) ")"))))) x [s])
  else emit (ErrorMsg "No data available for the selected range.").

Definition compare_tab (data : DataFrame) (start_year end_year : Z) (indicator : string) : ui unit :=
  emit (Subheader (append "Comparison of " (append indicator (append " between "
         (append (str_of_int start_year) (append " and " (str_of_int end_year))))))) ;;;
  years <~ lift (year_values data) ;;
  c <~ lift (get_col indicator data) ;;
  let initial_value := value_at years (scalars c) start_year in
  let final_value := value_at years (scalars c) end_year in
  (match initial_value with
   | Some i =>
       t <~ lift (format_cell i) ;;
       emit (Metric (append indicator (append " (" (append (str_of_int start_year) ")")))
                    t None)
   | None => emit (WriteText (append "No data for " (str_of_int start_year)))
   end) ;;;
  (match final_value with
   | Some f =>
       d <~ lift (delta_cell initial_value f) ;;
       t <~ lift (format_cell f) ;;
       emit (Metric (append indicator (append " (" (append (str_of_int end_year) ")")))
                    t d)
   | None => emit (WriteText (append "No data for " (str_of_int end_year)))
   end) ;;;
  t <~ lift (bar_texts initial_value final_value) ;;
  emit (BarChart (append indicator (append " Comparison ("
         (append (str_of_int start_year) (append " vs "
           (append (str_of_int end_year) ")")))))
         [start_year; end_year] [chart_value initial_value; chart_value final_value] t).

Definition relationship_tab (data : DataFrame) (start_year end_year : Z)
    (related_indicators : list string) (w : widgets) : ui unit :=
  emit (Subheader "Compare Indicators Over Time (Normalized)") ;;;
  let default_x := "GDP (US$)"%string in
  let default_y := "Population Growth"%string in
  ix <~ lift (index_of default_x related_indicators) ;;
  x_indicator <~ selectbox "Select X-axis Indicator" related_indicators ix (x_choice w) ;;
  iy <~ lift (index_of default_y related_indicators) ;;
  y_indicator <~ selectbox "Select Y-axis Indicator" related_indicators iy (y_choice w) ;;
  years <~ lift (year_values data) ;;
  let line_data := filter_rows (in_range start_year end_year years) data in
  nx <~ lift (min_max_normalize line_data x_indicator) ;;
  let line_data := set_col x_indicator nx line_data in
  ny <~ lift (min_max_normalize line_data y_indicator) ;;
  let line_data := set_col y_indicator ny line_data in
  if negb (empty line_data) then
    sx <~ lift (chart_series line_data x_indicator) ;;
    sy <~ lift (chart_series line_data y_indicator) ;;
    x <~ lift (year_values line_data) ;;
    emit (LineChart EmptyString x
            (if String.eqb x_indicator y_indicator then [sx] else [sx; sy]))
  else emit (ErrorMsg "No data available for the selected range.").

Definition display_dashboard (data : DataFrame) (start_year end_year : Z)
    (indicator : string) (related_indicators : list string) (w : widgets) : ui unit :=
  emit (Tabs ["📈 Trend Analysis"; "📊 Compare Years"; "🔗 Indicator Relationships"]%string) ;;;
  trend_tab data start_year end_year indicator ;;;
  compare_tab data start_year end_year indicator ;;;
  relationship_tab data start_year end_year related_indicators w.

(** ** [main] *)

(** [int(data["Year"].min())] and [int(data["Year"].max())]: the minimum of
    an empty column is NaN, which [int] refuses. *)
Definition year_bound (pick : Z -> Z -> Z) (years : list Z) : result Z :=
  match years with
  | [] => Raise (ValueError "cannot convert float NaN to integer")
  | y :: r => Ok (fold_left pick r y)
  end.

Definition year_as_text (data : DataFrame) : result DataFrame :=
  years <- year_values data ;;
  Ok (set_col "Year" (StrCol (map (fun y => Some (str_of_int y)) years)) data).

Definition main (loaded : result DataFrame) (w : widgets) : ui unit :=
  emit (Title "Nigeria Economic and Demographic Dashboard") ;;;
  data <~ lift loaded ;;
  display_df <~ lift (year_as_text data) ;;
  emit (DataTable display_df) ;;;
  emit (Info "Explore more global economic and demographic data on [World Bank Open Data](https://data.worldbank.org/).") ;;;
  let indicator_options := filter (fun l => negb (String.eqb l "Year")) (labels data) in
  years <~ lift (year_values data) ;;
  lo <~ lift (year_bound Z.min years) ;;
  hi <~ lift (year_bound Z.max years) ;;
  emit (Slider "Start Year" lo hi) ;;;
  let start_year := start_choice w in
  emit (Slider "End Year" lo hi) ;;;
  let end_year := end_choice w in
  indicator <~ selectbox "Indicator" indicator_options 0 (indicator_choice w) ;;
  if end_before_start start_year end_year then
    emit (ErrorMsg "End year must be greater than or equal to start year.")
  else display_dashboard data start_year end_year indicator indicator_options w.

End App.

(* ================================================================== *)
(** * binary64 values on the integer line *)
(* ================================================================== *)

Module Rounding.

Import F64.

(** The value of a float in units of 2^-1074, the infinities standing at
    the first power of two no finite value reaches. *)
Definition rank (x : spec_float) : Z :=
  match x with
  | S754_zero _ => 0
  | S754_finite s m e => cond_Zopp s (Zpos m * 2 ^ (e + 1074))
  | S754_infinity s => cond_Zopp s (2 ^ 2098)
  | S754_nan => 0
  end.

Definition not_nan (x : spec_float) : bool :=
  match x with S754_nan => false | _ => true end.

Definition is_fin (x : spec_float) : bool :=
  match x with
  | S754_zero _ | S754_finite _ _ _ => true
  | _ => false
  end.

(** The place of a float64 on the line. *)
Definition frank (x : float) : Z := rank (Prim2SF x).

(** A shift record [mrs] stands for the quotient [a / d]: its mantissa is
    the integer part, its two flags tell whether the remainder reaches the
    half, and whether it is neither nothing nor the half. *)
Definition represents (a d : Z) (mrs : shr_record) : Prop :=
  shr_m mrs = a / d /\
  shr_r mrs = (d <=? 2 * (a mod d)) /\
  shr_s mrs = negb ((a mod d =? 0) || (2 * (a mod d) =? d)).

(** Rounding of a non-negative integer (a value in units of 2^-1074) to 53
    significant bits, ties to even. *)
Definition round53 (n : Z) : Z :=
  let k := Z.max (Z.log2 n + 1 - 53) 0 in
  round_half_even n (2 ^ k) * 2 ^ k.

(** The rank of the float nearest to the value of rank [z]: rounding on
    both sides of zero, the infinities taking what is too large. *)
Definition rnd (z : Z) : Z :=
  Z.sgn z * Z.min (round53 (Z.abs z)) (2 ^ 2098).

(** The last step of [binary_round_aux]: the rounded mantissa is shifted
    once more if it needs it, and packed. *)
Definition finish (s : bool) (m e : Z) : spec_float :=
  let '(mrs, e') := shr_fexp prec emax m e loc_Exact in
  match shr_m mrs with
  | Z0 => S754_zero s
  | Zpos p => if e' <=? emax - prec then S754_finite s p e' else S754_infinity s
  | Zneg _ => S754_nan
  end.

End Rounding.

(* ================================================================== *)
(** * Vocabulary of the properties *)
(* ================================================================== *)

Module Spec.

Import PyStr F64 Frame Processor App.

(** The elements that belong to the three views of [display_dashboard]. *)
Definition is_view (e : element) : bool :=
  match e with
  | Tabs _ | Subheader _ | Metric _ _ _ | WriteText _
  | LineChart _ _ _ | BarChart _ _ _ _ => true
  | _ => false
  end.

(** A number printed with exactly two digits after the point: an optional
    minus sign, the integer part of [n / 100], the point, two digits. *)
Definition two_decimals (neg : bool) (n : Z) : string :=
  append (if neg then "-" else "")
    (append (str_of_int (n / 100))
       (append "."
          (String (digit_char (n / 10 mod 10))
             (String (digit_char (n mod 10)) EmptyString)))).

(** [x == 0] on a cell. *)
Definition is_zero (x : scalar) : bool :=
  match x with
  | SInt z => z =? 0
  | SFloat f => PrimFloat.eqb f 0
  | SStr _ => false
  end.

(** A cell of a column that became float64: an integer is converted (to
    the nearest float64), a float and a text are themselves. *)
Definition widened (x : scalar) : scalar :=
  match x with
  | SInt z => SFloat (of_Z z)
  | _ => x
  end.

(** What the last step leaves of a cell outside ["Year"]: the marker NaN
    where the row is flagged and the cell equals zero, the cell itself
    otherwise, converted to float64 when it was an integer. *)
Definition masked (hit : bool) (x : scalar) : scalar :=
  if hit && is_zero x then SFloat PrimFloat.nan else widened x.

(** What [astype] relates: same label, the column cast when the table
    names it and kept otherwise. *)
Definition cast_entry (spec : list (string * dtype)) (a b : string * column) : Prop :=
  fst b = fst a /\
  match assoc (fst a) spec with
  | Some t => cast t (snd a) = Ok (snd b)
  | None => snd b = snd a
  end.

(** A source of two rows that carries every column the cast table names
    and one more, a text column. *)
Definition sample_frame : DataFrame :=
  [ ("Year", IntCol [2022; 2023]);
    ("Fertility Rate", FloatCol [5.25; 0]%float);
    ("GDP (current US$)", IntCol [472624597380; 0]);
    ("GDP Growth (annual %)", FloatCol [3.25; 2.75]%float);
    ("Life Expectancy (Years)", FloatCol [53.5; 0]%float);
    ("Female Population (% Total)", FloatCol [49.5; 49.5]%float);
    ("Male Population (% Total)", FloatCol [50.5; 50.5]%float);
    ("Population Growth", FloatCol [2.5; 2.5]%float);
    ("Urban Population Growth (annual %)", FloatCol [3.75; 3.5]%float);
    ("Rural Population Growth (annual %)", FloatCol [1; 0.75]%float);
    ("Employment to population ratio, 15+, total (%) ", FloatCol [56.5; 0]%float);
    ("Employment to population ratio, 15+, male (%) ", FloatCol [61.5; 0]%float);
    ("Employment to population ratio, 15+, female (%)", FloatCol [51.5; 0]%float);
    ("Unemployment, female (% of female labor force) ", FloatCol [4.25; 0]%float);
    ("Unemployment, male (% of male labor force)", FloatCol [3.5; 0]%float);
    ("Unemployment, total (% of total labor force) ", FloatCol [3.75; 0]%float);
    ("Notes", StrCol [Some "revised"; Some "provisional"]) ]%string.

(** Decimal digits, each after the first optionally preceded by one
    underscore, and the number they write. *)
Inductive digit_run : list ascii -> Z -> Prop :=
| run_first (d : ascii) :
    is_digit d = true -> digit_run [d] (digit_value d)
| run_digit (l : list ascii) (v : Z) (d : ascii) :
    digit_run l v -> is_digit d = true ->
    digit_run (l ++ [d]) (10 * v + digit_value d)
| run_under (l : list ascii) (v : Z) (d : ascii) :
    digit_run l v -> is_digit d = true ->
    digit_run (l ++ ["_"%char; d]) (10 * v + digit_value d).

Definition sign_of (l : list ascii) (neg : bool) : Prop :=
  (l = [] /\ neg = false) \/ (l = ["+"%char] /\ neg = false) \/
  (l = ["-"%char] /\ neg = true).

(** The texts [int] accepts, with the integer each one writes: blanks, an
    optional sign, a run of digits, blanks. *)
Definition int_literal (l : list ascii) (z : Z) : Prop :=
  exists ws1 sgn body ws2 neg v,
    l = ws1 ++ sgn ++ body ++ ws2 /\
    forallb is_space ws1 = true /\ forallb is_space ws2 = true /\
    sign_of sgn neg /\ digit_run body v /\ z = (if neg then - v else v).

(** A character of the ASCII range. *)
Definition is_ascii (c : ascii) : bool := code c <? 128.

(** Pairwise distinct labels. *)
Fixpoint distinct (l : list string) : bool :=
  match l with
  | [] => true
  | a :: r => negb (existsb (String.eqb a) r) && distinct r
  end.

(** An object column. *)
Definition is_text (c : column) : bool :=
  match c with
  | StrCol _ => true
  | _ => false
  end.

(** What the rule for 2023 relates, for the [Year] values [years] of the
    table: same label, same height, the cells of [Year] kept and every
    other cell [masked] by whether its row is one of 2023. *)
Definition mask_entry (years : list Z) (a b : string * column) : Prop :=
  fst b = fst a /\ (height (snd b) = height (snd a))%nat /\
  forall (i : nat) (x : scalar),
    cell (snd a) i = Some x ->
    cell (snd b) i =
    Some (if String.eqb (fst a) "Year" then x else masked (nth i years 0 =? 2023) x).

(** [sample_frame] with one more column, of integers read as int64. *)
Definition counted_frame : DataFrame :=
  sample_frame ++ [ ("Count"%string, IntCol [9007199254740993; 0]) ].

(** [0 <= r <= 1] *)
Definition in_unit (r : float) : bool := PrimFloat.leb 0 r && PrimFloat.leb r 1.

End Spec.

(* ================================================================== *)
(** * Properties *)
(* ================================================================== *)

Import PyStr F64 Frame Processor App Rounding Spec.

(** ** Comparisons of floats with zero *)

Lemma below_zero_cases (x : float) :
  PrimFloat.ltb x 0 = true ->
  Prim2SF x = S754_infinity true \/ exists m e, Prim2SF x = S754_finite true m e.
Proof.
  rewrite ltb_spec. change (Prim2SF 0) with (S754_zero false).
  destruct (Prim2SF x) as [s|s| |s m e]; cbn; try discriminate;
    destruct s; try discriminate; eauto.
Qed.

Lemma below_zero_not_above (x c : float) :
  PrimFloat.ltb x 0 = true -> PrimFloat.ltb 0 c = true -> PrimFloat.leb c x = false.
Proof.
  intros Hx Hc. apply below_zero_cases in Hx.
  rewrite ltb_spec in Hc. change (Prim2SF 0) with (S754_zero false) in Hc.
  rewrite leb_spec.
  destruct (Prim2SF c) as [s|s| |s m e]; cbn in Hc; try discriminate;
    destruct s; try discriminate;
    destruct Hx as [-> | (m' & e' & ->)]; reflexivity.
Qed.

(** ** The fixed-point format *)

Lemma scaled_nonneg (p : nat) (m : positive) (e : Z) : 0 <= scaled p m e.
Proof.
  unfold scaled, round_half_even.
  assert (0 < 10 ^ Z.of_nat p) by (apply Z.pow_pos_nonneg; lia).
  destruct (0 <=? e) eqn:He.
  - apply Z.leb_le in He. assert (0 < 2 ^ e) by (apply Z.pow_pos_nonneg; lia). nia.
  - apply Z.leb_gt in He. assert (0 < 2 ^ (- e)) by (apply Z.pow_pos_nonneg; lia).
    assert (0 <= Z.pos m * 10 ^ Z.of_nat p / 2 ^ (- e)) by (apply Z.div_pos; nia).
    destruct (_ ?= _); [destruct (Z.even _)| |]; lia.
Qed.

Lemma format_f_two_decimals (x : float) :
  is_finite x = true ->
  exists neg n, 0 <= n /\ format_f 2 x = two_decimals neg n.
Proof.
  unfold is_finite, format_f.
  destruct (Prim2SF x) as [s|s| |s m e]; try discriminate; intros _.
  - exists s, 0. split; [lia | reflexivity].
  - exists s, (scaled 2 m e). split; [apply scaled_nonneg | reflexivity].
Qed.

(** ** [format_large_numbers] *)

(** C8. [format_large_numbers] divides by 1e9 and appends " Billion" from
    1e9 on, divides by 1e6 and appends " Million" from 1e6 on, divides by
    1e3 and appends " Thousand" from 1e3 on, and prints the value itself
    below; the number is always printed by the two-decimal format, which
    shows exactly two digits after the point for a finite number; the four
    sample values of the specification print as it says. *)
Theorem format_large_numbers_units :
  (forall value : float,
      (PrimFloat.leb 1e9 value = true ->
       format_large_numbers value = append (format_f 2 (value / 1e9)) " Billion") /\
      (PrimFloat.leb 1e9 value = false -> PrimFloat.leb 1e6 value = true ->
       format_large_numbers value = append (format_f 2 (value / 1e6)) " Million") /\
      (PrimFloat.leb 1e9 value = false -> PrimFloat.leb 1e6 value = false ->
       PrimFloat.leb 1e3 value = true ->
       format_large_numbers value = append (format_f 2 (value / 1e3)) " Thousand") /\
      (PrimFloat.leb 1e9 value = false -> PrimFloat.leb 1e6 value = false ->
       PrimFloat.leb 1e3 value = false ->
       format_large_numbers value = format_f 2 value)) /\
  (forall y : float, is_finite y = true ->
      exists neg n, 0 <= n /\ format_f 2 y = two_decimals neg n) /\
  format_large_numbers 2500000000 = "2.50 Billion"%string /\
  format_large_numbers 3400000 = "3.40 Million"%string /\
  format_large_numbers 5200 = "5.20 Thousand"%string /\
  format_large_numbers 42 = "42.00"%string.
Proof.
  split; [|split; [exact format_f_two_decimals | repeat split; vm_compute; reflexivity]].
  intros value. unfold format_large_numbers.
  repeat split; intros; repeat match goal with H : _ = _ |- _ => rewrite H end; reflexivity.
Qed.

(** C10. A finite negative value fails the three threshold tests, so it is
    printed as it is: a minus sign, the integer part, the point and two
    digits, with no unit after them. *)
Theorem format_large_numbers_negative (x : float) :
  is_finite x = true -> PrimFloat.ltb x 0 = true ->
  (PrimFloat.leb 1e9 x = false /\ PrimFloat.leb 1e6 x = false /\
   PrimFloat.leb 1e3 x = false) /\
  format_large_numbers x = format_f 2 x /\
  exists n : Z, 0 <= n /\ format_large_numbers x = two_decimals true n.
Proof.
  intros Hf Hx.
  assert (H9 : PrimFloat.leb 1e9 x = false)
    by (apply below_zero_not_above; [exact Hx | reflexivity]).
  assert (H6 : PrimFloat.leb 1e6 x = false)
    by (apply below_zero_not_above; [exact Hx | reflexivity]).
  assert (H3 : PrimFloat.leb 1e3 x = false)
    by (apply below_zero_not_above; [exact Hx | reflexivity]).
  assert (E : format_large_numbers x = format_f 2 x)
    by (unfold format_large_numbers; now rewrite H9, H6, H3).
  split; [auto|]. split; [exact E|]. rewrite E.
  apply below_zero_cases in Hx. unfold is_finite in Hf. unfold format_f.
  destruct Hx as [E' | (m & e & E')]; rewrite E' in *; [discriminate|].
  exists (scaled 2 m e). split; [apply scaled_nonneg | reflexivity].
Qed.

Lemma format_large_numbers_negative_witness :
  format_large_numbers (-2.5e9) = "-2500000000.00"%string /\
  exists n : Z, 0 <= n /\ format_large_numbers (-2.5e9) = two_decimals true n.
Proof.
  split; [vm_compute; reflexivity|].
  apply (format_large_numbers_negative (-2.5e9)); vm_compute; reflexivity.
Defined.

(** ** The validation gate of [main] *)

(** C9. [end_before_start] answers [True] exactly when the start year is
    greater than the end year; when it does, [main] writes none of the
    elements of the views, and once the table is loaded the page is the
    title, the data table, the note, the three controls and the validation
    message, in that order. *)
Theorem end_before_start_gate :
  (forall start_year end_year : Z,
      end_before_start start_year end_year = true <-> start_year > end_year) /\
  end_before_start 2005 2000 = true /\
  end_before_start 2000 2005 = false /\
  (forall (loaded : result DataFrame) (w : widgets),
      end_before_start (start_choice w) (end_choice w) = true ->
      forallb (fun e => negb (is_view e)) (fst (main loaded w)) = true /\
      (forall data years,
          loaded = Ok data -> year_values data = Ok years -> years <> [] ->
          main loaded w =
          ([ Title "Nigeria Economic and Demographic Dashboard";
             DataTable (set_col "Year"
                          (StrCol (map (fun y => Some (str_of_int y)) years)) data);
             Info "Explore more global economic and demographic data on [World Bank Open Data](https://data.worldbank.org/).";
             Slider "Start Year" (fold_left Z.min (tl years) (hd 0 years))
                                 (fold_left Z.max (tl years) (hd 0 years));
             Slider "End Year" (fold_left Z.min (tl years) (hd 0 years))
                               (fold_left Z.max (tl years) (hd 0 years));
             Selectbox "Indicator"
               (filter (fun l => negb (String.eqb l "Year")) (labels data)) 0;
             ErrorMsg "End year must be greater than or equal to start year." ],
           Ok tt))).
Proof.
  split; [|split; [reflexivity | split; [reflexivity|]]].
  - intros s e. unfold end_before_start. rewrite Z.gtb_ltb, Z.ltb_lt. lia.
  - intros loaded w G. unfold main. split.
    + destruct loaded as [data|e]; [|reflexivity].
      cbn. unfold year_as_text. destruct (year_values data) as [years|e]; [|reflexivity].
      cbn. destruct years as [|y ys]; [reflexivity|].
      cbn. rewrite G. reflexivity.
    + intros data years -> Hy Hne. cbn. unfold year_as_text. rewrite Hy.
      destruct years as [|y ys]; [congruence|]. cbn. rewrite G. reflexivity.
Qed.

(** ** The comparison view *)

(** C1, at the input where the code departs from it: with a start value of
    zero the end-year metric carries the text "inf%" (or "nan%" when the
    end value is zero too), while 100 and 150 give "50.00%" and a missing
    start value gives no delta. *)
Theorem comparison_zero_start :
  delta_of (Some 100%float) 150 = Some "50.00%"%string /\
  delta_of None 150 = None /\
  delta_of (Some 0%float) 150 = Some "inf%"%string /\
  delta_of (Some 0%float) 0 = Some "nan%"%string /\
  fst (compare_tab [("Year"%string, IntCol [2000; 2005]);
                    ("GDP Growth (%)"%string, FloatCol [0%float; 150%float])]
         2000 2005 "GDP Growth (%)")
  = [ Subheader "Comparison of GDP Growth (%) between 2000 and 2005";
      Metric "GDP Growth (%) (2000)" "0.00" None;
      Metric "GDP Growth (%) (2005)" "150.00" (Some "inf%"%string);
      BarChart "GDP Growth (%) Comparison (2000 vs 2005)" [2000; 2005]
        [Some 0%float; Some 150%float] ["0.00"%string; "150.00"%string] ].
Proof. repeat split; vm_compute; reflexivity. Qed.


(** ** The exception monad and the list helpers *)

Lemma bind_ok {A B : Type} (r : result A) (k : A -> result B) (b : B) :
  bind r k = Ok b -> exists a, r = Ok a /\ k a = Ok b.
Proof. destruct r as [a|e]; cbn; [eauto | discriminate]. Qed.

Lemma traverse_ok {A B : Type} (f : A -> result B) (l : list A) (l' : list B) :
  traverse f l = Ok l' -> Forall2 (fun a b => f a = Ok b) l l'.
Proof.
  revert l'. induction l as [|a l IH]; cbn; intros l' H.
  - injection H as <-. constructor.
  - apply bind_ok in H as (b & Hb & H). apply bind_ok in H as (bs & Hbs & H).
    injection H as <-. constructor; auto.
Qed.

Lemma traverse_raise {A B : Type} (f : A -> result B) (l : list A) (a : A) (e : error) :
  In a l -> f a = Raise e -> exists e', traverse f l = Raise e'.
Proof.
  induction l as [|a' l IH]; cbn; [tauto|]. intros [->|Hin] Hf.
  - rewrite Hf. cbn. eauto.
  - destruct (f a') as [b|e0]; cbn; [|eauto].
    destruct (IH Hin Hf) as (e' & ->). cbn. eauto.
Qed.

Lemma assoc_In {V : Type} (k : string) (l : list (string * V)) (v : V) :
  assoc k l = Some v -> In (k, v) l.
Proof.
  induction l as [|[k' v'] l IH]; cbn; [discriminate|].
  destruct (String.eqb_spec k k') as [->|Hne]; intros H.
  - injection H as ->. now left.
  - right. auto.
Qed.

Lemma assoc_None {V : Type} (k : string) (l : list (string * V)) :
  assoc k l = None <-> ~ In k (map fst l).
Proof.
  induction l as [|[k' v'] l IH]; cbn; [tauto|].
  destruct (String.eqb_spec k k') as [->|Hne].
  - split; [discriminate | intros H; exfalso; apply H; now left].
  - rewrite IH. split; [intros H [E|E]; [congruence | tauto] | tauto].
Qed.

Lemma has_label_In (k : string) (df : DataFrame) :
  has_label k df = true <-> In k (labels df).
Proof.
  unfold has_label. rewrite existsb_exists. split.
  - intros (x & Hx & E). apply String.eqb_eq in E. now subst.
  - intros H. exists k. split; [exact H | apply String.eqb_refl].
Qed.

Lemma get_col_ok (k : string) (df : DataFrame) (c : column) :
  get_col k df = Ok c <-> assoc k df = Some c.
Proof.
  unfold get_col. destruct (assoc k df); split; intros H; try discriminate;
    injection H as ->; reflexivity.
Qed.

Lemma assoc_set_col (k k' : string) (c : column) (df : DataFrame) :
  assoc k (set_col k' c df) = if String.eqb k k' then Some c else assoc k df.
Proof.
  induction df as [|[l c0] df IH]; cbn.
  - destruct (String.eqb k k'); reflexivity.
  - destruct (String.eqb_spec k' l) as [->|Hne]; cbn.
    + destruct (String.eqb k l); reflexivity.
    + rewrite IH. destruct (String.eqb_spec k l) as [->|Hne'];
        destruct (String.eqb_spec l k'); congruence.
Qed.

Lemma labels_set_col (k : string) (c c0 : column) (df : DataFrame) :
  assoc k df = Some c0 -> labels (set_col k c df) = labels df.
Proof.
  induction df as [|[l c1] df IH]; cbn; [discriminate|].
  destruct (String.eqb_spec k l) as [->|Hne]; cbn; intros H; [reflexivity|].
  f_equal. now apply IH.
Qed.

(** [set_col] on a label the frame has touches that column only. *)
Lemma nth_error_set_col (k : string) (c : column) (df : DataFrame) (j : nat) (l : string) (c0 : column) :
  has_label k df = true -> nth_error df j = Some (l, c0) -> l <> k ->
  nth_error (set_col k c df) j = Some (l, c0).
Proof.
  revert j. induction df as [|[l1 c1] df IH]; intros j Hk Hj Hne; [destruct j; discriminate|].
  cbn. destruct (String.eqb_spec k l1) as [->|Hne1].
  - destruct j; cbn in *; [congruence | exact Hj].
  - destruct j; cbn in *; [exact Hj|]. apply IH; auto.
    unfold has_label in *. cbn in Hk.
    destruct (String.eqb_spec k l1); [congruence | exact Hk].
Qed.

(** ** The rule for 2023 *)

Lemma nth_error_mask_float (hit : list bool) (v : list float) (i : nat) :
  nth_error (mask_float hit v) i =
  option_map (fun x => if nth i hit false && PrimFloat.eqb x 0 then PrimFloat.nan else x)
    (nth_error v i).
Proof.
  revert hit i. induction v as [|x v IH]; intros hit i.
  - destruct hit, i; reflexivity.
  - destruct hit as [|h hit].
    + cbn. destruct i; cbn; [reflexivity|].
      destruct (nth_error v i); cbn; [|reflexivity]. now destruct i.
    + destruct i; cbn; [reflexivity | apply IH].
Qed.

Lemma mask_zero_2023_ok (df out : DataFrame) :
  mask_zero_2023 df = Ok out ->
  exists y, assoc "Year" df = Some y /\
    out = map (fun '(l, c) => if String.eqb l "Year" then (l, c)
                              else (l, mask_column (year_is_2023 y) c)) df.
Proof.
  unfold mask_zero_2023. intros H. apply bind_ok in H as (y & Hy & H).
  injection H as <-. exists y. split; [now apply get_col_ok | reflexivity].
Qed.

Lemma assoc_mask (k : string) (y : column) (df : DataFrame) :
  assoc k (map (fun '(l, c) => if String.eqb l "Year" then (l, c)
                               else (l, mask_column (year_is_2023 y) c)) df)
  = option_map (fun c => if String.eqb k "Year" then c
                         else mask_column (year_is_2023 y) c) (assoc k df).
Proof.
  induction df as [|[l c] df IH]; cbn; [reflexivity|].
  destruct (String.eqb l "Year") eqn:El; cbn;
    destruct (String.eqb_spec k l) as [->|Hk]; cbn; auto; now rewrite El.
Qed.



(** ** The steps of [load_and_process_data] *)

Lemma assoc_of_label {V : Type} (k : string) (l : list (string * V)) :
  In k (map fst l) -> exists v, assoc k l = Some v.
Proof.
  intros H. destruct (assoc k l) as [v|] eqn:E; [eauto|].
  apply assoc_None in E. contradiction.
Qed.

Lemma normalize_year_ok (df d1 : DataFrame) :
  normalize_year df = Ok d1 ->
  exists c ys, assoc "Year" df = Some c /\ traverse year_of (scalars c) = Ok ys /\
               d1 = set_col "Year" (IntCol ys) df.
Proof.
  unfold normalize_year. intros H.
  apply bind_ok in H as (c & Hc & H). apply bind_ok in H as (ys & Hys & H).
  injection H as <-. apply get_col_ok in Hc. eauto.
Qed.

Lemma reformat_gdp_ok (df d3 : DataFrame) :
  reformat_gdp df = Ok d3 ->
  exists c v, assoc "GDP (US$)" df = Some c /\ d3 = set_col "GDP (US$)" (FloatCol v) df.
Proof.
  unfold reformat_gdp. intros H.
  apply bind_ok in H as (c & Hc & H). apply bind_ok in H as (v & Hv & H).
  injection H as <-. apply get_col_ok in Hc. eauto.
Qed.

Lemma astype_ok (spec : list (string * dtype)) (df out : DataFrame) :
  astype spec df = Ok out ->
  (forall k, In k (map fst spec) -> In k (labels df)) /\
  Forall2 (cast_entry spec) df out.
Proof.
  unfold astype. destruct (find _ _) as [k|] eqn:Hf; [discriminate|]. intros H. split.
  - intros k Hk. apply has_label_In.
    pose proof (find_none _ _ Hf k Hk) as Hn. cbn in Hn.
    now apply negb_false_iff in Hn.
  - apply traverse_ok in H. clear Hf.
    induction H as [|[l c] [l' c'] df out Hab H IH]; constructor; [|exact IH].
    unfold cast_entry. cbn in *. destruct (assoc l spec) as [t|].
    + apply bind_ok in Hab as (c0 & Hc0 & E). injection E as <- <-.
      split; [reflexivity | exact Hc0].
    + injection Hab as <- <-. split; reflexivity.
Qed.

Lemma astype_missing (spec : list (string * dtype)) (df : DataFrame) (k : string) :
  In k (map fst spec) -> ~ In k (labels df) ->
  exists k', astype spec df = Raise (KeyError k') /\
             In k' (map fst spec) /\ ~ In k' (labels df).
Proof.
  intros Hk Hn. unfold astype. destruct (find _ _) as [k'|] eqn:Hf.
  - apply find_some in Hf as (Hin & Hl). exists k'. repeat split; auto.
    apply negb_true_iff in Hl. intros C. apply has_label_In in C. congruence.
  - pose proof (find_none _ _ Hf k Hk) as C. cbn in C. apply negb_false_iff in C.
    apply has_label_In in C. contradiction.
Qed.

Lemma Forall2_labels (spec : list (string * dtype)) (df out : DataFrame) :
  Forall2 (cast_entry spec) df out -> labels out = labels df.
Proof.
  unfold labels. induction 1 as [|a b df out (E & _) _ IH]; cbn; [reflexivity|].
  now rewrite E, IH.
Qed.

Lemma Forall2_assoc (spec : list (string * dtype)) (df out : DataFrame) (k : string) (c : column) :
  Forall2 (cast_entry spec) df out -> assoc k df = Some c ->
  exists c', assoc k out = Some c' /\
             match assoc k spec with
             | Some t => cast t c = Ok c'
             | None => c' = c
             end.
Proof.
  induction 1 as [|[l c0] [l' c0'] df out (E & R) _ IH]; cbn in *; [discriminate|].
  subst l'. destruct (String.eqb_spec k l) as [->|Hne]; [|exact IH].
  intros H. injection H as <-. eauto.
Qed.

Lemma Forall2_nth (spec : list (string * dtype)) (df out : DataFrame) (j : nat) (l : string) (c : column) :
  Forall2 (cast_entry spec) df out -> nth_error df j = Some (l, c) ->
  exists c', nth_error out j = Some (l, c') /\
             match assoc l spec with
             | Some t => cast t c = Ok c'
             | None => c' = c
             end.
Proof.
  intros H. revert j. induction H as [|[l0 c0] [l0' c0'] df out (E & R) _ IH];
    intros [|j] Hj; cbn in *; try discriminate.
  - injection Hj as -> ->. subst l0'. eauto.
  - now apply IH.
Qed.

Lemma cast_dtype (t : dtype) (c c' : column) :
  cast t c = Ok c' -> has_dtype t c' = true.
Proof.
  destruct t, c as [v|v|v]; cbn; intros H;
    try (injection H as <-; reflexivity);
    apply bind_ok in H as (v' & _ & H); injection H as <-; reflexivity.
Qed.

Lemma load_steps (csv : result DataFrame) (out : DataFrame) :
  load_and_process_data csv = Ok out ->
  exists df d1 d2 d3,
    csv = Ok df /\ normalize_year (rename df) = Ok d1 /\
    astype convert_dtype d1 = Ok d2 /\ reformat_gdp d2 = Ok d3 /\
    mask_zero_2023 d3 = Ok out.
Proof.
  unfold load_and_process_data. intros H.
  apply bind_ok in H as (df & H0 & H). apply bind_ok in H as (d1 & H1 & H).
  apply bind_ok in H as (d2 & H2 & H). apply bind_ok in H as (d3 & H3 & H).
  exists df, d1, d2, d3. auto.
Qed.

Lemma labels_rename (df : DataFrame) : labels (rename df) = map rename_label (labels df).
Proof.
  unfold rename, labels. rewrite !map_map. apply map_ext. now intros [l c].
Qed.

Lemma labels_mask (y : column) (df : DataFrame) :
  labels (map (fun '(l, c) => if String.eqb l "Year" then (l, c)
                              else (l, mask_column (year_is_2023 y) c)) df) = labels df.
Proof.
  unfold labels. rewrite map_map. apply map_ext. intros [l c].
  now destruct (String.eqb l "Year").
Qed.




Lemma year_not_outside (l : string) : assoc l convert_dtype = None -> l <> "Year"%string.
Proof. intros H ->. discriminate. Qed.

Lemma gdp_not_outside (l : string) : assoc l convert_dtype = None -> l <> "GDP (US$)"%string.
Proof. intros H ->. discriminate. Qed.

(** ** The relationship view *)

Lemma ubind_ok {A B : Type} (out : list element) (a : A) (k : A -> ui B) :
  ubind (out, Ok a) k = (out ++ fst (k a), snd (k a)).
Proof. cbn. now destruct (k a). Qed.

Lemma fst_ubind {A B : Type} (m : ui A) (k : A -> ui B) :
  fst (ubind m k) =
  fst m ++ match snd m with Ok a => fst (k a) | Raise _ => [] end.
Proof.
  destruct m as [out [a|e]]; cbn; [now destruct (k a) | now rewrite app_nil_r].
Qed.

Lemma selectbox_eq (label : string) (options : list string) (index : nat) (pick : option string) :
  selectbox label options index pick =
  ([Selectbox label options index],
   Ok (match pick with Some s => s | None => nth index options EmptyString end)).
Proof. reflexivity. Qed.

Lemma index_of_absent (x : string) (l : list string) :
  ~ In x l -> index_of x l = Raise (ValueError (append "'" (append x "' is not in list"))).
Proof.
  induction l as [|o l IH]; cbn; [reflexivity|]. intros H.
  destruct (String.eqb_spec o x) as [->|Hne]; [tauto|]. rewrite IH; tauto.
Qed.

Lemma index_of_present (x : string) (l : list string) :
  In x l -> exists i, index_of x l = Ok i /\ nth_error l i = Some x.
Proof.
  induction l as [|o l IH]; cbn; [tauto|]. intros H.
  destruct (String.eqb_spec o x) as [->|Hne]; [exists O; auto|].
  destruct H as [H|H]; [congruence|]. destruct (IH H) as (i & -> & Hi).
  exists (S i). auto.
Qed.

(** C6, as the code has it. The two select boxes of the relationship view
    stand at "GDP (US$)" and "Population Growth" when both are among the
    indicators; when one of them is not, the view stops at the lookup with
    a [ValueError], after the subheader (and the first select box), and
    shows nothing else. *)
Theorem relationship_defaults (data : DataFrame) (start_year end_year : Z) (related : list string) (w : widgets) :
  (~ In "GDP (US$)"%string related ->
   relationship_tab data start_year end_year related w =
   ([Subheader "Compare Indicators Over Time (Normalized)"],
    Raise (ValueError "'GDP (US$)' is not in list"))) /\
  (In "GDP (US$)"%string related -> ~ In "Population Growth"%string related ->
   exists i, nth_error related i = Some "GDP (US$)"%string /\
     relationship_tab data start_year end_year related w =
     ([Subheader "Compare Indicators Over Time (Normalized)";
       Selectbox "Select X-axis Indicator" related i],
      Raise (ValueError "'Population Growth' is not in list"))) /\
  (In "GDP (US$)"%string related -> In "Population Growth"%string related ->
   exists i j rest r,
     nth_error related i = Some "GDP (US$)"%string /\
     nth_error related j = Some "Population Growth"%string /\
     relationship_tab data start_year end_year related w =
     (Subheader "Compare Indicators Over Time (Normalized)"
        :: Selectbox "Select X-axis Indicator" related i
        :: Selectbox "Select Y-axis Indicator" related j :: rest, r)).
Proof.
  unfold relationship_tab, emit, lift. repeat split.
  - intros H. rewrite (index_of_absent _ _ H). reflexivity.
  - intros Hx Hy. destruct (index_of_present _ _ Hx) as (i & Ei & Hi).
    exists i. split; [exact Hi|]. rewrite Ei, (index_of_absent _ _ Hy). reflexivity.
  - intros Hx Hy. destruct (index_of_present _ _ Hx) as (i & Ei & Hi).
    destruct (index_of_present _ _ Hy) as (j & Ej & Hj).
    exists i, j. rewrite Ei, Ej.
    match goal with |- exists rest r, _ /\ _ /\ ?t = _ =>
      exists (skipn 3 (fst t)), (snd t); split; [exact Hi|]; split; [exact Hj|];
      rewrite (surjective_pairing t) at 1; f_equal
    end.
    repeat (rewrite ?selectbox_eq; rewrite fst_ubind; cbn [fst snd app ret]). reflexivity.
Qed.

Lemma relationship_defaults_witness :
  exists i j rest r,
    nth_error (tl (map rename_label (labels sample_frame))) i = Some "GDP (US$)"%string /\
    nth_error (tl (map rename_label (labels sample_frame))) j = Some "Population Growth"%string /\
    relationship_tab sample_frame 2022 2023
      (tl (map rename_label (labels sample_frame)))
      {| start_choice := 2022; end_choice := 2023; indicator_choice := None;
         x_choice := None; y_choice := None |} =
    (Subheader "Compare Indicators Over Time (Normalized)"
       :: Selectbox "Select X-axis Indicator" (tl (map rename_label (labels sample_frame))) i
       :: Selectbox "Select Y-axis Indicator" (tl (map rename_label (labels sample_frame))) j
       :: rest, r).
Proof.
  destruct (proj2 (proj2 (relationship_defaults sample_frame 2022 2023
              (tl (map rename_label (labels sample_frame)))
              {| start_choice := 2022; end_choice := 2023; indicator_choice := None;
                 x_choice := None; y_choice := None |})))
    as (i & j & rest & r & Hi & Hj & E).
  - cbn. auto 20.
  - cbn. auto 20.
  - exists i, j, rest, r. auto.
Defined.

(** The claim C6 fails when the two indicators are not in the list: the
    view raises instead of standing at the first two indicators. *)
Lemma relationship_no_fallback :
  relationship_tab [("Year"%string, IntCol [2000; 2005]);
                    ("Fertility Rate"%string, FloatCol [6; 5.5]%float);
                    ("Life Expectancy"%string, FloatCol [47; 49]%float)]
    2000 2005 ["Fertility Rate"; "Life Expectancy"]%string
    {| start_choice := 2000; end_choice := 2005; indicator_choice := None;
       x_choice := None; y_choice := None |}
  = ([Subheader "Compare Indicators Over Time (Normalized)"],
     Raise (ValueError "'GDP (US$)' is not in list")).
Proof. reflexivity. Qed.

(** ** Integer literals *)

Lemma digit_code (c : ascii) : is_digit c = true <-> 48 <= code c <= 57.
Proof. unfold is_digit. rewrite andb_true_iff, !Z.leb_le. tauto. Qed.

Lemma digit_not_space (c : ascii) : is_digit c = true -> is_space c = false.
Proof.
  intros H. apply digit_code in H. unfold is_space.
  apply orb_false_iff. split.
  - apply andb_false_iff. right. apply Z.leb_gt. lia.
  - apply Z.eqb_neq. lia.
Qed.

Lemma digit_not_sign (c : ascii) :
  is_digit c = true ->
  Ascii.eqb c "-" = false /\ Ascii.eqb c "+" = false /\ Ascii.eqb c "_" = false.
Proof.
  intros H. repeat split.
  - destruct (Ascii.eqb_spec c "-") as [->|]; [discriminate | reflexivity].
  - destruct (Ascii.eqb_spec c "+") as [->|]; [discriminate | reflexivity].
  - destruct (Ascii.eqb_spec c "_") as [->|]; [discriminate | reflexivity].
Qed.

Lemma digit_run_head (l : list ascii) (v : Z) :
  digit_run l v -> exists d r, l = d :: r /\ is_digit d = true.
Proof.
  induction 1 as [d Hd | l v d _ (d0 & r & -> & Hd0) _ | l v d _ (d0 & r & -> & Hd0) _]; cbn; eauto.
Qed.

Lemma digit_run_last (l : list ascii) (v : Z) :
  digit_run l v -> exists p d, l = p ++ [d] /\ is_digit d = true.
Proof.
  destruct 1 as [d Hd | l v d _ Hd | l v d _ Hd].
  - exists [], d. auto.
  - exists l, d. auto.
  - exists (l ++ ["_"%char]), d. rewrite <- app_assoc. auto.
Qed.

Lemma int_digits_app (p : list ascii) (a : Z) :
  digit_run p a -> forall rest, int_digits (p ++ rest) = int_tail a rest.
Proof.
  induction 1 as [d Hd | l v d _ IH Hd | l v d _ IH Hd]; intros rest.
  - cbn. now rewrite Hd.
  - rewrite <- app_assoc, IH. cbn. now rewrite Hd.
  - rewrite <- app_assoc, IH. cbn. now rewrite Hd.
Qed.

Lemma int_tail_run (n : nat) :
  forall (rest p : list ascii) (a v : Z),
    (List.length rest <= n)%nat -> digit_run p a -> int_tail a rest = Some v ->
    digit_run (p ++ rest) v.
Proof.
  induction n as [|n IH]; intros rest p a v Hn Hp H.
  - destruct rest; [|cbn in Hn; lia]. cbn in H. injection H as <-. now rewrite app_nil_r.
  - destruct rest as [|c r]; [cbn in H; injection H as <-; now rewrite app_nil_r|].
    cbn in H, Hn. destruct (is_digit c) eqn:Hc.
    + change (c :: r) with ([c] ++ r). rewrite app_assoc.
      apply (IH r (p ++ [c]) (10 * a + digit_value c) v); [lia| |exact H].
      now constructor.
    + destruct (Ascii.eqb_spec c "_") as [->|]; [|discriminate].
      destruct r as [|d r']; [discriminate|]. destruct (is_digit d) eqn:Hd; [|discriminate].
      change ("_"%char :: d :: r') with (["_"%char; d] ++ r'). rewrite app_assoc.
      apply (IH r' (p ++ ["_"%char; d]) (10 * a + digit_value d) v);
        [cbn in Hn; lia| |exact H]. now constructor.
Qed.

Lemma int_digits_run (l : list ascii) (v : Z) :
  int_digits l = Some v <-> digit_run l v.
Proof.
  split.
  - destruct l as [|d r]; cbn; [discriminate|]. destruct (is_digit d) eqn:Hd; [|discriminate].
    intros H. change (d :: r) with ([d] ++ r).
    apply (int_tail_run (List.length r) r [d] (digit_value d)); auto. now constructor.
  - intros H. rewrite <- (app_nil_r l). now rewrite (int_digits_app _ _ H).
Qed.

(** ** Stripping blanks *)

Lemma lstrip_blank (ws l : list ascii) :
  forallb is_space ws = true -> lstrip (ws ++ l) = lstrip l.
Proof.
  induction ws as [|c ws IH]; cbn; [reflexivity|]. intros H.
  apply andb_true_iff in H as (-> & H). auto.
Qed.

Lemma lstrip_split (l : list ascii) :
  exists ws, l = ws ++ lstrip l /\ forallb is_space ws = true.
Proof.
  induction l as [|c l (ws & E & H)]; cbn; [exists []; auto|].
  destruct (is_space c) eqn:Hc.
  - exists (c :: ws). cbn. rewrite Hc, H. split; [now f_equal | reflexivity].
  - exists []. auto.
Qed.

Lemma lstrip_head (l : list ascii) :
  match lstrip l with
  | c :: _ => is_space c = false
  | [] => True
  end.
Proof.
  induction l as [|c l IH]; cbn; [exact I|].
  destruct (is_space c) eqn:Hc; [exact IH | exact Hc].
Qed.

Lemma forallb_rev {A : Type} (f : A -> bool) (l : list A) :
  forallb f (rev l) = forallb f l.
Proof.
  induction l as [|a l IH]; cbn; [reflexivity|].
  rewrite forallb_app, IH. cbn. rewrite andb_true_r. apply andb_comm.
Qed.

(** [strip] removes blanks at both ends, and nothing else. *)
Lemma strip_split (l : list ascii) :
  exists ws1 ws2, l = ws1 ++ strip l ++ ws2 /\
                  forallb is_space ws1 = true /\ forallb is_space ws2 = true.
Proof.
  unfold strip. destruct (lstrip_split l) as (ws1 & E1 & H1).
  destruct (lstrip_split (rev (lstrip l))) as (ws2 & E2 & H2).
  exists ws1, (rev ws2). repeat split; [|exact H1|now rewrite forallb_rev].
  rewrite <- rev_app_distr, <- E2, rev_involutive. exact E1.
Qed.

Lemma strip_core (ws1 core ws2 : list ascii) (a b : ascii) (mid : list ascii) :
  forallb is_space ws1 = true -> forallb is_space ws2 = true ->
  core = a :: mid -> (exists p, core = p ++ [b]) ->
  is_space a = false -> is_space b = false ->
  strip (ws1 ++ core ++ ws2) = core.
Proof.
  intros H1 H2 -> (p & Eb) Ha Hb. unfold strip.
  rewrite (lstrip_blank _ _ H1). cbn [app lstrip]. rewrite Ha.
  change (a :: mid ++ ws2) with ((a :: mid) ++ ws2).
  rewrite rev_app_distr, lstrip_blank by (now rewrite forallb_rev).
  rewrite Eb, rev_app_distr. cbn [rev app lstrip]. rewrite Hb.
  change (b :: rev p) with (rev [b] ++ rev p). now rewrite <- rev_app_distr, rev_involutive.
Qed.

Lemma py_int_literal (s : string) (z : Z) :
  py_int s = Some z <-> int_literal (chars s) z.
Proof.
  unfold py_int. split.
  - destruct (strip_split (chars s)) as (ws1 & ws2 & E & H1 & H2).
    destruct (split_sign (strip (chars s))) as [neg body] eqn:Hs.
    destruct (int_digits body) as [v|] eqn:Hv; cbn; [|discriminate].
    intros H. injection H as <-. apply int_digits_run in Hv.
    unfold split_sign in Hs. destruct (strip (chars s)) as [|c r] eqn:Hc.
    + injection Hs as <- <-. apply digit_run_head in Hv as (d & r & Ed & _). discriminate.
    + destruct (Ascii.eqb_spec c "-") as [->|]; [|destruct (Ascii.eqb_spec c "+") as [->|]];
        injection Hs as <- <-.
      * exists ws1, ["-"%char], r, ws2, true, v. unfold sign_of. repeat split; auto.
      * exists ws1, ["+"%char], r, ws2, false, v. unfold sign_of. repeat split; auto.
      * exists ws1, [], (c :: r), ws2, false, v. unfold sign_of. repeat split; auto.
  - intros (ws1 & sgn & body & ws2 & neg & v & E & H1 & H2 & Hs & Hv & ->).
    destruct (digit_run_head _ _ Hv) as (d & r & Eb & Hd).
    destruct (digit_run_last _ _ Hv) as (p & d' & Eb' & Hd').
    pose proof (digit_not_sign _ Hd) as (Hm & Hp & _).
    assert (Hstrip : strip (chars s) = sgn ++ body).
    { rewrite E, app_assoc with (l := sgn).
      destruct Hs as [(-> & _) | [(-> & _) | (-> & _)]].
      - apply (strip_core _ _ _ d d' r); auto using digit_not_space.
        exists p. exact Eb'.
      - apply (strip_core _ _ _ "+"%char d' body); auto using digit_not_space.
        exists ("+"%char :: p). now rewrite Eb'.
      - apply (strip_core _ _ _ "-"%char d' body); auto using digit_not_space.
        exists ("-"%char :: p). now rewrite Eb'. }
    rewrite Hstrip. apply int_digits_run in Hv.
    destruct Hs as [(-> & ->) | [(-> & ->) | (-> & ->)]]; cbn.
    + rewrite Eb in *. cbn. rewrite Hm, Hp. now rewrite Hv.
    + now rewrite Hv.
    + now rewrite Hv.
Qed.

(** ** Year normalization *)

Lemma chars_text (l : list ascii) : chars (text l) = l.
Proof. apply list_ascii_of_string_of_list_ascii. Qed.

Lemma suffix_split (n : nat) (s : string) :
  exists p, chars s = p ++ chars (suffix n s) /\
    (List.length (chars (suffix n s)) = n \/
     (p = [] /\ (List.length (chars (suffix n s)) < n)%nat)).
Proof.
  unfold suffix. rewrite chars_text. set (l := chars s).
  exists (firstn (List.length l - n) l). split; [now rewrite firstn_skipn|].
  rewrite length_skipn. destruct (Nat.le_gt_cases n (List.length l)) as [H|H].
  - left. lia.
  - right. replace (List.length l - n)%nat with 0%nat by lia. cbn. split; [reflexivity | lia].
Qed.

Lemma suffix_app (p l : list ascii) (s : string) :
  chars s = p ++ l -> chars (suffix (List.length l) s) = l.
Proof.
  intros E. unfold suffix. rewrite chars_text, E, length_app.
  replace (List.length p + List.length l - List.length l)%nat with (List.length p + 0)%nat by lia.
  now rewrite skipn_app, Nat.add_0_r, skipn_all, Nat.sub_diag.
Qed.

Lemma text_chars (s : string) : text (chars s) = s.
Proof. apply string_of_list_ascii_of_string. Qed.

Lemma year_of_literal (x : scalar) (z : Z) :
  year_of x = Ok z <-> int_literal (chars (suffix 4 (py_str x))) z.
Proof.
  unfold year_of. rewrite <- py_int_literal.
  destruct (py_int _) as [y|]; split; intros H; try discriminate; injection H as ->; reflexivity.
Qed.

(** C4, as the code has it. The year of a token is read from the last four
    characters of its text, or from the whole text when it has fewer than
    four. When these characters are ASCII the result is the integer they
    write, and the conversion fails exactly when they are not an integer
    literal: blanks (space, tab, line feed, vertical tab, form feed,
    carriage return), an optional sign, digits with single underscores
    between them, blanks. A text that ends in four digits gives their
    number. The [Year] column of the frame becomes the int64 column of
    these integers, and one rejected token makes the step raise. *)
Theorem year_normalization :
  (forall x : scalar,
      let kept := chars (suffix 4 (py_str x)) in
      (exists p, chars (py_str x) = p ++ kept /\
                 (List.length kept = 4%nat \/ (p = [] /\ (List.length kept < 4)%nat))) /\
      (forallb is_ascii kept = true ->
       (forall z, year_of x = Ok z <-> int_literal kept z) /\
       ((exists e, year_of x = Raise e) <-> ~ exists z, int_literal kept z))) /\
  (forall (x : scalar) (p : list ascii) (d1 d2 d3 d4 : ascii),
      chars (py_str x) = p ++ [d1; d2; d3; d4] ->
      is_digit d1 = true -> is_digit d2 = true -> is_digit d3 = true -> is_digit d4 = true ->
      year_of x = Ok (1000 * digit_value d1 + 100 * digit_value d2
                      + 10 * digit_value d3 + digit_value d4)) /\
  (forall df d1 : DataFrame,
      normalize_year df = Ok d1 ->
      exists c ys, assoc "Year"%string df = Some c /\
                   assoc "Year"%string d1 = Some (IntCol ys) /\
                   Forall2 (fun x y => year_of x = Ok y) (scalars c) ys) /\
  (forall (df : DataFrame) (c : column) (x : scalar) (e : error),
      assoc "Year"%string df = Some c -> In x (scalars c) ->
      forallb is_ascii (chars (suffix 4 (py_str x))) = true -> year_of x = Raise e ->
      exists e', normalize_year df = Raise e').
Proof.
  split; [|split; [|split]].
  - intros x kept. split; [apply suffix_split|]. intros _. split; [|split].
    + apply year_of_literal.
    + intros (e & He) (z & Hz). apply year_of_literal in Hz. congruence.
    + intros H. destruct (year_of x) as [z|e] eqn:E; [|eauto].
      exfalso. apply H. exists z. now apply year_of_literal.
  - intros x p d1 d2 d3 d4 E H1 H2 H3 H4. apply year_of_literal.
    pose proof (suffix_app p [d1; d2; d3; d4] _ E) as Hk. cbn [List.length] in Hk. rewrite Hk.
    exists [], [], [d1; d2; d3; d4], [], false,
      (10 * (10 * (10 * digit_value d1 + digit_value d2) + digit_value d3) + digit_value d4).
    repeat split; [left; auto | | lia].
    apply (run_digit [d1; d2; d3]); auto. apply (run_digit [d1; d2]); auto.
    apply (run_digit [d1]); auto. now constructor.
  - intros df d1 H. apply normalize_year_ok in H as (c & ys & Hy & Ht & ->).
    exists c, ys. repeat split; [exact Hy | | now apply traverse_ok].
    rewrite assoc_set_col. reflexivity.
  - intros df c x e Hy Hin _ He. unfold normalize_year, get_col. rewrite Hy. cbn.
    destruct (traverse_raise _ _ _ _ Hin He) as (e' & ->). cbn. eauto.
Qed.

Lemma year_normalization_witness :
  year_of (SStr "Jan-2023") = Ok 2023 /\
  (forall z, year_of (SStr "Q1 1999") = Ok z <-> int_literal (chars "1999") z) /\
  ((exists e, year_of (SStr "20.5") = Raise e) <-> ~ exists z, int_literal (chars "20.5") z).
Proof.
  split; [|split].
  - replace 2023 with (1000 * digit_value "2" + 100 * digit_value "0"
                       + 10 * digit_value "2" + digit_value "3") by reflexivity.
    apply (proj1 (proj2 year_normalization) (SStr "Jan-2023") (chars "Jan-")); reflexivity.
  - exact (proj1 (proj2 (proj1 year_normalization (SStr "Q1 1999")) eq_refl)).
  - exact (proj2 (proj2 (proj1 year_normalization (SStr "20.5")) eq_refl)).
Defined.

(** The claim C4 fails on a token of fewer than four characters: it is
    converted, not rejected (and blanks and underscores are accepted). *)
Lemma short_year_token :
  year_of (SStr "99") = Ok 99 /\ year_of (SInt 99) = Ok 99 /\
  String.length (py_str (SInt 99)) = 2%nat /\
  year_of (SStr " 7_5") = Ok 75.
Proof. repeat split; vm_compute; reflexivity. Qed.

(* ================================================================== *)
(** * Normalisation *)
(* ================================================================== *)

(** The bound on the outputs of [min_max_normalize] is a fact about
    binary64 rounding.  Floats are placed on the integer line ([rank], in
    units of 2^-1074); comparison is the order of ranks, a difference of
    finite floats is the rounding [rnd] of the difference of ranks, which
    is monotone, and a quotient of two floats in order is at most one. *)

(** ** Binary digits *)

Lemma digits2_bounds (p : positive) :
  2 ^ (Zpos (digits2_pos p) - 1) <= Zpos p < 2 ^ Zpos (digits2_pos p).
Proof.
  induction p as [p IH|p IH|]; cbn [digits2_pos].
  - rewrite Pos2Z.inj_succ. replace (Z.succ (Zpos (digits2_pos p)) - 1) with (Zpos (digits2_pos p)) by lia.
    rewrite Z.pow_succ_r by lia.
    replace (2 ^ Zpos (digits2_pos p)) with (2 * 2 ^ (Zpos (digits2_pos p) - 1)) in *
      by (rewrite <- Z.pow_succ_r by lia; f_equal; lia). lia.
  - rewrite Pos2Z.inj_succ. replace (Z.succ (Zpos (digits2_pos p)) - 1) with (Zpos (digits2_pos p)) by lia.
    rewrite Z.pow_succ_r by lia.
    replace (2 ^ Zpos (digits2_pos p)) with (2 * 2 ^ (Zpos (digits2_pos p) - 1)) in *
      by (rewrite <- Z.pow_succ_r by lia; f_equal; lia). lia.
  - cbn. lia.
Qed.

Lemma digits2_log2 (p : positive) : Zpos (digits2_pos p) = Z.log2 (Zpos p) + 1.
Proof.
  pose proof (digits2_bounds p) as H.
  rewrite (Z.log2_unique (Zpos p) (Zpos (digits2_pos p) - 1)); [lia | lia |].
  replace (Z.succ (Zpos (digits2_pos p) - 1)) with (Zpos (digits2_pos p)) by lia. exact H.
Qed.

(** ** Valid floats *)

Lemma fexp_eq (k : Z) : fexp prec emax k = Z.max (k - 53) (-1074).
Proof. reflexivity. Qed.

Lemma bounded_inv (m : positive) (e : Z) :
  bounded prec emax m e = true ->
  -1074 <= e <= 971 /\ Zpos m < 2 ^ 53 /\ (-1074 < e -> 2 ^ 52 <= Zpos m).
Proof.
  unfold bounded, canonical_mantissa. rewrite andb_true_iff, Z.eqb_eq, Z.leb_le, fexp_eq.
  change (emax - prec) with 971. intros (Hc & He).
  pose proof (digits2_bounds m) as (Hlo & Hhi).
  assert (Hd : Zpos (digits2_pos m) <= 53) by lia.
  repeat split; try lia.
  - eapply Z.lt_le_trans; [exact Hhi|]. apply Z.pow_le_mono_r; lia.
  - intros Hgt. assert (Zpos (digits2_pos m) = 53) by lia.
    replace 52 with (Zpos (digits2_pos m) - 1) by lia. exact Hlo.
Qed.

Lemma rank_bound (x : spec_float) :
  valid_binary x = true -> - 2 ^ 2098 <= rank x <= 2 ^ 2098.
Proof.
  assert (0 < 2 ^ 2098) by (apply Z.pow_pos_nonneg; lia).
  destruct x as [s|s| |s m e]; cbn [rank valid_binary]; intros Hv; try lia.
  - destruct s; unfold cond_Zopp; lia.
  - apply bounded_inv in Hv as (He & Hm & _).
    assert (0 < 2 ^ (e + 1074)) by (apply Z.pow_pos_nonneg; lia).
    assert (Zpos m * 2 ^ (e + 1074) < 2 ^ 2098).
    { apply Z.lt_le_trans with (2 ^ 53 * 2 ^ (e + 1074)); [nia|].
      rewrite <- Z.pow_add_r by lia. apply Z.pow_le_mono_r; lia. }
    destruct s; unfold cond_Zopp; lia.
Qed.

Lemma rank_finite_lt (s : bool) (m : positive) (e : Z) :
  bounded prec emax m e = true -> Zpos m * 2 ^ (e + 1074) < 2 ^ 2098.
Proof.
  intros Hv. apply bounded_inv in Hv as (He & Hm & _).
  assert (0 < 2 ^ (e + 1074)) by (apply Z.pow_pos_nonneg; lia).
  apply Z.lt_le_trans with (2 ^ 53 * 2 ^ (e + 1074)); [nia|].
  rewrite <- Z.pow_add_r by lia. apply Z.pow_le_mono_r; lia.
Qed.

Lemma finite_compare (m1 m2 : positive) (e1 e2 : Z) :
  bounded prec emax m1 e1 = true -> bounded prec emax m2 e2 = true ->
  match e1 ?= e2 with
  | Lt => Lt
  | Gt => Gt
  | Eq => Pos.compare_cont Eq m1 m2
  end = (Zpos m1 * 2 ^ (e1 + 1074) ?= Zpos m2 * 2 ^ (e2 + 1074)).
Proof.
  intros H1 H2. apply bounded_inv in H1 as (He1 & Hm1 & Hn1).
  apply bounded_inv in H2 as (He2 & Hm2 & Hn2).
  assert (P1 : 0 < 2 ^ (e1 + 1074)) by (apply Z.pow_pos_nonneg; lia).
  assert (P2 : 0 < 2 ^ (e2 + 1074)) by (apply Z.pow_pos_nonneg; lia).
  destruct (Z.compare_spec e1 e2) as [->|Hlt|Hgt]; symmetry.
  - change (Pos.compare_cont Eq m1 m2) with (Zpos m1 ?= Zpos m2).
    destruct (Z.compare_spec (Zpos m1) (Zpos m2)) as [E|E|E].
    + apply Z.compare_eq_iff. now rewrite E.
    + apply Z.compare_lt_iff. nia.
    + apply Z.compare_gt_iff. nia.
  - apply Z.compare_lt_iff.
    assert (E : 2 ^ (e2 + 1074) = 2 ^ (e2 - e1 - 1) * 2 * 2 ^ (e1 + 1074)).
    { replace (e2 + 1074) with ((e2 - e1 - 1) + 1 + (e1 + 1074)) at 1 by lia.
      rewrite !Z.pow_add_r by lia. reflexivity. }
    assert (0 < 2 ^ (e2 - e1 - 1)) by (apply Z.pow_pos_nonneg; lia).
    specialize (Hn2 ltac:(lia)). rewrite E. nia.
  - apply Z.compare_gt_iff.
    assert (E : 2 ^ (e1 + 1074) = 2 ^ (e1 - e2 - 1) * 2 * 2 ^ (e2 + 1074)).
    { replace (e1 + 1074) with ((e1 - e2 - 1) + 1 + (e2 + 1074)) at 1 by lia.
      rewrite !Z.pow_add_r by lia. reflexivity. }
    assert (0 < 2 ^ (e1 - e2 - 1)) by (apply Z.pow_pos_nonneg; lia).
    specialize (Hn1 ltac:(lia)). rewrite E. nia.
Qed.

(** Comparison of two valid numbers is comparison of their ranks. *)
Lemma compare_rank (x y : spec_float) :
  valid_binary x = true -> valid_binary y = true ->
  not_nan x = true -> not_nan y = true ->
  SFcompare x y = Some (rank x ?= rank y).
Proof.
  assert (B : 0 < 2 ^ 2098) by (apply Z.pow_pos_nonneg; lia).
  intros Vx Vy Nx Ny.
  destruct x as [sx|sx| |sx mx ex]; try discriminate;
  destruct y as [sy|sy| |sy my ey]; try discriminate;
  cbn [SFcompare rank valid_binary] in *.
  - reflexivity.
  - f_equal. symmetry. destruct sy; unfold cond_Zopp; [apply Z.compare_gt_iff | apply Z.compare_lt_iff]; lia.
  - f_equal. symmetry. assert (0 < Zpos my * 2 ^ (ey + 1074)) by (apply Z.mul_pos_pos; [lia | apply Z.pow_pos_nonneg; apply bounded_inv in Vy; lia]).
    destruct sy; unfold cond_Zopp; [apply Z.compare_gt_iff | apply Z.compare_lt_iff]; lia.
  - f_equal. symmetry. destruct sx; unfold cond_Zopp; [apply Z.compare_lt_iff | apply Z.compare_gt_iff]; lia.
  - f_equal. symmetry. destruct sx, sy; unfold cond_Zopp;
      [apply Z.compare_eq_iff | apply Z.compare_lt_iff | apply Z.compare_gt_iff | apply Z.compare_eq_iff]; lia.
  - pose proof (rank_finite_lt sy my ey Vy).
    f_equal. symmetry. destruct sx, sy; unfold cond_Zopp;
      [apply Z.compare_lt_iff | apply Z.compare_lt_iff | apply Z.compare_gt_iff | apply Z.compare_gt_iff]; lia.
  - f_equal. symmetry. assert (0 < Zpos mx * 2 ^ (ex + 1074)) by (apply Z.mul_pos_pos; [lia | apply Z.pow_pos_nonneg; apply bounded_inv in Vx; lia]).
    destruct sx; unfold cond_Zopp; [apply Z.compare_lt_iff | apply Z.compare_gt_iff]; lia.
  - pose proof (rank_finite_lt sx mx ex Vx).
    f_equal. symmetry. destruct sx, sy; unfold cond_Zopp;
      [apply Z.compare_gt_iff | apply Z.compare_lt_iff | apply Z.compare_gt_iff | apply Z.compare_lt_iff]; lia.
  - assert (0 < Zpos mx * 2 ^ (ex + 1074)) by (apply Z.mul_pos_pos; [lia | apply Z.pow_pos_nonneg; apply bounded_inv in Vx; lia]).
    assert (0 < Zpos my * 2 ^ (ey + 1074)) by (apply Z.mul_pos_pos; [lia | apply Z.pow_pos_nonneg; apply bounded_inv in Vy; lia]).
    f_equal. destruct sx, sy; cbn [cond_Zopp].
    + pose proof (finite_compare _ _ _ _ Vx Vy) as F. rewrite Z.compare_opp.
      rewrite (Z.compare_antisym (Zpos mx * 2 ^ (ex + 1074)) (Zpos my * 2 ^ (ey + 1074))), <- F.
      now destruct (ex ?= ey).
    + symmetry. apply Z.compare_lt_iff. lia.
    + symmetry. apply Z.compare_gt_iff. lia.
    + apply finite_compare; assumption.
Qed.

(** ** Shifting right *)

Lemma represents_exact (m : Z) : represents m 1 (shr_record_of_loc m loc_Exact).
Proof.
  unfold represents. cbn. rewrite Z.div_1_r, Z.mod_1_r. cbn. auto.
Qed.

Lemma shr_1_mantissa (m : Z) (r s : bool) :
  0 <= m ->
  shr_1 (Build_shr_record m r s) = Build_shr_record (m / 2) (Z.odd m) (r || s).
Proof.
  intros Hm. destruct m as [|p|p]; [reflexivity| |lia].
  destruct p as [p|p|]; cbn [shr_1].
  - f_equal. rewrite Pos2Z.inj_xI. apply Z.div_unique with 1; lia.
  - f_equal. rewrite Pos2Z.inj_xO. apply Z.div_unique with 0; lia.
  - reflexivity.
Qed.

Lemma shr_1_represents (a d : Z) (mrs : shr_record) :
  0 <= a -> 0 < d -> represents a d mrs -> represents a (2 * d) (shr_1 mrs).
Proof.
  intros Ha Hd. destruct mrs as [m r s]. unfold represents. cbn [shr_m shr_r shr_s].
  intros (Hm & Hr & Hs).
  assert (Hm0 : 0 <= m) by (subst m; apply Z.div_pos; lia).
  rewrite (shr_1_mantissa m r s Hm0). cbn [shr_m shr_r shr_s].
  pose proof (Z.div_mod a d ltac:(lia)) as Ea.
  pose proof (Z.mod_pos_bound a d Hd) as Hrem.
  pose proof (Z.div_mod m 2 ltac:(lia)) as Em.
  pose proof (Z.mod_pos_bound m 2 ltac:(lia)) as Hbit.
  assert (Hq : a / (2 * d) = m / 2).
  { subst m. rewrite Z.mul_comm. now rewrite <- Z.div_div by lia. }
  assert (Hmod : a mod (2 * d) = a mod d + d * (m mod 2)).
  { rewrite Z.mul_comm. rewrite Z.rem_mul_r by lia. now subst m. }
  rewrite Hq, Hmod. repeat split.
  - rewrite Zodd_mod.
    destruct (Z.eqb_spec (m mod 2) 1) as [E|E]; symmetry.
    + apply Z.leb_le. nia.
    + apply Z.leb_gt. assert (m mod 2 = 0) by lia. nia.
  - rewrite Hr, Hs.
    assert (m mod 2 = 0 \/ m mod 2 = 1) as [E|E] by lia; rewrite E;
      rewrite ?Z.mul_0_r, ?Z.mul_1_r, ?Z.add_0_r;
      repeat match goal with
             | |- context [Z.eqb ?x ?y] => destruct (Z.eqb_spec x y)
             | |- context [Z.leb ?x ?y] => destruct (Z.leb_spec x y)
             end; cbn [orb negb]; try reflexivity; lia.
Qed.

Lemma iter_shr_represents (p : positive) :
  forall (a d : Z) (mrs : shr_record),
    0 <= a -> 0 < d -> represents a d mrs ->
    represents a (d * 2 ^ Zpos p) (iter_pos shr_1 p mrs).
Proof.
  induction p as [p IH|p IH|]; intros a d mrs Ha Hd H; cbn [iter_pos].
  - assert (Hp : 0 < 2 ^ Zpos p) by (apply Z.pow_pos_nonneg; lia).
    replace (d * 2 ^ Zpos p~1) with (2 * d * 2 ^ Zpos p * 2 ^ Zpos p).
    + apply IH; [lia | nia |]. apply IH; [lia | lia |]. now apply shr_1_represents.
    + replace (Zpos p~1) with (Zpos p + Zpos p + 1) by lia.
      rewrite !Z.pow_add_r by lia. change (2 ^ 1) with 2. ring.
  - assert (Hp : 0 < 2 ^ Zpos p) by (apply Z.pow_pos_nonneg; lia).
    replace (d * 2 ^ Zpos p~0) with (d * 2 ^ Zpos p * 2 ^ Zpos p).
    + apply IH; [lia | nia |]. now apply IH.
    + replace (Zpos p~0) with (Zpos p + Zpos p) by lia.
      rewrite Z.pow_add_r by lia. ring.
  - rewrite Z.mul_comm. now apply shr_1_represents.
Qed.

(** [shr] by [n] places, written with the quotient it stands for. *)
Lemma shr_represents (a d : Z) (mrs : shr_record) (e n : Z) :
  0 <= a -> 0 < d -> represents a d mrs ->
  represents a (d * 2 ^ Z.max n 0) (fst (shr mrs e n)) /\
  snd (shr mrs e n) = e + Z.max n 0.
Proof.
  intros Ha Hd H. destruct n as [|p|p]; cbn [shr fst snd].
  - change (Z.max 0 0) with 0. rewrite Z.mul_1_r, Z.add_0_r. auto.
  - rewrite Z.max_l by lia. split; [now apply iter_shr_represents | reflexivity].
  - rewrite Z.max_r by lia. rewrite Z.mul_1_r, Z.add_0_r. auto.
Qed.

(** Rounding a record to nearest even is rounding the quotient. *)
Lemma round_represents (a d : Z) (mrs : shr_record) :
  0 < d -> represents a d mrs ->
  round_nearest_even (shr_m mrs) (loc_of_shr_record mrs) = round_half_even a d.
Proof.
  intros Hd. destruct mrs as [m r s]. unfold represents, round_half_even.
  cbn [shr_m shr_r shr_s]. intros (-> & -> & ->).
  pose proof (Z.mod_pos_bound a d Hd) as Hrem.
  destruct (Z.compare_spec (2 * (a mod d)) d) as [E|E|E].
  - replace (d <=? 2 * (a mod d)) with true by (symmetry; apply Z.leb_le; lia).
    replace (2 * (a mod d) =? d) with true by (symmetry; apply Z.eqb_eq; lia).
    rewrite orb_true_r. reflexivity.
  - replace (d <=? 2 * (a mod d)) with false by (symmetry; apply Z.leb_gt; lia).
    destruct (_ || _); reflexivity.
  - replace (d <=? 2 * (a mod d)) with true by (symmetry; apply Z.leb_le; lia).
    replace (2 * (a mod d) =? d) with false by (symmetry; apply Z.eqb_neq; lia).
    replace (a mod d =? 0) with false by (symmetry; apply Z.eqb_neq; lia).
    reflexivity.
Qed.

(** ** Rounding a quotient to nearest even *)

Lemma rhe_bounds (a d : Z) :
  0 < d -> a / d <= round_half_even a d <= a / d + 1.
Proof.
  intros Hd. unfold round_half_even.
  destruct (_ ?= _); [destruct (Z.even _)| |]; lia.
Qed.

Lemma rhe_exact (q d : Z) : 0 < d -> round_half_even (q * d) d = q.
Proof.
  intros Hd. unfold round_half_even.
  rewrite Z.div_mul, Z.mod_mul by lia. rewrite Z.mul_0_r.
  replace (0 ?= d) with Lt by (symmetry; apply Z.compare_lt_iff; lia). reflexivity.
Qed.

Lemma rhe_mono (a b d : Z) :
  0 < d -> a <= b -> round_half_even a d <= round_half_even b d.
Proof.
  intros Hd Hab.
  pose proof (Z.div_le_mono a b d Hd Hab) as Hq.
  pose proof (rhe_bounds a d Hd) as Ha. pose proof (rhe_bounds b d Hd) as Hb.
  destruct (Z.eq_dec (a / d) (b / d)) as [E|E]; [|lia].
  pose proof (Z.div_mod a d ltac:(lia)) as Ea.
  pose proof (Z.div_mod b d ltac:(lia)) as Eb.
  assert (Hr : a mod d <= b mod d) by (rewrite E in Ea; nia).
  unfold round_half_even. rewrite E.
  destruct (Z.compare_spec (2 * (a mod d)) d) as [C|C|C];
    destruct (Z.compare_spec (2 * (b mod d)) d) as [C'|C'|C'];
    try destruct (Z.even (b / d)); lia.
Qed.

Lemma rhe_scale (a d c : Z) :
  0 < d -> 0 < c -> round_half_even (a * c) (d * c) = round_half_even a d.
Proof.
  intros Hd Hc. unfold round_half_even.
  rewrite Z.div_mul_cancel_r by lia. rewrite Z.mul_mod_distr_r by lia.
  replace (2 * (a mod d * c) ?= d * c) with (2 * (a mod d) ?= d); [reflexivity|].
  rewrite Z.mul_assoc. apply Zmult_compare_compat_r. lia.
Qed.

Lemma rhe_nonneg (a d : Z) : 0 <= a -> 0 < d -> 0 <= round_half_even a d.
Proof.
  intros Ha Hd. pose proof (rhe_bounds a d Hd). pose proof (Z.div_pos a d Ha Hd). lia.
Qed.

(** ** Rounding to 53 bits *)

Lemma round53_0 : round53 0 = 0.
Proof. reflexivity. Qed.

Lemma round53_small (n : Z) : 0 <= n -> Z.log2 n + 1 - 53 <= 0 -> round53 n = n.
Proof.
  intros Hn Hk. unfold round53. rewrite Z.max_r by lia.
  change (2 ^ 0) with 1. rewrite Z.mul_1_r.
  rewrite <- (Z.mul_1_r n) at 1. now rewrite rhe_exact.
Qed.

Lemma round53_large (n : Z) :
  0 < Z.log2 n + 1 - 53 ->
  let k := Z.log2 n + 1 - 53 in
  round53 n = round_half_even n (2 ^ k) * 2 ^ k /\
  2 ^ 52 <= round_half_even n (2 ^ k) <= 2 ^ 53.
Proof.
  intros Hk k. unfold round53. fold k. rewrite Z.max_l by lia. split; [reflexivity|].
  assert (Hn : 0 < n).
  { destruct (Z.lt_trichotomy n 0) as [H|[H|H]]; [|subst n; cbn in Hk; lia|exact H].
    rewrite Z.log2_nonpos in Hk; lia. }
  pose proof (Z.log2_spec n Hn) as (Hlo & Hhi).
  assert (Hp : 0 < 2 ^ k) by (apply Z.pow_pos_nonneg; lia).
  assert (E1 : 2 ^ Z.log2 n = 2 ^ 52 * 2 ^ k).
  { rewrite <- Z.pow_add_r by lia. f_equal. lia. }
  assert (E2 : 2 ^ Z.succ (Z.log2 n) = 2 ^ 53 * 2 ^ k).
  { rewrite <- Z.pow_add_r by lia. f_equal. lia. }
  pose proof (rhe_bounds n (2 ^ k) Hp) as (B1 & B2).
  assert (2 ^ 52 <= n / 2 ^ k) by (apply Z.div_le_lower_bound; lia).
  assert (n / 2 ^ k < 2 ^ 53) by (apply Z.div_lt_upper_bound; lia).
  lia.
Qed.

Lemma round53_nonneg (n : Z) : 0 <= n -> 0 <= round53 n.
Proof.
  intros Hn. unfold round53.
  set (k := Z.max _ 0). assert (Hp : 0 < 2 ^ k) by (apply Z.pow_pos_nonneg; lia).
  pose proof (rhe_nonneg n (2 ^ k) Hn Hp). nia.
Qed.

Lemma round53_pos (n : Z) : 0 < n -> 0 < round53 n.
Proof.
  intros Hn. destruct (Z.le_gt_cases (Z.log2 n + 1 - 53) 0) as [H|H].
  - rewrite round53_small; lia.
  - destruct (round53_large n H) as (-> & B & _).
    assert (0 < 2 ^ (Z.log2 n + 1 - 53)) by (apply Z.pow_pos_nonneg; lia).
    assert (0 < 2 ^ 52) by (apply Z.pow_pos_nonneg; lia). nia.
Qed.

Lemma round53_mono (n1 n2 : Z) : 0 <= n1 -> n1 <= n2 -> round53 n1 <= round53 n2.
Proof.
  intros H1 H12. pose proof (Z.log2_le_mono n1 n2 H12) as Hl.
  destruct (Z.le_gt_cases (Z.log2 n2 + 1 - 53) 0) as [S2|L2].
  - rewrite !round53_small; lia.
  - destruct (round53_large n2 L2) as (E2 & B2 & _).
    set (k2 := Z.log2 n2 + 1 - 53) in *.
    assert (P2 : 0 < 2 ^ k2) by (apply Z.pow_pos_nonneg; lia).
    assert (Hn2 : 0 < n2).
    { destruct (Z.lt_trichotomy n2 0) as [H|[H|H]]; [lia|subst n2; cbn in L2; lia|exact H]. }
    destruct (Z.le_gt_cases (Z.log2 n1 + 1 - 53) 0) as [S1|L1].
    + rewrite round53_small by lia. rewrite E2.
      destruct (Z.eq_dec n1 0) as [->|N1]; [nia|].
      pose proof (Z.log2_spec n1 ltac:(lia)) as (_ & Hhi).
      assert (2 ^ Z.succ (Z.log2 n1) <= 2 ^ 53) by (apply Z.pow_le_mono_r; lia).
      assert (2 ^ 53 = 2 ^ 52 * 2) by reflexivity.
      assert (2 <= 2 ^ k2).
      { change 2 with (2 ^ 1) at 1. apply Z.pow_le_mono_r; lia. }
      nia.
    + destruct (round53_large n1 L1) as (E1 & _ & B1).
      set (k1 := Z.log2 n1 + 1 - 53) in *.
      assert (P1 : 0 < 2 ^ k1) by (apply Z.pow_pos_nonneg; lia).
      rewrite E1, E2. destruct (Z.eq_dec k1 k2) as [E|E].
      * rewrite E. apply Z.mul_le_mono_nonneg_r; [lia|]. now apply rhe_mono.
      * assert (Hk : k1 + 1 <= k2) by lia.
        assert (2 ^ (k1 + 1) <= 2 ^ k2) by (apply Z.pow_le_mono_r; lia).
        rewrite Z.pow_add_r in * by lia. change (2 ^ 1) with 2 in *.
        assert (2 ^ 53 = 2 ^ 52 * 2) by reflexivity.
        assert (0 < 2 ^ 52) by (apply Z.pow_pos_nonneg; lia). nia.
Qed.

(** A value that fits 53 bits at its own scale is its own rounding. *)
Lemma round53_exact (m j : Z) :
  0 < m < 2 ^ 53 -> 0 <= j -> round53 (m * 2 ^ j) = m * 2 ^ j.
Proof.
  intros Hm Hj. unfold round53.
  rewrite Z.log2_mul_pow2 by lia.
  assert (Hl : Z.log2 m < 53) by (apply Z.log2_lt_pow2; lia).
  set (k := Z.max (j + Z.log2 m + 1 - 53) 0).
  assert (Hk : 0 <= k <= j) by (unfold k; lia).
  assert (E : m * 2 ^ j = m * 2 ^ (j - k) * 2 ^ k).
  { rewrite <- Z.mul_assoc, <- Z.pow_add_r by lia. do 2 f_equal. lia. }
  rewrite E at 1. rewrite rhe_exact by (apply Z.pow_pos_nonneg; lia). now rewrite <- E.
Qed.

Lemma rnd_0 : rnd 0 = 0.
Proof. reflexivity. Qed.

Lemma rnd_nonneg (z : Z) : 0 <= z -> 0 <= rnd z.
Proof.
  intros Hz. unfold rnd. assert (0 < 2 ^ 2098) by (apply Z.pow_pos_nonneg; lia).
  pose proof (round53_nonneg (Z.abs z) ltac:(lia)).
  destruct (Z.sgn_spec z) as [(?&->)|[(?&->)|(?&->)]]; lia.
Qed.

Lemma rnd_pos (z : Z) : 0 < z -> 0 < rnd z.
Proof.
  intros Hz. unfold rnd. assert (0 < 2 ^ 2098) by (apply Z.pow_pos_nonneg; lia).
  pose proof (round53_pos (Z.abs z) ltac:(lia)).
  rewrite Z.sgn_pos by lia. lia.
Qed.

Lemma rnd_opp (z : Z) : rnd (- z) = - rnd z.
Proof. unfold rnd. rewrite Z.sgn_opp, Z.abs_opp. lia. Qed.

Lemma rnd_mono (z1 z2 : Z) : z1 <= z2 -> rnd z1 <= rnd z2.
Proof.
  intros H. assert (B : 0 < 2 ^ 2098) by (apply Z.pow_pos_nonneg; lia).
  destruct (Z.le_gt_cases 0 z1) as [P1|N1].
  - unfold rnd. rewrite !Z.abs_eq by lia.
    pose proof (round53_mono z1 z2 P1 H). pose proof (round53_nonneg z1 P1).
    destruct (Z.eq_dec z1 0) as [->|]; [rewrite Z.sgn_0|rewrite (Z.sgn_pos z1) by lia].
    + pose proof (rnd_nonneg z2 H) as Hn. unfold rnd in Hn. rewrite Z.abs_eq in Hn by lia. lia.
    + rewrite (Z.sgn_pos z2) by lia. lia.
  - destruct (Z.le_gt_cases 0 z2) as [P2|N2].
    + pose proof (rnd_nonneg z2 P2). pose proof (rnd_nonneg (- z1) ltac:(lia)) as Hn.
      rewrite rnd_opp in Hn. lia.
    + unfold rnd. rewrite !Z.sgn_neg by lia. rewrite !Z.abs_neq by lia.
      pose proof (round53_mono (- z2) (- z1) ltac:(lia) ltac:(lia)). lia.
Qed.

Lemma rnd_bound (z : Z) : - 2 ^ 2098 <= rnd z <= 2 ^ 2098.
Proof.
  assert (B : 0 < 2 ^ 2098) by (apply Z.pow_pos_nonneg; lia).
  unfold rnd. pose proof (round53_nonneg (Z.abs z) ltac:(lia)).
  destruct (Z.sgn_spec z) as [(?&->)|[(?&->)|(?&->)]]; lia.
Qed.

(** ** The rounding step of the operations *)

Lemma digits2_unique (p : positive) (k : Z) :
  2 ^ (k - 1) <= Zpos p < 2 ^ k -> Zpos (digits2_pos p) = k.
Proof.
  intros (Hlo & Hhi). pose proof (digits2_bounds p) as (Dlo & Dhi).
  set (D := Zpos (digits2_pos p)) in *. assert (0 < D) by (unfold D; lia).
  destruct (Z.lt_trichotomy D k) as [H1|[H1|H1]]; [|exact H1|].
  - assert (2 ^ D <= 2 ^ (k - 1)) by (apply Z.pow_le_mono_r; lia). lia.
  - destruct (Z.le_gt_cases 0 k).
    + assert (2 ^ k <= 2 ^ (D - 1)) by (apply Z.pow_le_mono_r; lia). lia.
    + rewrite (Z.pow_neg_r 2 k) in Hhi by lia. lia.
Qed.

Lemma binary_round_aux_finish (s : bool) (mx ex : Z) (lx : location) :
  binary_round_aux prec emax s mx ex lx =
  finish s
    (round_nearest_even (shr_m (fst (shr_fexp prec emax mx ex lx)))
       (loc_of_shr_record (fst (shr_fexp prec emax mx ex lx))))
    (snd (shr_fexp prec emax mx ex lx)).
Proof.
  unfold binary_round_aux, finish.
  destruct (shr_fexp prec emax mx ex lx) as [mrs' e']. reflexivity.
Qed.

Lemma finish_still (s : bool) (p : positive) (e : Z) :
  fexp prec emax (Zpos (digits2_pos p) + e) - e <= 0 ->
  finish s (Zpos p) e =
  if e <=? 971 then S754_finite s p e else S754_infinity s.
Proof.
  intros Hn. unfold finish, shr_fexp. cbn [Zdigits2].
  destruct (fexp prec emax (Zpos (digits2_pos p) + e) - e) as [|q|q]; [| lia |]; reflexivity.
Qed.

Lemma finish_normal (s : bool) (m e : Z) :
  2 ^ 52 <= m < 2 ^ 53 -> -1074 <= e ->
  finish s m e = if e <=? 971 then S754_finite s (Z.to_pos m) e else S754_infinity s.
Proof.
  intros Hm He. assert (0 < 2 ^ 52) by (apply Z.pow_pos_nonneg; lia).
  destruct m as [|p|p]; try lia. cbn [Z.to_pos].
  apply finish_still. rewrite (digits2_unique p 53) by (change (53 - 1) with 52; lia).
  rewrite fexp_eq. lia.
Qed.

Lemma finish_carry (s : bool) (e : Z) :
  -1074 <= e ->
  finish s (2 ^ 53) e =
  if e + 1 <=? 971 then S754_finite s (Z.to_pos (2 ^ 52)) (e + 1) else S754_infinity s.
Proof.
  intros He. unfold finish, shr_fexp.
  change (Zdigits2 (2 ^ 53)) with 54. rewrite fexp_eq.
  replace (Z.max (54 + e - 53) (-1074) - e) with 1 by lia.
  reflexivity.
Qed.

Lemma pow2_split (a b : Z) : 0 <= a -> 0 <= b -> 2 ^ (a + b) = 2 ^ a * 2 ^ b.
Proof. intros. now apply Z.pow_add_r. Qed.

Lemma bounded_intro (m : positive) (e : Z) :
  fexp prec emax (Zpos (digits2_pos m) + e) = e -> e <= 971 ->
  bounded prec emax m e = true.
Proof.
  intros Hc He. unfold bounded, canonical_mantissa. rewrite Hc.
  apply andb_true_intro. split.
  - apply Z.eqb_eq. reflexivity.
  - apply Z.leb_le. exact He.
Qed.

(** [binary_round_aux] on an exact mantissa that needs no shift to the left. *)
Lemma binary_round_aux_rank (s : bool) (mz : positive) (ez : Z) :
  -1074 <= ez <= 971 ->
  0 <= fexp prec emax (Zpos (digits2_pos mz) + ez) - ez ->
  let n := fexp prec emax (Zpos (digits2_pos mz) + ez) - ez in
  let r := binary_round_aux prec emax s (Zpos mz) ez loc_Exact in
  valid_binary r = true /\ not_nan r = true /\
  rank r = cond_Zopp s
             (Z.min (round_half_even (Zpos mz) (2 ^ n) * 2 ^ (ez + n + 1074)) (2 ^ 2098)).
Proof.
  intros He Hn n r. subst r. rewrite binary_round_aux_finish.
  assert (Hs : shr_fexp prec emax (Zpos mz) ez loc_Exact =
               shr (shr_record_of_loc (Zpos mz) loc_Exact) ez n) by reflexivity.
  rewrite Hs.
  destruct (shr_represents (Zpos mz) 1 (shr_record_of_loc (Zpos mz) loc_Exact) ez n
              ltac:(lia) ltac:(lia) (represents_exact _)) as (Hrep & He1).
  rewrite Z.max_l in Hrep, He1 by exact Hn. rewrite Z.mul_1_l in Hrep.
  assert (Pn : 0 < 2 ^ n) by (apply Z.pow_pos_nonneg; lia).
  rewrite (round_represents _ _ _ Pn Hrep), He1.
  pose proof (digits2_bounds mz) as (Dlo & Dhi).
  set (D := Zpos (digits2_pos mz)) in *. assert (HD : 0 < D) by (unfold D; lia).
  assert (Hfe : n = Z.max (D + ez - 53) (-1074) - ez) by (unfold n; now rewrite fexp_eq).
  assert (B : 2 ^ 2098 = 2 ^ 53 * 2 ^ 2045) by reflexivity.
  assert (P52 : 0 < 2 ^ 52) by (apply Z.pow_pos_nonneg; lia).
  assert (E53 : 2 ^ 53 = 2 * 2 ^ 52) by reflexivity.
  destruct (Z.eq_dec n 0) as [N0|N0].
  - (* no shift at all *)
    rewrite N0 in *. change (2 ^ 0) with 1.
    assert (Hr1 : round_half_even (Zpos mz) 1 = Zpos mz).
    { rewrite <- (Z.mul_1_r (Zpos mz)) at 1. apply rhe_exact. lia. }
    rewrite !Hr1.
    rewrite finish_still by (fold D; rewrite fexp_eq; lia).
    rewrite !Z.add_0_r.
    replace (ez <=? 971) with true by (symmetry; apply Z.leb_le; lia).
    split; [apply bounded_intro; [fold D; rewrite fexp_eq; lia | lia]|].
    split; [reflexivity|]. cbn [rank]. f_equal.
    rewrite Z.min_l; [reflexivity|].
    assert (Zpos mz < 2 ^ 53).
    { eapply Z.lt_le_trans; [exact Dhi|]. apply Z.pow_le_mono_r; lia. }
    assert (0 < 2 ^ (ez + 1074)) by (apply Z.pow_pos_nonneg; lia).
    assert (2 ^ (ez + 1074) <= 2 ^ 2045) by (apply Z.pow_le_mono_r; lia).
    rewrite B. nia.
  - (* a shift by [n = D - 53] places *)
    assert (Hn' : 0 < n) by lia. assert (ED : D = n + 53) by lia.
    assert (Elo : 2 ^ (D - 1) = 2 ^ 52 * 2 ^ n).
    { rewrite <- pow2_split by lia. f_equal. lia. }
    assert (Ehi : 2 ^ D = 2 ^ 53 * 2 ^ n).
    { rewrite <- pow2_split by lia. f_equal. lia. }
    pose proof (rhe_bounds (Zpos mz) (2 ^ n) Pn) as (R1 & R2).
    assert (Q1 : 2 ^ 52 <= Zpos mz / 2 ^ n) by (apply Z.div_le_lower_bound; lia).
    assert (Q2 : Zpos mz / 2 ^ n < 2 ^ 53) by (apply Z.div_lt_upper_bound; lia).
    set (m2 := round_half_even (Zpos mz) (2 ^ n)) in *.
    assert (P1 : 0 < 2 ^ (ez + n + 1074)) by (apply Z.pow_pos_nonneg; lia).
    destruct (Z.eq_dec m2 (2 ^ 53)) as [C|C].
    + rewrite C, finish_carry by lia.
      destruct (Z.leb_spec (ez + n + 1) 971) as [L|L];
        (split;
         [first [reflexivity
                | apply bounded_intro;
                  [change (Zpos (digits2_pos (Z.to_pos (2 ^ 52)))) with 53;
                   rewrite fexp_eq; lia | lia]]|]);
        (split; [reflexivity|]); cbn [rank]; f_equal.
      * change (Zpos (Z.to_pos (2 ^ 52))) with (2 ^ 52).
        replace (ez + n + 1 + 1074) with (1 + (ez + n + 1074)) by lia.
        rewrite pow2_split by lia. change (2 ^ 1) with 2.
        rewrite Z.min_l; [lia|].
        assert (2 ^ (ez + n + 1074) <= 2 ^ 2044) by (apply Z.pow_le_mono_r; lia).
        assert (2 ^ 2045 = 2 * 2 ^ 2044) by reflexivity. rewrite B. nia.
      * rewrite Z.min_r; [reflexivity|].
        assert (2 ^ 2045 <= 2 ^ (ez + n + 1074)) by (apply Z.pow_le_mono_r; lia).
        rewrite B. nia.
    + rewrite finish_normal by lia.
      destruct (Z.leb_spec (ez + n) 971) as [L|L];
        (split;
         [first [reflexivity
                | apply bounded_intro;
                  [rewrite (digits2_unique (Z.to_pos m2) 53)
                     by (rewrite Z2Pos.id by lia; change (53 - 1) with 52; lia);
                   rewrite fexp_eq; lia | lia]]|]);
        (split; [reflexivity|]); cbn [rank]; f_equal.
      * rewrite Z2Pos.id by lia. rewrite Z.min_l; [reflexivity|].
        assert (2 ^ (ez + n + 1074) <= 2 ^ 2045) by (apply Z.pow_le_mono_r; lia).
        rewrite B. nia.
      * rewrite Z.min_r; [reflexivity|].
        assert (2 ^ 2046 <= 2 ^ (ez + n + 1074)) by (apply Z.pow_le_mono_r; lia).
        assert (2 ^ 2046 = 2 * 2 ^ 2045) by reflexivity. rewrite B. nia.
Qed.

Lemma iter_xO (p d : positive) : Zpos (Pos.iter xO p d) = Zpos p * 2 ^ Zpos d.
Proof.
  induction d as [|d IH] using Pos.peano_ind.
  - cbn. lia.
  - rewrite Pos.iter_succ, Pos2Z.inj_xO, IH, Pos2Z.inj_succ, Z.pow_succ_r by lia. ring.
Qed.

Lemma shl_align_fst (m : positive) (e e' : Z) :
  e' <= e -> Zpos (fst (shl_align m e e')) = Zpos m * 2 ^ (e - e').
Proof.
  intros H. unfold shl_align. destruct (e' - e) as [|d|d] eqn:E; cbn [fst]; try lia.
  - replace (e - e') with 0 by lia. cbn. lia.
  - rewrite iter_xO. f_equal. f_equal. lia.
Qed.

(** [binary_round] rounds the value to 53 bits, or overflows. *)
Lemma binary_round_rank (s : bool) (p : positive) (e : Z) :
  -1074 <= e <= 971 ->
  let r := binary_round prec emax s p e in
  valid_binary r = true /\ not_nan r = true /\
  rank r = cond_Zopp s (Z.min (round53 (Zpos p * 2 ^ (e + 1074))) (2 ^ 2098)).
Proof.
  intros He r. subst r. unfold binary_round.
  pose proof (digits2_bounds p) as (Dlo & Dhi).
  set (D := Zpos (digits2_pos p)) in *. assert (HD : 0 < D) by (unfold D; lia).
  rewrite fexp_eq. set (fe := Z.max (D + e - 53) (-1074)).
  assert (Pe : 0 < 2 ^ (e + 1074)) by (apply Z.pow_pos_nonneg; lia).
  destruct (Z.lt_ge_cases fe e) as [Hlt|Hge].
  - (* the mantissa is shifted to the left: the value is kept *)
    unfold shl_align. destruct (fe - e) as [|d|d] eqn:Ed; try lia.
    assert (Zd : Zpos d = e - fe) by lia.
    assert (Pd : 0 < 2 ^ Zpos d) by (apply Z.pow_pos_nonneg; lia).
    assert (Dz : Zpos (digits2_pos (Pos.iter xO p d)) = D + Zpos d).
    { apply digits2_unique. rewrite iter_xO.
      replace (D + Zpos d - 1) with ((D - 1) + Zpos d) by lia.
      rewrite !pow2_split by lia. nia. }
    destruct (binary_round_aux_rank s (Pos.iter xO p d) fe ltac:(lia)) as (Hv & Hn & Hr).
    { rewrite Dz, fexp_eq. lia. }
    split; [exact Hv|]. split; [exact Hn|]. rewrite Hr. f_equal. f_equal.
    rewrite Dz, fexp_eq. replace (Z.max (D + Zpos d + fe - 53) (-1074) - fe) with 0 by lia.
    change (2 ^ 0) with 1. rewrite <- (Z.mul_1_r (Zpos (Pos.iter xO p d))) at 1.
    rewrite rhe_exact by lia. rewrite Z.add_0_r, iter_xO.
    assert (EN : Zpos p * 2 ^ (e + 1074) = Zpos p * 2 ^ Zpos d * 2 ^ (fe + 1074)).
    { rewrite <- Z.mul_assoc, <- pow2_split by lia. do 2 f_equal. lia. }
    rewrite EN. symmetry. apply round53_exact; [|lia].
    split; [nia|]. rewrite <- iter_xO.
    pose proof (digits2_bounds (Pos.iter xO p d)) as (_ & Hhi). rewrite Dz in Hhi.
    eapply Z.lt_le_trans; [exact Hhi|]. apply Z.pow_le_mono_r; lia.
  - (* no shift to the left: the mantissa is rounded *)
    assert (Hsh : shl_align p e fe = (p, e)).
    { unfold shl_align. destruct (fe - e) eqn:Ed; try reflexivity. lia. }
    rewrite Hsh.
    destruct (binary_round_aux_rank s p e He) as (Hv & Hn & Hr).
    { fold D. rewrite fexp_eq. fold fe. lia. }
    split; [exact Hv|]. split; [exact Hn|]. rewrite Hr. f_equal. f_equal.
    fold D. rewrite fexp_eq. fold fe. set (n := fe - e).
    assert (Pn : 0 < 2 ^ n) by (apply Z.pow_pos_nonneg; unfold n; lia).
    unfold round53. rewrite Z.log2_mul_pow2 by lia.
    replace (e + 1074 + Z.log2 (Zpos p) + 1 - 53) with (D + e + 1074 - 53)
      by (unfold D; rewrite digits2_log2; lia).
    replace (Z.max (D + e + 1074 - 53) 0) with (n + (e + 1074)) by (unfold n, fe; lia).
    rewrite (pow2_split n (e + 1074)) by (unfold n; lia).
    rewrite rhe_scale by lia. rewrite <- (pow2_split n (e + 1074)) by (unfold n; lia).
    do 2 f_equal. lia.
Qed.

(** ** Subtraction *)

Lemma rnd_exact (s : bool) (m : positive) (e : Z) :
  bounded prec emax m e = true ->
  rnd (cond_Zopp s (Zpos m * 2 ^ (e + 1074))) = cond_Zopp s (Zpos m * 2 ^ (e + 1074)).
Proof.
  intros Hb. pose proof (rank_finite_lt s m e Hb) as Hlt.
  apply bounded_inv in Hb as (He & Hm & _).
  assert (P : 0 < 2 ^ (e + 1074)) by (apply Z.pow_pos_nonneg; lia).
  assert (Hpos : 0 < Zpos m * 2 ^ (e + 1074)) by nia.
  assert (E : rnd (Zpos m * 2 ^ (e + 1074)) = Zpos m * 2 ^ (e + 1074)).
  { unfold rnd. rewrite Z.sgn_pos, Z.abs_eq by lia.
    rewrite round53_exact by lia. lia. }
  destruct s; cbn [cond_Zopp]; [rewrite rnd_opp|]; now rewrite E.
Qed.

Lemma binary_normalize_rank (m e : Z) :
  -1074 <= e <= 971 ->
  valid_binary (binary_normalize prec emax m e false) = true /\
  not_nan (binary_normalize prec emax m e false) = true /\
  rank (binary_normalize prec emax m e false) = rnd (m * 2 ^ (e + 1074)).
Proof.
  intros He. assert (P : 0 < 2 ^ (e + 1074)) by (apply Z.pow_pos_nonneg; lia).
  destruct m as [|p|p]; cbn [binary_normalize].
  - repeat split.
  - destruct (binary_round_rank false p e He) as (Hv & Hn & Hr).
    split; [exact Hv|]. split; [exact Hn|].
    rewrite Hr. cbn [cond_Zopp]. unfold rnd.
    rewrite Z.sgn_pos, Z.abs_eq by nia. lia.
  - destruct (binary_round_rank true p e He) as (Hv & Hn & Hr).
    split; [exact Hv|]. split; [exact Hn|].
    rewrite Hr. cbn [cond_Zopp].
    replace (Zneg p * 2 ^ (e + 1074)) with (- (Zpos p * 2 ^ (e + 1074))) by lia.
    rewrite rnd_opp. unfold rnd. rewrite Z.sgn_pos, Z.abs_eq by nia. lia.
Qed.

Lemma cond_Zopp_mul (s : bool) (a b : Z) : cond_Zopp s a * b = cond_Zopp s (a * b).
Proof. destruct s; cbn; lia. Qed.

(** The difference of two finite numbers is the rounding of the exact
    difference. *)
Lemma sub_rank (x y : spec_float) :
  valid_binary x = true -> valid_binary y = true ->
  is_fin x = true -> is_fin y = true ->
  not_nan (SF64sub x y) = true /\ rank (SF64sub x y) = rnd (rank x - rank y).
Proof.
  intros Vx Vy Fx Fy.
  destruct x as [sx|sx| |sx mx ex]; try discriminate;
    destruct y as [sy|sy| |sy my ey]; try discriminate;
    cbn [valid_binary] in *; unfold SF64sub; cbn [SFsub rank].
  - change (0 - 0) with 0. rewrite rnd_0. destruct sx, sy; split; reflexivity.
  - split; [reflexivity|]. cbn [rank].
    replace (0 - cond_Zopp sy (Zpos my * 2 ^ (ey + 1074)))
      with (cond_Zopp (negb sy) (Zpos my * 2 ^ (ey + 1074))) by (destruct sy; cbn; lia).
    now rewrite rnd_exact.
  - split; [reflexivity|]. rewrite Z.sub_0_r. cbn [rank]. now rewrite rnd_exact.
  - pose proof (bounded_inv _ _ Vx) as (Hex & _). pose proof (bounded_inv _ _ Vy) as (Hey & _).
    set (ez := Z.min ex ey).
    destruct (binary_normalize_rank
                (cond_Zopp sx (Zpos (fst (shl_align mx ex ez)))
                 - cond_Zopp sy (Zpos (fst (shl_align my ey ez)))) ez ltac:(lia))
      as (_ & Hn & Hr).
    split; [exact Hn|]. rewrite Hr. f_equal.
    rewrite !shl_align_fst by lia.
    rewrite Z.mul_sub_distr_r, !cond_Zopp_mul, <- !Z.mul_assoc.
    rewrite <- !pow2_split by lia.
    replace (ex - ez + (ez + 1074)) with (ex + 1074) by lia.
    replace (ey - ez + (ez + 1074)) with (ey + 1074) by lia. reflexivity.
Qed.

(** A finite result needs finite operands. *)
Lemma sub_fin_inv (x y : spec_float) :
  is_fin (SF64sub x y) = true -> is_fin x = true /\ is_fin y = true.
Proof.
  destruct x as [sx|sx| |sx mx ex], y as [sy|sy| |sy my ey]; cbn; try discriminate; auto;
    destruct sx, sy; cbn; try discriminate; auto.
Qed.

(** ** Division *)

Lemma new_location_represents (a d : Z) :
  0 < d -> represents a d (shr_record_of_loc (a / d) (new_location d (a mod d))).
Proof.
  intros Hd. pose proof (Z.mod_pos_bound a d Hd) as Hrem.
  pose proof (Zmod_even d) as Hev. pose proof (Z.div_mod d 2 ltac:(lia)) as Ed.
  unfold represents, new_location, new_location_even, new_location_odd.
  destruct (Z.even d); destruct (Z.eqb_spec (a mod d) 0) as [E0|E0];
    try rewrite E0;
    match goal with
    | |- context [Z.compare ?x ?y] => destruct (Z.compare_spec x y) as [C|C|C]
    | _ => idtac
    end;
    cbn [shr_record_of_loc shr_m shr_r shr_s]; repeat split;
    repeat match goal with
           | |- context [Z.eqb ?x ?y] => destruct (Z.eqb_spec x y)
           | |- context [Z.leb ?x ?y] => destruct (Z.leb_spec x y)
           end; cbn [orb negb]; try reflexivity; lia.
Qed.

Lemma Zdigits2_le (q k : Z) : 0 <= q -> 0 <= k -> q <= 2 ^ k -> Zdigits2 q <= k + 1.
Proof.
  intros Hq Hk H. destruct q as [|p|p]; cbn [Zdigits2]; try lia.
  pose proof (digits2_bounds p) as (Dlo & _).
  destruct (Z.le_gt_cases (Zpos (digits2_pos p)) (k + 1)) as [L|G]; [exact L|].
  assert (2 ^ (k + 1) <= 2 ^ (Zpos (digits2_pos p) - 1)) by (apply Z.pow_le_mono_r; lia).
  rewrite pow2_split in * by lia. change (2 ^ 1) with 2 in *.
  assert (0 < 2 ^ k) by (apply Z.pow_pos_nonneg; lia). lia.
Qed.

(** Packing a mantissa that stands for at most one gives at most one. *)
Lemma finish_le_one (s : bool) (m e : Z) :
  0 <= m <= 2 ^ (- e) -> -1074 <= e <= 0 ->
  not_nan (finish s m e) = true /\
  rank (finish s m e) = cond_Zopp s (Z.abs (rank (finish s m e))) /\
  Z.abs (rank (finish s m e)) <= 2 ^ 1074.
Proof.
  intros Hm He. unfold finish, shr_fexp.
  set (n2 := fexp prec emax (Zdigits2 m + e) - e).
  destruct (shr_represents m 1 (shr_record_of_loc m loc_Exact) e n2 ltac:(lia) ltac:(lia)
              (represents_exact m)) as ((Hm3 & _) & He3).
  destruct (shr (shr_record_of_loc m loc_Exact) e n2) as [mrs e3]. cbn [fst snd] in *.
  rewrite Z.mul_1_l in Hm3. set (n3 := Z.max n2 0) in *.
  assert (Hn3 : 0 <= n3) by (unfold n3; lia).
  assert (Pn3 : 0 < 2 ^ n3) by (apply Z.pow_pos_nonneg; lia).
  assert (PK : 0 < 2 ^ (- e)) by (apply Z.pow_pos_nonneg; lia).
  pose proof (Z.mul_div_le m (2 ^ n3) Pn3) as Hfloor. rewrite <- Hm3 in Hfloor.
  destruct (shr_m mrs) as [|p3|p3] eqn:Em3.
  - cbn [not_nan rank Z.abs]. split; [reflexivity|].
    split; [now destruct s | apply Z.pow_nonneg; lia].
  - assert (H1 : 2 ^ n3 <= 2 ^ (- e)) by nia.
    assert (Hn3e : n3 <= - e) by (apply (Z.pow_le_mono_r_iff 2); lia).
    replace (e3 <=? emax - prec) with true
      by (symmetry; apply Z.leb_le; change (emax - prec) with 971; lia).
    cbn [not_nan rank].
    assert (P3 : 0 < 2 ^ (e3 + 1074)) by (apply Z.pow_pos_nonneg; lia).
    assert (E3 : 2 ^ (e3 + 1074) = 2 ^ n3 * 2 ^ (e + 1074)).
    { rewrite <- pow2_split by lia. f_equal. lia. }
    assert (E4 : 2 ^ 1074 = 2 ^ (- e) * 2 ^ (e + 1074)).
    { rewrite <- pow2_split by lia. f_equal. lia. }
    assert (P4 : 0 < 2 ^ (e + 1074)) by (apply Z.pow_pos_nonneg; lia).
    assert (Hv : 0 < Zpos p3 * 2 ^ (e3 + 1074) <= 2 ^ 1074) by (rewrite E3, E4; nia).
    split; [reflexivity|]. split; destruct s; cbn [cond_Zopp]; lia.
  - exfalso. assert (0 <= m / 2 ^ n3) by (apply Z.div_pos; lia). lia.
Qed.

(** Rounding a quotient that does not exceed one gives at most one. *)
Lemma binary_round_aux_le_one (s : bool) (a d q e : Z) (l : location) :
  0 <= a -> 0 < d -> represents a d (shr_record_of_loc q l) ->
  e <= 0 -> a <= d * 2 ^ (- e) ->
  not_nan (binary_round_aux prec emax s q e l) = true /\
  rank (binary_round_aux prec emax s q e l)
  = cond_Zopp s (Z.abs (rank (binary_round_aux prec emax s q e l))) /\
  Z.abs (rank (binary_round_aux prec emax s q e l)) <= 2 ^ 1074.
Proof.
  intros Ha Hd Hrep He Hle. rewrite binary_round_aux_finish.
  assert (Pe : 0 < 2 ^ (- e)) by (apply Z.pow_pos_nonneg; lia).
  assert (Hq : q = a / d).
  { destruct Hrep as (Hm & _). destruct l as [|[ | | ]]; exact Hm. }
  assert (Hq0 : 0 <= q) by (subst q; apply Z.div_pos; lia).
  assert (Hq1 : q <= 2 ^ (- e)).
  { subst q. apply Z.div_le_upper_bound; lia. }
  pose proof (Zdigits2_le q (- e) Hq0 ltac:(lia) Hq1) as Hdig.
  unfold shr_fexp. set (n := fexp prec emax (Zdigits2 q + e) - e).
  assert (Hfe : n = Z.max (Zdigits2 q + e - 53) (-1074) - e) by (unfold n; now rewrite fexp_eq).
  destruct (shr_represents a d (shr_record_of_loc q l) e n Ha Hd Hrep) as (Hrep1 & He1).
  set (n1 := Z.max n 0) in *.
  assert (Hn1 : 0 <= n1) by (unfold n1; lia).
  assert (Pn1 : 0 < 2 ^ n1) by (apply Z.pow_pos_nonneg; lia).
  assert (Pd1 : 0 < d * 2 ^ n1) by nia.
  rewrite (round_represents _ _ _ Pd1 Hrep1), He1.
  assert (He1lo : -1074 <= e + n1) by (unfold n1; lia).
  assert (He1hi : e + n1 <= 0) by (unfold n1; lia).
  assert (PK : 0 < 2 ^ (- (e + n1))) by (apply Z.pow_pos_nonneg; lia).
  apply finish_le_one; [|lia]. split; [apply rhe_nonneg; lia|].
  rewrite <- (rhe_exact (2 ^ (- (e + n1))) (d * 2 ^ n1)) by lia.
  apply rhe_mono; [lia|].
  replace (2 ^ (- (e + n1)) * (d * 2 ^ n1)) with (d * (2 ^ (- (e + n1)) * 2 ^ n1)) by ring.
  rewrite <- pow2_split by lia. replace (- (e + n1) + n1) with (- e) by lia.
  exact Hle.
Qed.

Lemma div_eucl_eq (a b : Z) : Z.div_eucl a b = (a / b, a mod b).
Proof. unfold Z.div, Z.modulo. now destruct (Z.div_eucl a b). Qed.

(** The quotient of a number by one that is not smaller lies in [0, 1]. *)
Lemma div_rank_bound (x : spec_float) (my : positive) (ey : Z) :
  valid_binary x = true -> bounded prec emax my ey = true -> is_fin x = true ->
  0 <= rank x <= Zpos my * 2 ^ (ey + 1074) ->
  not_nan (SF64div x (S754_finite false my ey)) = true /\
  0 <= rank (SF64div x (S754_finite false my ey)) <= 2 ^ 1074.
Proof.
  intros Vx Vy Fx Hr. assert (0 < 2 ^ 1074) by (apply Z.pow_pos_nonneg; lia).
  destruct x as [sx|sx| |sx mx ex]; try discriminate; unfold SF64div; cbn [SFdiv].
  - cbn. split; [reflexivity | lia].
  - cbn [valid_binary rank] in *.
    pose proof (bounded_inv _ _ Vx) as (Hex & Hmx & _).
    pose proof (bounded_inv _ _ Vy) as (Hey & Hmy & _).
    assert (Px : 0 < 2 ^ (ex + 1074)) by (apply Z.pow_pos_nonneg; lia).
    assert (Py : 0 < 2 ^ (ey + 1074)) by (apply Z.pow_pos_nonneg; lia).
    destruct sx; cbn [cond_Zopp] in Hr; [nia|]. cbn [xorb].
    unfold SFdiv_core_binary. cbn [Zdigits2].
    pose proof (digits2_bounds mx) as (D1lo & D1hi).
    pose proof (digits2_bounds my) as (D2lo & D2hi).
    set (d1 := Zpos (digits2_pos mx)) in *. set (d2 := Zpos (digits2_pos my)) in *.
    assert (Hd1 : 0 < d1) by (unfold d1; lia). assert (Hd2 : 0 < d2) by (unfold d2; lia).
    (* the magnitude of the dividend does not exceed that of the divisor *)
    assert (Hmag : d1 + ex <= d2 + ey).
    { destruct (Z.le_gt_cases (d1 + ex) (d2 + ey)) as [L|G]; [exact L|].
      assert (Hp : 2 ^ (d2 + (ey + 1074)) <= 2 ^ ((d1 - 1) + (ex + 1074)))
        by (apply Z.pow_le_mono_r; lia).
      rewrite (pow2_split d2), (pow2_split (d1 - 1)) in Hp by lia.
      assert (0 < 2 ^ (d1 - 1)) by (apply Z.pow_pos_nonneg; lia).
      assert (Zpos my * 2 ^ (ey + 1074) < 2 ^ d2 * 2 ^ (ey + 1074))
        by (apply Z.mul_lt_mono_pos_r; lia).
      assert (2 ^ (d1 - 1) * 2 ^ (ex + 1074) <= Zpos mx * 2 ^ (ex + 1074))
        by (apply Z.mul_le_mono_nonneg_r; lia).
      lia. }
    rewrite fexp_eq. set (e' := Z.min (Z.max (d1 + ex - (d2 + ey) - 53) (-1074)) (ex - ey)).
    assert (He' : e' <= -53) by (unfold e'; lia).
    set (sh := ex - ey - e'). assert (Hsh : 0 <= sh) by (unfold sh, e'; lia).
    set (m' := match sh with Zpos _ => Z.shiftl (Zpos mx) sh | Z0 => Zpos mx | Zneg _ => 0 end).
    assert (Em' : m' = Zpos mx * 2 ^ sh).
    { unfold m'. destruct sh as [|p|p] eqn:E; [cbn; lia | | lia].
      now rewrite Z.shiftl_mul_pow2 by lia. }
    rewrite div_eucl_eq.
    assert (Psh : 0 < 2 ^ sh) by (apply Z.pow_pos_nonneg; lia).
    assert (Pt : 0 < 2 ^ (- e')) by (apply Z.pow_pos_nonneg; lia).
    assert (Hle : m' <= Zpos my * 2 ^ (- e')).
    { rewrite Em'. apply (Z.mul_le_mono_pos_r _ _ (2 ^ (ey + 1074))); [exact Py|].
      rewrite <- !Z.mul_assoc, <- !pow2_split by lia.
      replace (sh + (ey + 1074)) with ((ex + 1074) + (- e')) by (unfold sh; lia).
      replace (- e' + (ey + 1074)) with ((ey + 1074) + (- e')) by lia.
      rewrite (pow2_split (ex + 1074) (- e')), (pow2_split (ey + 1074) (- e')) by lia.
      rewrite !Z.mul_assoc.
      apply Z.mul_le_mono_nonneg_r; lia. }
    destruct (binary_round_aux_le_one false m' (Zpos my) (m' / Zpos my) e'
                (new_location (Zpos my) (m' mod Zpos my)))
      as (Hn & Hs & Hb); try lia.
    + apply new_location_represents. lia.
    + split; [exact Hn|]. cbn [cond_Zopp] in Hs. lia.
Qed.

(** ** Order of float64 values *)

Lemma is_nan_spec (x : float) : PrimFloat.is_nan x = negb (not_nan (Prim2SF x)).
Proof.
  unfold PrimFloat.is_nan. rewrite FloatAxioms.eqb_spec. unfold SFeqb.
  destruct (not_nan (Prim2SF x)) eqn:E.
  - rewrite compare_rank by (auto using Prim2SF_valid). now rewrite Z.compare_refl.
  - destruct (Prim2SF x); try discriminate. reflexivity.
Qed.

Lemma number_not_nan (x : float) : PrimFloat.is_nan x = false -> not_nan (Prim2SF x) = true.
Proof. rewrite is_nan_spec. now destruct (not_nan (Prim2SF x)). Qed.

Lemma ltb_rank (x y : float) :
  PrimFloat.is_nan x = false -> PrimFloat.is_nan y = false ->
  PrimFloat.ltb x y = (frank x <? frank y).
Proof.
  intros Hx Hy. rewrite FloatAxioms.ltb_spec. unfold SFltb, frank.
  rewrite compare_rank by (auto using Prim2SF_valid, number_not_nan).
  unfold Z.ltb. now destruct (_ ?= _).
Qed.

Lemma leb_rank (x y : float) :
  PrimFloat.is_nan x = false -> PrimFloat.is_nan y = false ->
  PrimFloat.leb x y = (frank x <=? frank y).
Proof.
  intros Hx Hy. rewrite FloatAxioms.leb_spec. unfold SFleb, frank.
  rewrite compare_rank by (auto using Prim2SF_valid, number_not_nan).
  unfold Z.leb. now destruct (_ ?= _).
Qed.

Lemma eqb_rank (x y : float) :
  PrimFloat.is_nan x = false -> PrimFloat.is_nan y = false ->
  PrimFloat.eqb x y = (frank x =? frank y).
Proof.
  intros Hx Hy. rewrite FloatAxioms.eqb_spec. unfold SFeqb, frank.
  rewrite compare_rank by (auto using Prim2SF_valid, number_not_nan).
  destruct (Z.compare_spec (rank (Prim2SF x)) (rank (Prim2SF y)));
    destruct (Z.eqb_spec (rank (Prim2SF x)) (rank (Prim2SF y))); try reflexivity; lia.
Qed.

Lemma eqb_nan_l (x y : float) : PrimFloat.is_nan x = true -> PrimFloat.eqb x y = false.
Proof.
  rewrite is_nan_spec, FloatAxioms.eqb_spec. unfold SFeqb.
  destruct (Prim2SF x); cbn; try discriminate. reflexivity.
Qed.

Lemma finite_number (x : float) : is_finite x = true -> PrimFloat.is_nan x = false.
Proof.
  rewrite is_nan_spec. unfold is_finite. now destruct (Prim2SF x).
Qed.

Lemma finite_rank (x : float) : is_finite x = true -> - 2 ^ 2098 < frank x < 2 ^ 2098.
Proof.
  unfold is_finite, frank. pose proof (Prim2SF_valid x) as V.
  assert (0 < 2 ^ 2098) by (apply Z.pow_pos_nonneg; lia).
  destruct (Prim2SF x) as [s|s| |s m e]; try discriminate; intros _.
  - cbn [rank]. lia.
  - pose proof (rank_finite_lt s m e V). unfold rank.
    apply bounded_inv in V as (He & _ & _).
    assert (0 < 2 ^ (e + 1074)) by (apply Z.pow_pos_nonneg; lia).
    destruct s; unfold cond_Zopp in *; nia.
Qed.

Lemma rank_finite (x : spec_float) :
  not_nan x = true -> - 2 ^ 2098 < rank x < 2 ^ 2098 -> is_fin x = true.
Proof.
  destruct x as [s|s| |s m e]; try discriminate; try reflexivity.
  intros _. unfold rank. destruct s; unfold cond_Zopp; lia.
Qed.

Lemma frank_zero : frank 0 = 0.
Proof. reflexivity. Qed.

Lemma frank_one : frank 1 = 2 ^ 1074.
Proof. vm_compute. reflexivity. Qed.

Lemma positive_finite (x : spec_float) :
  valid_binary x = true -> not_nan x = true -> 0 < rank x < 2 ^ 2098 ->
  exists m e, x = S754_finite false m e /\ bounded prec emax m e = true.
Proof.
  destruct x as [s|s| |s m e]; try discriminate; unfold rank.
  - intros; lia.
  - destruct s; unfold cond_Zopp; intros; lia.
  - intros V _ H. apply bounded_inv in V as V'. destruct V' as (He & _ & _).
    assert (0 < 2 ^ (e + 1074)) by (apply Z.pow_pos_nonneg; lia).
    destruct s; unfold cond_Zopp in H; [nia|]. eauto.
Qed.

(** ** The operations *)

Lemma rnd_zero_iff (z : Z) : rnd z = 0 <-> z = 0.
Proof.
  split; [|intros ->; apply rnd_0].
  intros H. destruct (Z.lt_trichotomy z 0) as [L|[E|G]]; [|exact E|].
  - pose proof (rnd_pos (- z) ltac:(lia)). rewrite rnd_opp in *. lia.
  - pose proof (rnd_pos z G). lia.
Qed.

Lemma sub_frank (x y : float) :
  is_finite x = true -> is_finite y = true ->
  PrimFloat.is_nan (x - y) = false /\ frank (x - y) = rnd (frank x - frank y).
Proof.
  intros Fx Fy. rewrite is_nan_spec. unfold frank. rewrite FloatAxioms.sub_spec.
  destruct (sub_rank (Prim2SF x) (Prim2SF y)) as (Hn & Hr);
    auto using Prim2SF_valid.
  rewrite Hn. auto.
Qed.

Lemma sub_finite_inv (x y : float) :
  is_finite (x - y) = true -> is_finite x = true /\ is_finite y = true.
Proof.
  unfold is_finite. rewrite FloatAxioms.sub_spec. apply sub_fin_inv.
Qed.

(** A quotient of two numbers in order, the larger one positive and
    finite, lies between 0 and 1. *)
Lemma div_unit (n d : float) :
  PrimFloat.is_nan n = false -> PrimFloat.is_nan d = false ->
  0 <= frank n <= frank d -> 0 < frank d < 2 ^ 2098 ->
  PrimFloat.leb 0 (n / d) = true /\ PrimFloat.leb (n / d) 1 = true.
Proof.
  intros Hn Hd Hle Hpos.
  destruct (positive_finite (Prim2SF d)) as (my & ey & Ed & Bd);
    auto using Prim2SF_valid, number_not_nan.
  assert (Fn : is_fin (Prim2SF n) = true).
  { apply rank_finite; [now apply number_not_nan|]. unfold frank in *. lia. }
  destruct (div_rank_bound (Prim2SF n) my ey) as (Qn & Qr);
    auto using Prim2SF_valid.
  { unfold frank in *. rewrite Ed in *. cbn [rank cond_Zopp] in *. lia. }
  rewrite <- Ed, <- FloatAxioms.div_spec in Qn, Qr.
  assert (Nq : PrimFloat.is_nan (n / d) = false) by (rewrite is_nan_spec, Qn; reflexivity).
  rewrite !leb_rank by (auto; reflexivity). rewrite frank_zero, frank_one.
  unfold frank. split; apply Z.leb_le; lia.
Qed.

(** ** Minimum and maximum of a series *)

Lemma fold_min_spec (l : list float) :
  forall acc : float,
    PrimFloat.is_nan acc = false ->
    Forall (fun x => PrimFloat.is_nan x = false) l ->
    let r := fold_left (fun acc x => if PrimFloat.ltb acc x then acc else x) l acc in
    PrimFloat.is_nan r = false /\ frank r <= frank acc /\
    Forall (fun x => frank r <= frank x) l /\ (r = acc \/ In r l).
Proof.
  induction l as [|x l IH]; intros acc Ha Hl; cbn [fold_left].
  - repeat split; auto. lia.
  - inversion Hl as [|? ? Hx Hl']; subst.
    rewrite (ltb_rank acc x Ha Hx).
    destruct (Z.ltb_spec (frank acc) (frank x)) as [L|L].
    + destruct (IH acc Ha Hl') as (R1 & R2 & R3 & R4).
      split; [exact R1|]. split; [lia|]. split; [constructor; [lia | exact R3]|].
      destruct R4; [now left | right; now right].
    + destruct (IH x Hx Hl') as (R1 & R2 & R3 & R4).
      split; [exact R1|]. split; [lia|]. split; [constructor; [lia | exact R3]|].
      right. destruct R4 as [-> | R4]; [now left | now right].
Qed.

Lemma fold_max_spec (l : list float) :
  forall acc : float,
    PrimFloat.is_nan acc = false ->
    Forall (fun x => PrimFloat.is_nan x = false) l ->
    let r := fold_left (fun acc x => if PrimFloat.ltb x acc then acc else x) l acc in
    PrimFloat.is_nan r = false /\ frank acc <= frank r /\
    Forall (fun x => frank x <= frank r) l /\ (r = acc \/ In r l).
Proof.
  induction l as [|x l IH]; intros acc Ha Hl; cbn [fold_left].
  - repeat split; auto. lia.
  - inversion Hl as [|? ? Hx Hl']; subst.
    rewrite (ltb_rank x acc Hx Ha).
    destruct (Z.ltb_spec (frank x) (frank acc)) as [L|L].
    + destruct (IH acc Ha Hl') as (R1 & R2 & R3 & R4).
      split; [exact R1|]. split; [lia|]. split; [constructor; [lia | exact R3]|].
      destruct R4; [now left | right; now right].
    + destruct (IH x Hx Hl') as (R1 & R2 & R3 & R4).
      split; [exact R1|]. split; [lia|]. split; [constructor; [lia | exact R3]|].
      right. destruct R4 as [-> | R4]; [now left | now right].
Qed.

Lemma patched_numbers (d : float) (v : list float) :
  PrimFloat.is_nan d = false ->
  Forall (fun x => PrimFloat.is_nan x = false)
         (map (fun x => if PrimFloat.is_nan x then d else x) v).
Proof.
  intros Hd. induction v as [|x v IH]; cbn [map]; constructor; auto.
  destruct (PrimFloat.is_nan x) eqn:E; auto.
Qed.

(** The minimum of a series with a number in it is below every number of
    the series. *)
Lemma series_min_le (v : list float) (x : float) :
  In x v -> PrimFloat.is_nan x = false ->
  PrimFloat.is_nan (series_min v) = false /\ frank (series_min v) <= frank x.
Proof.
  intros Hin Hx. unfold series_min.
  assert (Hall : forallb PrimFloat.is_nan v = false).
  { destruct (forallb PrimFloat.is_nan v) eqn:E; [|reflexivity].
    rewrite forallb_forall in E. rewrite (E x Hin) in Hx. discriminate. }
  rewrite Hall.
  destruct (fold_min_spec
              (map (fun x => if PrimFloat.is_nan x then PrimFloat.infinity else x) v)
              PrimFloat.infinity eq_refl (patched_numbers PrimFloat.infinity v eq_refl))
    as (R1 & _ & R3 & _).
  split; [exact R1|]. rewrite Forall_forall in R3. apply R3.
  apply in_map_iff. exists x. rewrite Hx. auto.
Qed.

Lemma series_max_ge (v : list float) (x : float) :
  In x v -> PrimFloat.is_nan x = false ->
  PrimFloat.is_nan (series_max v) = false /\ frank x <= frank (series_max v).
Proof.
  intros Hin Hx. unfold series_max.
  assert (Hall : forallb PrimFloat.is_nan v = false).
  { destruct (forallb PrimFloat.is_nan v) eqn:E; [|reflexivity].
    rewrite forallb_forall in E. rewrite (E x Hin) in Hx. discriminate. }
  rewrite Hall.
  destruct (fold_max_spec
              (map (fun x => if PrimFloat.is_nan x then PrimFloat.neg_infinity else x) v)
              PrimFloat.neg_infinity eq_refl (patched_numbers PrimFloat.neg_infinity v eq_refl))
    as (R1 & _ & R3 & _).
  split; [exact R1|]. rewrite Forall_forall in R3. apply R3.
  apply in_map_iff. exists x. rewrite Hx. auto.
Qed.

(** ** Normalisation of a float64 series *)

(** With a finite spread, the test [max_val - min_val == 0] is the test
    [max_val == min_val]. *)
Lemma spread_zero (v : list float) :
  is_finite (series_max v - series_min v) = true ->
  PrimFloat.eqb (series_max v - series_min v) 0
  = PrimFloat.eqb (series_max v) (series_min v).
Proof.
  intros Hf. destruct (sub_finite_inv _ _ Hf) as (Fx & Fn).
  destruct (sub_frank _ _ Fx Fn) as (Hn & Hr).
  rewrite !eqb_rank by (auto using finite_number).
  rewrite Hr, frank_zero.
  destruct (Z.eqb_spec (rnd (frank (series_max v) - frank (series_min v))) 0) as [E|E];
    destruct (Z.eqb_spec (frank (series_max v)) (frank (series_min v))) as [E'|E'];
    try reflexivity.
  - exfalso. apply (proj1 (rnd_zero_iff _)) in E. lia.
  - exfalso. apply E. apply rnd_zero_iff. lia.
Qed.

Lemma scaled_in_unit (v : list float) (x : float) :
  is_finite (series_max v - series_min v) = true ->
  PrimFloat.eqb (series_max v) (series_min v) = false ->
  In x v -> PrimFloat.is_nan x = false ->
  in_unit ((x - series_min v) / (series_max v - series_min v)) = true.
Proof.
  intros Hf Hne Hin Hx. destruct (sub_finite_inv _ _ Hf) as (Fx & Fn).
  destruct (sub_frank _ _ Fx Fn) as (Hdn & Hdr).
  destruct (series_min_le v x Hin Hx) as (_ & Hlo).
  destruct (series_max_ge v x Hin Hx) as (_ & Hhi).
  pose proof (finite_rank _ Fx) as Bx. pose proof (finite_rank _ Fn) as Bn.
  assert (Fv : is_finite x = true).
  { apply rank_finite; [now apply number_not_nan|]. unfold frank in *. lia. }
  destruct (sub_frank x (series_min v) Fv Fn) as (Hnn & Hnr).
  assert (Hd : frank (series_max v) <> frank (series_min v)).
  { rewrite eqb_rank in Hne by (auto using finite_number).
    now apply Z.eqb_neq in Hne. }
  pose proof (rnd_pos (frank (series_max v) - frank (series_min v)) ltac:(lia)) as Hpos.
  pose proof (rnd_nonneg (frank x - frank (series_min v)) ltac:(lia)) as Hn0.
  pose proof (rnd_mono (frank x - frank (series_min v))
                (frank (series_max v) - frank (series_min v)) ltac:(lia)) as Hmono.
  pose proof (finite_rank _ Hf) as Bd.
  destruct (div_unit (x - series_min v) (series_max v - series_min v)) as (U0 & U1);
    auto; try lia.
  unfold in_unit. now rewrite U0, U1.
Qed.

Lemma min_max_scale_unit (v : list float) :
  is_finite (series_max v - series_min v) = true ->
  if PrimFloat.eqb (series_max v) (series_min v)
  then min_max_scale v = v
  else Forall2 (fun x r =>
                  r = ((x - series_min v) / (series_max v - series_min v))%float /\
                  (PrimFloat.is_nan x = false -> in_unit r = true))
               v (min_max_scale v).
Proof.
  intros Hf. unfold min_max_scale. rewrite (spread_zero v Hf).
  destruct (PrimFloat.eqb (series_max v) (series_min v)) eqn:E; [reflexivity|].
  assert (H : forall x, In x v -> PrimFloat.is_nan x = false ->
                        in_unit ((x - series_min v) / (series_max v - series_min v)) = true)
    by (intros; now apply scaled_in_unit).
  revert H. generalize (series_min v) (series_max v). clear Hf E. intros mn mx.
  induction v as [|x v IH]; intros H; cbn [map]; constructor.
  - split; [reflexivity|]. apply H. now left.
  - apply IH. intros y Hy. apply H. now right.
Qed.

(** ** Normalisation of an int64 series *)

Lemma of_Z_frank (z : Z) :
  PrimFloat.is_nan (of_Z z) = false /\ frank (of_Z z) = rnd (z * 2 ^ 1074).
Proof.
  unfold of_Z, frank. destruct (binary_normalize_rank z 0 ltac:(lia)) as (V & N & R).
  rewrite is_nan_spec, Prim2SF_SF2Prim by exact V. rewrite N. split; [reflexivity|].
  exact R.
Qed.

Lemma fold_min_int (r : list Z) :
  forall z, let m := fold_left Z.min r z in
            m <= z /\ Forall (fun x => m <= x) r /\ (m = z \/ In m r).
Proof.
  induction r as [|x r IH]; intros z; cbn [fold_left].
  - repeat split; auto. lia.
  - destruct (IH (Z.min z x)) as (R1 & R2 & R3).
    split; [lia|]. split; [constructor; [lia | exact R2]|].
    destruct R3 as [R3|R3]; [|right; now right].
    destruct (Z.min_spec z x) as [(_ & E)|(_ & E)]; [left; lia | right; left; lia].
Qed.

Lemma fold_max_int (r : list Z) :
  forall z, let m := fold_left Z.max r z in
            z <= m /\ Forall (fun x => x <= m) r /\ (m = z \/ In m r).
Proof.
  induction r as [|x r IH]; intros z; cbn [fold_left].
  - repeat split; auto. lia.
  - destruct (IH (Z.max z x)) as (R1 & R2 & R3).
    split; [lia|]. split; [constructor; [lia | exact R2]|].
    destruct R3 as [R3|R3]; [|right; now right].
    destruct (Z.max_spec z x) as [(_ & E)|(_ & E)]; [right; left; lia | left; lia].
Qed.

Lemma wrap64_small (z : Z) : - 2 ^ 63 <= z < 2 ^ 63 -> wrap64 z = z.
Proof.
  unfold wrap64. change (2 ^ 64) with (2 * 2 ^ 63). intros H.
  assert (0 < 2 ^ 63) by (apply Z.pow_pos_nonneg; lia).
  rewrite Z.mod_small; lia.
Qed.

Lemma int_quotient_unit (a d : Z) :
  0 <= a <= d -> 0 < d < 2 ^ 63 -> in_unit (of_Z a / of_Z d) = true.
Proof.
  intros Ha Hd. destruct (of_Z_frank a) as (Na & Ra). destruct (of_Z_frank d) as (Nd & Rd).
  assert (P : 0 < 2 ^ 1074) by (apply Z.pow_pos_nonneg; lia).
  pose proof (rnd_nonneg (a * 2 ^ 1074) ltac:(nia)) as H0.
  pose proof (rnd_mono (a * 2 ^ 1074) (d * 2 ^ 1074) ltac:(nia)) as H1.
  pose proof (rnd_pos (d * 2 ^ 1074) ltac:(nia)) as H2.
  pose proof (rnd_mono (d * 2 ^ 1074) (1 * 2 ^ 1137)) as H3.
  assert (E : 2 ^ 1137 = 2 ^ 63 * 2 ^ 1074) by (rewrite <- pow2_split by lia; reflexivity).
  assert (H4 : rnd (1 * 2 ^ 1137) = 1 * 2 ^ 1137).
  { assert (0 < 2 ^ 1137) by (apply Z.pow_pos_nonneg; lia).
    assert (2 ^ 1137 < 2 ^ 2098) by (apply Z.pow_lt_mono_r; lia).
    unfold rnd. rewrite Z.sgn_pos, Z.abs_eq by lia.
    rewrite round53_exact by lia. lia. }
  assert (H5 : 2 ^ 1137 < 2 ^ 2098) by (apply Z.pow_lt_mono_r; lia).
  assert (H6 : d * 2 ^ 1074 <= 1 * 2 ^ 1137) by (rewrite E; nia).
  specialize (H3 H6).
  destruct (div_unit (of_Z a) (of_Z d)) as (U0 & U1); auto; try lia.
  unfold in_unit. now rewrite U0, U1.
Qed.

Lemma min_max_scale_int_unit (v : list Z) (mn mx : Z) :
  In mn v -> In mx v -> (forall x, In x v -> mn <= x <= mx) -> mx - mn < 2 ^ 63 ->
  if mx =? mn
  then min_max_scale_int v = IntCol v
  else exists out,
      min_max_scale_int v = FloatCol out /\
      Forall2 (fun x r => r = (of_Z (x - mn) / of_Z (mx - mn))%float /\ in_unit r = true)
              v out.
Proof.
  intros Hmn Hmx Hb Hs. destruct v as [|z r]; [destruct Hmn|].
  unfold min_max_scale_int.
  destruct (fold_min_int r z) as (A1 & A2 & A3).
  destruct (fold_max_int r z) as (B1 & B2 & B3).
  rewrite Forall_forall in A2, B2.
  assert (Emn : fold_left Z.min r z = mn).
  { assert (In (fold_left Z.min r z) (z :: r)) by (destruct A3 as [->|?]; [now left | now right]).
    pose proof (Hb _ H). destruct Hmn as [<-|Hmn]; [lia|]. specialize (A2 _ Hmn). lia. }
  assert (Emx : fold_left Z.max r z = mx).
  { assert (In (fold_left Z.max r z) (z :: r)) by (destruct B3 as [->|?]; [now left | now right]).
    pose proof (Hb _ H). destruct Hmx as [<-|Hmx]; [lia|]. specialize (B2 _ Hmx). lia. }
  rewrite Emn, Emx. clear A1 A2 A3 B1 B2 B3 Emn Emx.
  assert (P : 0 < 2 ^ 63) by (apply Z.pow_pos_nonneg; lia).
  pose proof (Hb _ Hmn) as Hle.
  rewrite (wrap64_small (mx - mn)) by lia.
  destruct (Z.eqb_spec mx mn) as [E|E].
  - replace (mx - mn =? 0) with true by (symmetry; apply Z.eqb_eq; lia). reflexivity.
  - replace (mx - mn =? 0) with false by (symmetry; apply Z.eqb_neq; lia).
    eexists. split; [reflexivity|].
    clear Hmn Hmx. revert Hb. generalize (z :: r). intros l Hb.
    induction l as [|x l IH]; cbn [map]; constructor.
    + pose proof (Hb x ltac:(now left)).
      rewrite (wrap64_small (x - mn)) by lia. split; [reflexivity|].
      apply int_quotient_unit; lia.
    + apply IH. intros y Hy. apply Hb. now right.
Qed.

(** ** [min_max_normalize] *)

(** C7, as the code has it. On a float64 column whose spread
    [max - min] is finite, [min_max_normalize] returns the column unchanged
    when [max == min], and otherwise [(x - min) / (max - min)] for each
    value [x], which lies in [0, 1] for every [x] that is not missing. On
    an int64 column whose spread fits an int64 it does the same, dividing
    the conversions of [x - min] and [max - min]. *)
Theorem min_max_normalize_unit :
  (forall (data : DataFrame) (indicator : string) (v : list float),
      get_col indicator data = Ok (FloatCol v) ->
      is_finite (series_max v - series_min v) = true ->
      if PrimFloat.eqb (series_max v) (series_min v)
      then min_max_normalize data indicator = Ok (FloatCol v)
      else exists out,
          min_max_normalize data indicator = Ok (FloatCol out) /\
          Forall2 (fun x r =>
                     r = ((x - series_min v) / (series_max v - series_min v))%float /\
                     (PrimFloat.is_nan x = false -> in_unit r = true))
                  v out) /\
  (forall (data : DataFrame) (indicator : string) (v : list Z) (mn mx : Z),
      get_col indicator data = Ok (IntCol v) ->
      In mn v -> In mx v -> (forall x, In x v -> mn <= x <= mx) -> mx - mn < 2 ^ 63 ->
      if mx =? mn
      then min_max_normalize data indicator = Ok (IntCol v)
      else exists out,
          min_max_normalize data indicator = Ok (FloatCol out) /\
          Forall2 (fun x r => r = (of_Z (x - mn) / of_Z (mx - mn))%float /\ in_unit r = true)
                  v out).
Proof.
  split.
  - intros data indicator v Hc Hf. unfold min_max_normalize. rewrite Hc. cbn [bind].
    pose proof (min_max_scale_unit v Hf) as H.
    destruct (PrimFloat.eqb (series_max v) (series_min v)).
    + now rewrite H.
    + eauto.
  - intros data indicator v mn mx Hc Hmn Hmx Hb Hs. unfold min_max_normalize.
    rewrite Hc. cbn [bind].
    pose proof (min_max_scale_int_unit v mn mx Hmn Hmx Hb Hs) as H.
    destruct (mx =? mn).
    + now rewrite H.
    + destruct H as (out & -> & H). eauto.
Qed.

(** The theorem of C7 on a float64 series and on an int64 series of three
    values. *)
Lemma min_max_normalize_unit_witness :
  (exists out,
      min_max_normalize [("Year", IntCol [2021; 2022; 2023]);
                         ("GDP (US$)", FloatCol [2; 4; 3]%float)]%string "GDP (US$)"
      = Ok (FloatCol out) /\
      Forall2 (fun x r => r = ((x - 2) / (4 - 2))%float /\
                          (PrimFloat.is_nan x = false -> in_unit r = true))
              [2; 4; 3]%float out) /\
  (exists out,
      min_max_normalize [("Year", IntCol [2021; 2022; 2023]);
                         ("Population", IntCol [30; 10; 20])]%string "Population"
      = Ok (FloatCol out) /\
      Forall2 (fun x r => r = (of_Z (x - 10) / of_Z (30 - 10))%float /\ in_unit r = true)
              [30; 10; 20] out).
Proof.
  split.
  - exact (proj1 min_max_normalize_unit
             [("Year", IntCol [2021; 2022; 2023]);
              ("GDP (US$)", FloatCol [2; 4; 3]%float)]%string "GDP (US$)"%string
             [2; 4; 3]%float eq_refl eq_refl).
  - refine (proj2 min_max_normalize_unit
              [("Year", IntCol [2021; 2022; 2023]);
               ("Population", IntCol [30; 10; 20])]%string "Population"%string
              [30; 10; 20] 10 30 eq_refl _ _ _ eq_refl).
    + right. left. reflexivity.
    + left. reflexivity.
    + intros x [<-|[<-|[<-|[]]]]; lia.
Defined.

(** The claim C7 fails on a column whose spread overflows: the two values
    are finite and differ, and the larger one is sent to NaN, which is not
    in [0, 1]. *)
Lemma normalize_overflow :
  min_max_normalize [("Year", IntCol [2022; 2023]);
                     ("GDP (US$)", FloatCol [-0x1p1023; 0x1p1023]%float)]%string "GDP (US$)"
  = Ok (FloatCol [0; PrimFloat.nan]%float) /\
  PrimFloat.eqb (series_max [-0x1p1023; 0x1p1023]%float)
                (series_min [-0x1p1023; 0x1p1023]%float) = false /\
  PrimFloat.is_nan 0x1p1023 = false /\
  in_unit PrimFloat.nan = false.
Proof. vm_compute. repeat split. Qed.

(* ================================================================== *)
(** * Further properties of the two modules *)
(* ================================================================== *)

(** What the code does beyond the sentences of the specification: where
    the load fails and what it keeps, how year tokens and GDP values are
    read, and what the three views draw at the edges of the data. *)

(** ** The decimal digits of an integer *)

(** The digits of [d] written after those of [a]: all of them are digits,
    and reading them on from the value of [a] gives the value of both. *)
Lemma uint_digits (d : Decimal.uint) :
  forall a : Decimal.uint,
    Forall (fun c => is_digit c = true) (chars (NilEmpty.string_of_uint d)) /\
    fold_left (fun acc c => 10 * acc + digit_value c)
              (chars (NilEmpty.string_of_uint d)) (Z.of_N (Unsigned.of_lu a))
    = Z.of_N (Unsigned.of_lu (Decimal.revapp d a)).
Proof.
  unfold chars.
  induction d as [|d IH|d IH|d IH|d IH|d IH|d IH|d IH|d IH|d IH|d IH]; intros a;
    cbn [NilEmpty.string_of_uint list_ascii_of_string fold_left Decimal.revapp].
  1: split; [constructor | reflexivity].
  all: split; [constructor; [reflexivity | apply (IH a)]|].
  all: match goal with
       | |- context [Decimal.revapp _ ?b] => rewrite <- (proj2 (IH b))
       end.
  all: f_equal; cbn [Unsigned.of_lu]; rewrite ?N2Z.inj_add, N2Z.inj_mul.
  all: generalize (Z.of_N (Unsigned.of_lu a)); intros v.
  all: match goal with
       | |- context [digit_value ?c] =>
           let k := eval vm_compute in (digit_value c) in change (digit_value c) with k
       end; cbn [Z.of_N]; lia.
Qed.

Lemma str_of_int_pos (p : positive) :
  chars (str_of_int (Zpos p)) <> [] /\
  Forall (fun c => is_digit c = true) (chars (str_of_int (Zpos p))) /\
  fold_left (fun acc c => 10 * acc + digit_value c) (chars (str_of_int (Zpos p))) 0 = Zpos p.
Proof.
  unfold str_of_int. cbn [Z.to_int NilZero.string_of_int].
  pose proof (Unsigned.to_uint_nonnil p) as Hn.
  assert (E : NilZero.string_of_uint (Pos.to_uint p) = NilEmpty.string_of_uint (Pos.to_uint p)).
  { unfold NilZero.string_of_uint. destruct (Pos.to_uint p); congruence. }
  rewrite E. destruct (uint_digits (Pos.to_uint p) Decimal.Nil) as (F & V).
  split; [|split; [exact F|]].
  - destruct (Pos.to_uint p); try congruence; discriminate.
  - change 0 with (Z.of_N (Unsigned.of_lu Decimal.Nil)) at 1. unfold chars in *. rewrite V.
    change (Decimal.revapp (Pos.to_uint p) Decimal.Nil) with (Decimal.rev (Pos.to_uint p)).
    now rewrite <- Unsigned.of_uint_alt, Unsigned.of_to.
Qed.

Lemma str_of_int_nonneg (z : Z) :
  0 <= z ->
  chars (str_of_int z) <> [] /\
  Forall (fun c => is_digit c = true) (chars (str_of_int z)) /\
  fold_left (fun acc c => 10 * acc + digit_value c) (chars (str_of_int z)) 0 = z.
Proof.
  intros Hz. destruct z as [|p|p]; [|apply str_of_int_pos|lia].
  split; [discriminate|]. split; [repeat constructor | reflexivity].
Qed.

Lemma str_of_int_neg (p : positive) :
  chars (str_of_int (Zneg p)) = "-"%char :: chars (str_of_int (Zpos p)).
Proof. reflexivity. Qed.

(** ** Reading a run of digits *)

Lemma digits_value_shift (l : list ascii) :
  forall acc : Z,
    fold_left (fun acc c => 10 * acc + digit_value c) l acc
    = acc * 10 ^ Z.of_nat (List.length l)
      + fold_left (fun acc c => 10 * acc + digit_value c) l 0.
Proof.
  induction l as [|c l IH]; intros acc; cbn [fold_left List.length].
  - cbn. lia.
  - rewrite (IH (10 * acc + digit_value c)), (IH (10 * 0 + digit_value c)).
    rewrite Nat2Z.inj_succ, Z.pow_succ_r by lia. ring.
Qed.

Lemma digits_value_bound (l : list ascii) :
  Forall (fun c => is_digit c = true) l ->
  0 <= fold_left (fun acc c => 10 * acc + digit_value c) l 0 < 10 ^ Z.of_nat (List.length l).
Proof.
  induction l as [|c l IH] using rev_ind; intros F; [cbn; lia|].
  apply Forall_app in F as (F1 & F2). inversion F2 as [|? ? Hc _]; subst.
  specialize (IH F1). rewrite fold_left_app, length_app. cbn [fold_left List.length].
  apply digit_code in Hc. assert (0 <= digit_value c <= 9) by (unfold digit_value; lia).
  rewrite Nat2Z.inj_add, Z.pow_add_r by lia. change (10 ^ Z.of_nat 1) with 10. lia.
Qed.

Lemma digits_run (l : list ascii) :
  l <> [] -> Forall (fun c => is_digit c = true) l ->
  digit_run l (fold_left (fun acc c => 10 * acc + digit_value c) l 0).
Proof.
  induction l as [|c l IH] using rev_ind; intros Hn F; [congruence|].
  apply Forall_app in F as (F1 & F2). inversion F2 as [|? ? Hc _]; subst.
  rewrite fold_left_app. cbn [fold_left].
  destruct l as [|c0 l].
  - cbn. replace (10 * 0 + digit_value c) with (digit_value c) by lia. now constructor.
  - apply run_digit; [apply IH; [discriminate | exact F1] | exact Hc].
Qed.

Lemma take_digits_run (l : list ascii) :
  forall acc n : Z,
    Forall (fun c => is_digit c = true) l ->
    take_digits acc n l
    = (fold_left (fun acc c => 10 * acc + digit_value c) l acc,
       n + Z.of_nat (List.length l), []).
Proof.
  induction l as [|c l IH]; intros acc n F; cbn [take_digits fold_left List.length].
  - now rewrite Z.add_0_r.
  - inversion F as [|? ? Hc F']; subst. rewrite Hc, (IH _ _ F').
    f_equal. f_equal. lia.
Qed.

(** [int] reads back what [str] writes. *)
Lemma int_literal_digits (l : list ascii) :
  l <> [] -> Forall (fun c => is_digit c = true) l ->
  int_literal l (fold_left (fun acc c => 10 * acc + digit_value c) l 0).
Proof.
  intros Hn F. exists [], [], l, [], false, (fold_left (fun acc c => 10 * acc + digit_value c) l 0).
  rewrite app_nil_r. repeat split; [left; auto | now apply digits_run].
Qed.

(** ** Integer year tokens *)

Lemma set_col_same (k : string) (c : column) (df : DataFrame) :
  assoc k df = Some c -> set_col k c df = df.
Proof.
  induction df as [|[k' c'] df IH]; cbn; [discriminate|].
  destruct (String.eqb_spec k k') as [->|N].
  - now intros [= ->].
  - intros H. now rewrite IH.
Qed.

Lemma year_of_nonneg (y : Z) : 0 <= y -> year_of (SInt y) = Ok (y mod 10000).
Proof.
  intros Hy. apply year_of_literal. cbn [py_str].
  destruct (str_of_int_nonneg y Hy) as (Hn & F & V).
  destruct (suffix_split 4 (str_of_int y)) as (p & E & Hlen).
  set (kept := chars (suffix 4 (str_of_int y))) in *.
  rewrite E in F, V, Hn. apply Forall_app in F as (Fp & Fk).
  assert (Hk : kept <> []).
  { intros K. rewrite K in *. destruct Hlen as [L|(-> & _)]; [discriminate L | now apply Hn]. }
  rewrite fold_left_app, digits_value_shift in V.
  pose proof (digits_value_bound p Fp) as Bp. pose proof (digits_value_bound kept Fk) as Bk.
  replace (y mod 10000) with (fold_left (fun acc c => 10 * acc + digit_value c) kept 0);
    [now apply int_literal_digits|].
  destruct Hlen as [L|(-> & L)].
  - rewrite L in *. change (10 ^ Z.of_nat 4) with 10000 in *.
    apply (Z.mod_unique_pos y 10000
                       (fold_left (fun acc c => 10 * acc + digit_value c) p 0)); lia.
  - cbn [fold_left] in V. rewrite Z.mul_0_l, Z.add_0_l in V. rewrite V in *.
    symmetry. apply Z.mod_small. split; [lia|].
    eapply Z.lt_le_trans; [apply Bk|].
    change 10000 with (10 ^ 4). apply Z.pow_le_mono_r; lia.
Qed.

Lemma traverse_year_ints (v : list Z) :
  Forall (fun y => 0 <= y <= 9999) v -> traverse year_of (map SInt v) = Ok v.
Proof.
  induction 1 as [|y v Hy _ IH]; [reflexivity|].
  cbn [map traverse]. rewrite (year_of_nonneg y) by lia. rewrite IH. cbn.
  now rewrite Z.mod_small by lia.
Qed.

(** X5. An integer year token keeps its last four decimal digits, so a year
    between 0 and 9999 is kept as it is, and an int64 [Year] column of such
    years goes through the step unchanged. *)
Theorem year_of_int_token :
  (forall y : Z, 0 <= y -> year_of (SInt y) = Ok (y mod 10000)) /\
  (forall y : Z, 0 <= y <= 9999 -> year_of (SInt y) = Ok y) /\
  (forall (df : DataFrame) (v : list Z),
      assoc "Year"%string df = Some (IntCol v) ->
      Forall (fun y => 0 <= y <= 9999) v ->
      normalize_year df = Ok df).
Proof.
  split; [exact year_of_nonneg|]. split.
  - intros y Hy. rewrite year_of_nonneg by lia. now rewrite Z.mod_small by lia.
  - intros df v Hc Hv. unfold normalize_year, get_col. rewrite Hc. cbn [bind scalars].
    rewrite (traverse_year_ints v Hv). cbn [bind]. now rewrite (set_col_same _ _ _ Hc).
Qed.

Lemma year_of_int_token_witness :
  year_of (SInt 12023) = Ok 2023 /\ year_of (SInt 1999) = Ok 1999 /\
  normalize_year [("Year"%string, IntCol [1999; 2023]); ("GDP (US$)"%string, FloatCol [1; 2]%float)]
  = Ok [("Year"%string, IntCol [1999; 2023]); ("GDP (US$)"%string, FloatCol [1; 2]%float)].
Proof.
  split; [exact (proj1 year_of_int_token 12023 ltac:(lia))|].
  split; [apply (proj1 (proj2 year_of_int_token)); lia|].
  apply (proj2 (proj2 year_of_int_token) _ [1999; 2023]); [reflexivity|].
  repeat constructor; lia.
Defined.

(** ** Float year tokens *)

Lemma float_years_checked :
  forallb (fun n => negb (is_ok (year_of (SFloat (of_Z (Z.of_nat n)))))) (seq 0 (100 * 100)) = true.
Proof. vm_compute. reflexivity. Qed.

Lemma rename_label_year (l : string) : rename_label l = "Year"%string <-> l = "Year"%string.
Proof.
  unfold rename_label. cbn [assoc rename_columns].
  repeat match goal with
         | |- context [String.eqb l ?k] => destruct (String.eqb_spec l k); [subst l|]
         end;
    split; intros H; try discriminate H; try reflexivity; try exact H; congruence.
Qed.

Lemma assoc_rename_year (df : DataFrame) :
  assoc "Year"%string (rename df) = assoc "Year"%string df.
Proof.
  induction df as [|[l c] df IH]; [reflexivity|]. cbn [rename map assoc].
  destruct (String.eqb_spec "Year" (rename_label l)) as [E|N];
    destruct (String.eqb_spec "Year" l) as [E'|N']; try reflexivity; try exact IH.
  - symmetry in E. apply (proj1 (rename_label_year l)) in E. congruence.
  - exfalso. apply N. symmetry. apply (proj2 (rename_label_year l)). congruence.
Qed.

(** X6. A [Year] column read as float64 (as it is when a year is missing in
    the file) is rejected: the text of a whole year between 0 and 9999 ends
    in [".0"], and that of a missing one is ["nan"], which [int] refuses,
    so the load raises. *)
Theorem float_year_rejected :
  (forall y : Z, 0 <= y <= 9999 -> exists e, year_of (SFloat (of_Z y)) = Raise e) /\
  (exists e, year_of (SFloat PrimFloat.nan) = Raise e) /\
  (forall (df : DataFrame) (v : list float) (y : Z),
      assoc "Year"%string df = Some (FloatCol v) ->
      0 <= y <= 9999 -> In (of_Z y) v ->
      exists e, load_and_process_data (Ok df) = Raise e).
Proof.
  assert (A : forall y : Z, 0 <= y <= 9999 -> exists e, year_of (SFloat (of_Z y)) = Raise e).
  { intros y Hy. pose proof float_years_checked as H. rewrite forallb_forall in H.
    specialize (H (Z.to_nat y)). rewrite Z2Nat.id in H by lia.
    destruct (year_of (SFloat (of_Z y))) as [z|e]; [|eauto].
    discriminate H. apply in_seq. change (100 * 100)%nat with (Z.to_nat 10000). lia. }
  split; [exact A|]. split; [eexists; vm_compute; reflexivity|].
  intros df v y Hc Hy Hin. destruct (A y Hy) as (e & He).
  unfold load_and_process_data. cbn [bind]. unfold normalize_year, get_col.
  rewrite assoc_rename_year, Hc. cbn [bind scalars].
  destruct (traverse_raise year_of (map SFloat v) (SFloat (of_Z y)) e) as (e' & ->);
    [now apply in_map | exact He|]. cbn. eauto.
Qed.

Lemma float_year_rejected_witness :
  (exists e, year_of (SFloat 2023) = Raise e) /\
  exists e, load_and_process_data
              (Ok [("Year"%string, FloatCol [2022; 2023]%float);
                   ("Population Growth"%string, FloatCol [2.5; 2.5]%float)]) = Raise e.
Proof.
  split.
  - exact (proj1 float_year_rejected 2023 ltac:(lia)).
  - apply (proj2 (proj2 float_year_rejected) _ [2022; 2023]%float 2023);
      [reflexivity | lia | right; left; reflexivity].
Defined.

(** ** Reading back a printed whole number *)

Lemma strip_digits (pre l : list ascii) :
  Forall (fun c => is_space c = false) pre ->
  l <> [] -> Forall (fun c => is_digit c = true) l ->
  strip (pre ++ l) = pre ++ l.
Proof.
  intros Fp Hn F.
  destruct (exists_last Hn) as (q & b & El).
  assert (Hb : is_space b = false).
  { apply digit_not_space. rewrite El in F. apply Forall_app in F as (_ & F).
    now inversion F. }
  destruct (pre ++ l) as [|a mid] eqn:E.
  - destruct pre; [cbn in E; congruence | discriminate].
  - assert (Ha : is_space a = false).
    { destruct pre as [|a' pre']; cbn in E.
      - rewrite E in F. apply digit_not_space. now inversion F.
      - injection E as -> _. now inversion Fp. }
    assert (Hl : exists p, a :: mid = p ++ [b]).
    { exists (pre ++ q). rewrite <- E, El. now rewrite app_assoc. }
    pose proof (strip_core [] (a :: mid) [] a b mid eq_refl eq_refl eq_refl Hl Ha Hb) as H.
    cbn [app] in H. now rewrite app_nil_r in H.
Qed.

Lemma underscores_ok_plain (l : list ascii) :
  forall prev : ascii,
    Ascii.eqb prev "_" = false ->
    Forall (fun c => Ascii.eqb c "_" = false) l ->
    underscores_ok prev l = true.
Proof.
  induction l as [|c l IH]; intros prev Hp F; cbn [underscores_ok].
  - now rewrite Hp.
  - inversion F as [|? ? Hc F']; subst. rewrite Hc, Hp. cbn. now apply IH.
Qed.

Lemma drop_underscores_plain (l : list ascii) :
  Forall (fun c => Ascii.eqb c "_" = false) l -> drop_underscores l = l.
Proof.
  unfold drop_underscores. induction 1 as [|c l Hc _ IH]; [reflexivity|].
  cbn [filter]. rewrite Hc. cbn. now rewrite IH.
Qed.

Lemma digits_plain (l : list ascii) :
  Forall (fun c => is_digit c = true) l -> Forall (fun c => Ascii.eqb c "_" = false) l.
Proof.
  intros F. eapply Forall_impl; [|exact F]. intros c Hc. now apply digit_not_sign.
Qed.

Lemma lower_digit (c : ascii) : is_digit c = true -> lower c = c.
Proof.
  intros Hc. apply digit_code in Hc. unfold lower.
  replace ((65 <=? code c) && (code c <=? 90)) with false; [reflexivity|].
  symmetry. apply andb_false_iff. left. apply Z.leb_gt. lia.
Qed.

(** A text that starts with a digit is none of the words [float] knows. *)
Lemma digit_word (c : ascii) (l : list ascii) :
  is_digit c = true ->
  String.eqb (text (map lower (c :: l))) "inf" = false /\
  String.eqb (text (map lower (c :: l))) "infinity" = false /\
  String.eqb (text (map lower (c :: l))) "nan" = false.
Proof.
  intros Hc. cbn [map text string_of_list_ascii]. rewrite (lower_digit c Hc).
  apply digit_code in Hc. unfold text. cbn [string_of_list_ascii String.eqb].
  assert (Hi : Ascii.eqb c "i" = false).
  { apply Ascii.eqb_neq. intros ->. change (code "i") with 105 in Hc. lia. }
  assert (Hn : Ascii.eqb c "n" = false).
  { apply Ascii.eqb_neq. intros ->. change (code "n") with 110 in Hc. lia. }
  now rewrite Hi, Hn.
Qed.

Lemma of_decimal_whole (neg : bool) (n : Z) :
  0 <= n -> of_decimal neg n 0 = signed neg (of_Z n).
Proof.
  intros Hn. unfold of_decimal. destruct (Z.eqb_spec n 0) as [->|N]; [reflexivity|].
  pose proof (Z.log2_nonneg n).
  replace (400 <? 0) with false by reflexivity.
  replace (0 <? - 400 - Z.log2 n - 1) with false by (symmetry; apply Z.ltb_ge; lia).
  cbn [Z.leb Z.compare]. change (10 ^ 0) with 1. rewrite Z.mul_1_r. reflexivity.
Qed.

(** [float] reads a signed whole number back as the float64 nearest to it. *)
Lemma py_float_whole (neg : bool) (n : Z) :
  0 <= n ->
  py_float (append (if neg then "-" else "") (str_of_int n))
  = Some (signed neg (of_Z n)).
Proof.
  intros Hn. destruct (str_of_int_nonneg n Hn) as (Hne & F & V).
  set (ds := chars (str_of_int n)) in *.
  assert (Ec : chars (append (if neg then "-" else "") (str_of_int n))
               = (if neg then ["-"%char] else []) ++ ds).
  { destruct neg; reflexivity. }
  unfold py_float. rewrite Ec.
  rewrite strip_digits; [| destruct neg; repeat constructor | exact Hne | exact F].
  assert (Fu : Forall (fun c => Ascii.eqb c "_" = false) ((if neg then ["-"%char] else []) ++ ds)).
  { apply Forall_app. split; [destruct neg; repeat constructor | now apply digits_plain]. }
  rewrite underscores_ok_plain by (auto; reflexivity). cbn [negb].
  rewrite drop_underscores_plain by exact Fu.
  destruct ds as [|c r] eqn:Eds; [congruence|].
  assert (Hc : is_digit c = true) by now inversion F.
  destruct (digit_not_sign c Hc) as (S1 & S2 & _).
  assert (Es : split_sign ((if neg then ["-"%char] else []) ++ c :: r) = (neg, c :: r)).
  { destruct neg; cbn [app split_sign]; [reflexivity|]. now rewrite S1, S2. }
  rewrite Es. destruct (digit_word c r Hc) as (W1 & W2 & W3). rewrite W1, W2, W3. cbn [orb].
  unfold parse_decimal. rewrite (take_digits_run (c :: r) 0 0 F). cbn [parse_exponent].
  rewrite V. cbn [Z.add].
  replace (Z.of_nat (List.length (c :: r)) + 0 =? 0) with false
    by (symmetry; apply Z.eqb_neq; cbn [List.length]; lia).
  cbn [option_map]. rewrite Z.sub_0_l. cbn [Z.opp]. now rewrite of_decimal_whole.
Qed.

(** ** The GDP column *)

Lemma append_empty (s : string) : append s EmptyString = s.
Proof. induction s as [|c s IH]; cbn; [reflexivity | now rewrite IH]. Qed.

Lemma format_f_whole (neg : bool) (n : Z) :
  fixed_point 0 neg n = append (if neg then "-" else "") (str_of_int n).
Proof.
  unfold fixed_point. change (10 ^ Z.of_nat 0) with 1. now rewrite Z.div_1_r, append_empty.
Qed.

Lemma whole_units_value (x : float) :
  whole_units x =
  Ok (match Prim2SF x with
      | S754_finite s m e =>
          signed s (of_Z (if 0 <=? e then Zpos m * 2 ^ e
                          else round_half_even (Zpos m) (2 ^ (- e))))
      | _ => x
      end).
Proof.
  unfold whole_units, format_f. pose proof (SF2Prim_Prim2SF x) as Ex.
  destruct (Prim2SF x) as [s|s| |s m e] eqn:E.
  - rewrite format_f_whole, py_float_whole by lia. rewrite <- Ex. now destruct s.
  - rewrite <- Ex. now destruct s.
  - rewrite <- Ex. reflexivity.
  - rewrite format_f_whole, py_float_whole by apply scaled_nonneg.
    unfold scaled. change (10 ^ Z.of_nat 0) with 1. now rewrite Z.mul_1_r.
Qed.

Lemma reformat_gdp_float (df : DataFrame) (v : list float) :
  assoc "GDP (US$)"%string df = Some (FloatCol v) ->
  exists v', reformat_gdp df = Ok (set_col "GDP (US$)" (FloatCol v') df) /\
             Forall2 (fun x y => whole_units x = Ok y) v v'.
Proof.
  intros Hc. unfold reformat_gdp, get_col. rewrite Hc. cbn [bind scalars].
  assert (H : exists v', traverse whole_units_cell (map SFloat v) = Ok v' /\
                         Forall2 (fun x y => whole_units x = Ok y) v v').
  { clear Hc. induction v as [|x v (v' & Ht & HF)]; [exists []; split; [reflexivity|constructor]|].
    cbn [map traverse whole_units_cell]. rewrite (whole_units_value x), Ht. cbn [bind].
    eexists. split; [reflexivity|]. constructor; [apply whole_units_value | exact HF]. }
  destruct H as (v' & -> & HF). cbn [bind]. eauto.
Qed.

(** X7. [float(f"{x:.0f}")] never raises on a float: a missing value, an
    infinity and a zero come back as they are, and a finite value comes
    back as the float64 nearest to the whole number nearest to it (ties to
    even on both roundings); so the step keeps a float64 GDP column, row by
    row. *)
Theorem whole_units_rounds :
  (forall x : float,
      whole_units x =
      Ok (match Prim2SF x with
          | S754_finite s m e =>
              signed s (of_Z (if 0 <=? e then Zpos m * 2 ^ e
                              else round_half_even (Zpos m) (2 ^ (- e))))
          | _ => x
          end)) /\
  (forall (df : DataFrame) (v : list float),
      assoc "GDP (US$)"%string df = Some (FloatCol v) ->
      exists v', reformat_gdp df = Ok (set_col "GDP (US$)" (FloatCol v') df) /\
                 Forall2 (fun x y => whole_units x = Ok y) v v') /\
  whole_units 472624597380.5 = Ok 472624597380%float /\
  whole_units 1.5 = Ok 2%float /\ whole_units 2.5 = Ok 2%float /\
  whole_units (-0.25) = Ok (-0)%float.
Proof.
  split; [exact whole_units_value|].
  split; [exact reformat_gdp_float | repeat split; vm_compute; reflexivity].
Qed.

(** ** Where the load can fail *)

Lemma float64_column (c : column) : has_dtype float64 c = true -> exists v, c = FloatCol v.
Proof. destruct c; try discriminate; eauto. Qed.

Lemma load_after_cast (df d1 d2 : DataFrame) :
  normalize_year (rename df) = Ok d1 -> astype convert_dtype d1 = Ok d2 ->
  exists out, load_and_process_data (Ok df) = Ok out.
Proof.
  intros H1 H2. unfold load_and_process_data. cbn [bind]. rewrite H1. cbn [bind].
  rewrite H2. cbn [bind].
  apply astype_ok in H2 as (Hk & HF).
  destruct (assoc_of_label "GDP (US$)" d1) as (g & Hg); [apply Hk; cbn; auto 20|].
  destruct (Forall2_assoc _ _ _ _ _ HF Hg) as (g' & Hg' & Hcast). cbn [assoc convert_dtype] in Hcast.
  cbn in Hcast. apply (cast_dtype float64) in Hcast. apply float64_column in Hcast as (v & ->).
  destruct (reformat_gdp_float d2 v Hg') as (v' & -> & _). cbn [bind].
  destruct (assoc_of_label "Year" d1) as (y & Hy); [apply Hk; cbn; auto|].
  destruct (Forall2_assoc _ _ _ _ _ HF Hy) as (y' & Hy' & _).
  unfold mask_zero_2023, get_col. rewrite assoc_set_col. cbn [String.eqb Ascii.eqb Bool.eqb].
  rewrite Hy'. cbn [bind]. eauto.
Qed.

(** X4. On a source whose headers stay pairwise distinct once they are
    renamed, the load goes through as soon as the years are read and the
    columns cast: neither the GDP step nor the rule for 2023 raises. *)
Theorem load_fails_early (df d1 d2 : DataFrame) :
  distinct (map rename_label (labels df)) = true ->
  normalize_year (rename df) = Ok d1 -> astype convert_dtype d1 = Ok d2 ->
  exists out, load_and_process_data (Ok df) = Ok out.
Proof. intros _. exact (load_after_cast df d1 d2). Qed.

Lemma load_fails_early_witness :
  exists out, load_and_process_data (Ok sample_frame) = Ok out.
Proof.
  eapply load_fails_early; vm_compute; reflexivity.
Defined.

(** ** The headers of the renaming table *)

Lemma rename_label_growth (l : string) :
  rename_label l = "Population Growth"%string <-> l = "Population Growth"%string.
Proof.
  unfold rename_label. cbn [assoc rename_columns].
  repeat match goal with
         | |- context [String.eqb l ?k] => destruct (String.eqb_spec l k); [subst l|]
         end;
    split; intros H; try discriminate H; try reflexivity; try exact H; congruence.
Qed.

Lemma astype_first_missing (spec : list (string * dtype)) (df : DataFrame) (k : string) :
  find (fun k => negb (existsb (String.eqb k) (labels df))) (map fst spec) = Some k ->
  astype spec df = Raise (KeyError k).
Proof. intros H. unfold astype, has_label. now rewrite H. Qed.

(** X1. A source without a column headed ["Population Growth"] does not load:
    the renaming table gives that label to no header, and the cast table
    asks for it. With the sixteen headers of the renaming table and years
    that read well, the exception is [KeyError: 'Population Growth']. *)
Theorem documented_headers_rejected :
  (forall df : DataFrame,
      ~ In "Population Growth"%string (labels df) ->
      exists e, load_and_process_data (Ok df) = Raise e) /\
  (forall (df : DataFrame) (c : column) (ys : list Z),
      labels df = map fst rename_columns ->
      assoc "Year"%string df = Some c -> traverse year_of (scalars c) = Ok ys ->
      load_and_process_data (Ok df) = Raise (KeyError "Population Growth")).
Proof.
  split.
  - intros df Hn. unfold load_and_process_data. cbn [bind].
    destruct (normalize_year (rename df)) as [d1|e] eqn:H1; cbn [bind]; [|eauto].
    apply normalize_year_ok in H1 as (c & ys & Hy & _ & ->).
    destruct (astype_missing convert_dtype (set_col "Year" (IntCol ys) (rename df))
                "Population Growth") as (k' & -> & _); [cbn; auto 20| |cbn; eauto].
    rewrite (labels_set_col _ _ _ _ Hy), labels_rename. intros Hin.
    apply in_map_iff in Hin as (l & Hl & Hin). apply (proj1 (rename_label_growth l)) in Hl. congruence.
  - intros df c ys Hl Hy Ht. unfold load_and_process_data, normalize_year, get_col. cbn [bind].
    rewrite assoc_rename_year, Hy. cbn [bind]. rewrite Ht. cbn [bind].
    rewrite (astype_first_missing _ _ "Population Growth"); [reflexivity|].
    rewrite (labels_set_col "Year" (IntCol ys) c) by (now rewrite assoc_rename_year).
    rewrite labels_rename, Hl. vm_compute. reflexivity.
Qed.

Lemma documented_headers_rejected_witness :
  exists e,
    load_and_process_data
      (Ok (map (fun l => (l, if String.eqb l "Year" then IntCol [2022; 2023]
                             else FloatCol [1; 2]%float))
               (map fst rename_columns))) = Raise e.
Proof.
  apply (proj1 documented_headers_rejected). vm_compute.
  intros H. repeat (destruct H as [H|H]; [discriminate H|]). exact H.
Defined.

(** ** Rows *)

Lemma scalars_length (c : column) : List.length (scalars c) = height c.
Proof. destruct c; cbn; apply length_map. Qed.

Lemma traverse_length {A B : Type} (f : A -> result B) (l : list A) (l' : list B) :
  traverse f l = Ok l' -> List.length l' = List.length l.
Proof. intros H. apply traverse_ok in H. symmetry. eapply Forall2_length. exact H. Qed.

Lemma cast_height (t : dtype) (c c' : column) : cast t c = Ok c' -> height c' = height c.
Proof.
  destruct t, c as [v|v|v]; cbn;
    try (intros [= <-]; cbn; now rewrite ?length_map);
    match goal with
    | |- context [traverse ?f v] => destruct (traverse f v) as [v'|e] eqn:E
    end; cbn; intros [= <-]; cbn; now apply traverse_length in E.
Qed.

Lemma mask_float_length (hit : list bool) :
  forall v : list float, List.length (mask_float hit v) = List.length v.
Proof.
  induction hit as [|h hit IH]; intros [|x v]; cbn; auto.
Qed.

Lemma mask_column_height (hit : list bool) (c : column) :
  height (mask_column hit c) = height c.
Proof.
  destruct c as [v|v|v]; cbn; [|apply mask_float_length|reflexivity].
  now rewrite mask_float_length, length_map.
Qed.

Lemma set_col_rows (k : string) (c c0 : column) (df : DataFrame) :
  assoc k df = Some c0 -> height c = height c0 ->
  Forall2 (fun a b => fst b = fst a /\ height (snd b) = height (snd a)) df (set_col k c df).
Proof.
  intros Hk Hh. induction df as [|[k' c'] df IH]; cbn in *; [discriminate|].
  destruct (String.eqb_spec k k') as [->|N].
  - injection Hk as ->. constructor; [auto|].
    clear. induction df; constructor; auto.
  - constructor; [auto | now apply IH].
Qed.

Lemma Forall2_rows_trans (a b c : DataFrame) :
  Forall2 (fun x y => fst y = fst x /\ height (snd y) = height (snd x)) a b ->
  Forall2 (fun x y => fst y = fst x /\ height (snd y) = height (snd x)) b c ->
  Forall2 (fun x y => fst y = fst x /\ height (snd y) = height (snd x)) a c.
Proof.
  intros H. revert c. induction H as [|x y a b (H1 & H2) _ IH]; intros c Hc;
    inversion Hc as [|? z ? c' (H3 & H4) Hc']; subst; constructor.
  - split; congruence.
  - now apply IH.
Qed.

Lemma load_rows (csv : result DataFrame) (out : DataFrame) :
  load_and_process_data csv = Ok out ->
  exists df, csv = Ok df /\
    Forall2 (fun a b => fst b = rename_label (fst a) /\ height (snd b) = height (snd a)) df out.
Proof.
  intros H. apply load_steps in H as (df & d1 & d2 & d3 & -> & H1 & H2 & H3 & H4).
  exists df. split; [reflexivity|].
  apply normalize_year_ok in H1 as (cy & ys & Hy & Ht & ->).
  apply astype_ok in H2 as (_ & HF).
  unfold reformat_gdp, get_col in H3.
  destruct (assoc "GDP (US$)" d2) as [g|] eqn:Hg; cbn [bind] in H3; [|discriminate].
  destruct (traverse whole_units_cell (scalars g)) as [v|e] eqn:Hv; cbn [bind] in H3; [|discriminate].
  injection H3 as <-.
  apply mask_zero_2023_ok in H4 as (y & _ & ->).
  assert (S1 : Forall2 (fun x y => fst y = fst x /\ height (snd y) = height (snd x))
                       (rename df) (set_col "Year" (IntCol ys) (rename df))).
  { apply (set_col_rows _ _ cy); [exact Hy|]. cbn [height].
    now rewrite (traverse_length _ _ _ Ht), scalars_length. }
  assert (S2 : Forall2 (fun x y => fst y = fst x /\ height (snd y) = height (snd x))
                       (set_col "Year" (IntCol ys) (rename df)) d2).
  { eapply Forall2_impl; [|exact HF]. intros [l c] [l' c'] (E1 & E2). cbn [fst snd] in *.
    split; [exact E1|].
    destruct (assoc l convert_dtype) as [t|]; [now apply (cast_height t) in E2 | now subst]. }
  assert (S3 : Forall2 (fun x y => fst y = fst x /\ height (snd y) = height (snd x))
                       d2 (set_col "GDP (US$)" (FloatCol v) d2)).
  { apply (set_col_rows _ _ g); [exact Hg|]. cbn [height].
    now rewrite (traverse_length _ _ _ Hv), scalars_length. }
  pose proof (Forall2_rows_trans _ _ _ (Forall2_rows_trans _ _ _ S1 S2) S3) as S.
  clear S1 S2 S3. unfold rename in S. revert S.
  generalize (set_col "GDP (US$)" (FloatCol v) d2). intros d3 S.
  clear Hy Ht HF Hg Hv. revert d3 S. induction df as [|[l c] df IH]; intros d3 S; inversion S as [|? [l' c'] ? d3' (E1 & E2) S']; subst;
    cbn [map]; constructor.
  - cbn [fst snd] in *. destruct (String.eqb l' "Year"); cbn [fst snd]; split; auto.
    now rewrite mask_column_height.
  - now apply IH.
Qed.

(** X2. A source that loads keeps its shape: the prepared table has the same
    columns in the same order, each under its renamed label and with as
    many rows as in the source. *)
Theorem load_keeps_rows (csv : result DataFrame) (out : DataFrame) :
  load_and_process_data csv = Ok out ->
  exists df, csv = Ok df /\
    List.length out = List.length df /\
    Forall2 (fun a b => fst b = rename_label (fst a) /\ height (snd b) = height (snd a)) df out.
Proof.
  intros H. destruct (load_rows csv out H) as (df & -> & HF).
  exists df. split; [reflexivity|]. split; [|exact HF].
  symmetry. eapply Forall2_length. exact HF.
Qed.

Lemma load_keeps_rows_witness :
  exists out,
    load_and_process_data (Ok sample_frame) = Ok out /\
    List.length out = 17%nat /\
    Forall2 (fun a b => fst b = rename_label (fst a) /\ height (snd b) = height (snd a))
            sample_frame out.
Proof.
  destruct (load_and_process_data (Ok sample_frame)) as [out|e] eqn:E;
    [|vm_compute in E; discriminate].
  destruct (load_keeps_rows _ _ E) as (df & [= <-] & L & HF).
  exists out. auto.
Defined.

(** ** The years of the prepared table *)

Lemma load_year (csv : result DataFrame) (out : DataFrame) :
  load_and_process_data csv = Ok out ->
  exists df c ys,
    csv = Ok df /\ assoc "Year"%string df = Some c /\
    Forall2 (fun x y => year_of x = Ok y) (scalars c) ys /\
    assoc "Year"%string out = Some (IntCol ys).
Proof.
  intros H. apply load_steps in H as (df & d1 & d2 & d3 & -> & H1 & H2 & H3 & H4).
  apply normalize_year_ok in H1 as (cy & ys & Hy & Ht & ->).
  apply astype_ok in H2 as (_ & HF).
  apply reformat_gdp_ok in H3 as (g & v & Hg & ->).
  apply mask_zero_2023_ok in H4 as (y & _ & ->).
  exists df, cy, ys. split; [reflexivity|]. split; [now rewrite <- assoc_rename_year|].
  split; [now apply traverse_ok|].
  rewrite assoc_mask, assoc_set_col. cbn [String.eqb Ascii.eqb Bool.eqb].
  destruct (Forall2_assoc convert_dtype _ _ "Year" (IntCol ys) HF) as (c' & -> & Hc).
  - rewrite assoc_set_col. reflexivity.
  - cbn in Hc. now injection Hc as <-.
Qed.

(** X3. The [Year] column of the prepared table holds, row by row, the integer
    read from the source token; the later steps leave it as it is. *)
Theorem load_year_column (csv : result DataFrame) (out : DataFrame) :
  load_and_process_data csv = Ok out ->
  exists df c ys,
    csv = Ok df /\ assoc "Year"%string df = Some c /\
    Forall2 (fun x y => year_of x = Ok y) (scalars c) ys /\
    assoc "Year"%string out = Some (IntCol ys).
Proof. exact (load_year csv out). Qed.

Lemma load_year_column_witness :
  exists out ys,
    load_and_process_data (Ok sample_frame) = Ok out /\
    Forall2 (fun x y => year_of x = Ok y) [SInt 2022; SInt 2023] ys /\
    assoc "Year"%string out = Some (IntCol ys).
Proof.
  destruct (load_and_process_data (Ok sample_frame)) as [out|e] eqn:E;
    [|vm_compute in E; discriminate].
  destruct (load_year_column _ _ E) as (df & c & ys & [= <-] & Hc & HF & Hy).
  injection Hc as <-. exists out, ys. auto.
Defined.

(** ** Rows of a range of years *)

Lemma select_filter {A : Type} (f : A -> bool) (l : list A) :
  select (map f l) l = filter f l.
Proof.
  induction l as [|a l IH]; [reflexivity|]. cbn [map select filter].
  destruct (f a); now rewrite IH.
Qed.

Lemma select_none {A B : Type} (f : A -> bool) (l : list A) (v : list B) :
  (forall a, In a l -> f a = false) -> select (map f l) v = [].
Proof.
  revert v. induction l as [|a l IH]; intros v H; [reflexivity|].
  cbn [map select]. destruct v as [|b v]; [reflexivity|].
  rewrite (H a) by now left. apply IH. intros a' Ha. apply H. now right.
Qed.

Lemma select_some {A B : Type} (f : A -> bool) (l : list A) (v : list B) (a : A) :
  List.length v = List.length l -> In a l -> f a = true -> select (map f l) v <> [].
Proof.
  revert v. induction l as [|a' l IH]; intros v Hl Hin Hf; [destruct Hin|].
  destruct v as [|b v]; [discriminate|]. cbn [map select].
  destruct (f a') eqn:E; [discriminate|].
  destruct Hin as [->|Hin]; [congruence|]. apply IH; auto.
Qed.

Lemma height_select_rows (keep : list bool) (c : column) :
  height (select_rows keep c)
  = match c with
    | IntCol v => List.length (select keep v)
    | FloatCol v => List.length (select keep v)
    | StrCol v => List.length (select keep v)
    end.
Proof. now destruct c. Qed.

Lemma assoc_filter_rows (keep : list bool) (k : string) (data : DataFrame) :
  assoc k (filter_rows keep data) = option_map (select_rows keep) (assoc k data).
Proof.
  induction data as [|[l c] data IH]; [reflexivity|]. cbn [filter_rows map assoc].
  destruct (String.eqb k l); [reflexivity | exact IH].
Qed.

Lemma year_values_ok (data : DataFrame) (years : list Z) :
  year_values data = Ok years <-> assoc "Year"%string data = Some (IntCol years).
Proof.
  unfold year_values, get_col. destruct (assoc "Year"%string data) as [[v|v|v]|]; cbn;
    split; intros H; try discriminate; congruence.
Qed.

Lemma year_values_filter (keep : list bool) (data : DataFrame) (years : list Z) :
  year_values data = Ok years ->
  year_values (filter_rows keep data) = Ok (select keep years).
Proof.
  rewrite !year_values_ok, assoc_filter_rows. now intros ->.
Qed.

Lemma empty_no_rows (years : list Z) (f : Z -> bool) (data : DataFrame) :
  (forall y, In y years -> f y = false) ->
  data <> [] -> empty (filter_rows (map f years) data) = true.
Proof.
  intros H Hd. destruct data as [|[l c] data]; [congruence|].
  cbn [filter_rows map empty]. rewrite height_select_rows.
  destruct c; now rewrite (select_none f years _ H).
Qed.

Lemma empty_some_rows (years : list Z) (f : Z -> bool) (data : DataFrame) (y : Z) :
  Forall (fun lc => height (snd lc) = List.length years) data ->
  data <> [] -> In y years -> f y = true ->
  empty (filter_rows (map f years) data) = false.
Proof.
  intros Hr Hd Hin Hf. destruct data as [|[l c] data]; [congruence|].
  inversion Hr as [|? ? Hc _]; subst. cbn [snd] in Hc.
  cbn [filter_rows map empty]. rewrite height_select_rows.
  apply Nat.eqb_neq. intros E.
  destruct c as [v|v|v]; cbn [height] in Hc; apply List.length_zero_iff_nil in E;
    now apply (select_some f years v y Hc Hin Hf).
Qed.

(** ** The trend view *)

(** X9. The trend view draws the rows whose year lies between the two selected
    years, in table order, and no other; when the table has no such row it
    writes the message and draws nothing. *)
Theorem trend_view (data : DataFrame) (start_year end_year : Z) (indicator : string)
    (years : list Z) :
  year_values data = Ok years ->
  ((forall y, In y years -> ~ start_year <= y <= end_year) ->
   trend_tab data start_year end_year indicator =
   ([ Subheader (append indicator (append " Trend from "
         (append (str_of_int start_year) (append " to " (str_of_int end_year)))));
      ErrorMsg "No data available for the selected range." ], Ok tt)) /\
  (forall (c : column) (y : Z),
      Forall (fun lc => height (snd lc) = List.length years) data ->
      assoc indicator data = Some c ->
      In y years -> start_year <= y <= end_year ->
      trend_tab data start_year end_year indicator =
      ([ Subheader (append indicator (append " Trend from "
            (append (str_of_int start_year) (append " to " (str_of_int end_year)))));
         LineChart (append indicator (append " Trend ("
            (append (str_of_int start_year) (append "-"
              (append (str_of_int end_year) ")")))))
           (filter (fun y => (start_year <=? y) && (y <=? end_year)) years)
           [(indicator, select_rows (in_range start_year end_year years) c)] ], Ok tt)).
Proof.
  intros Hy. assert (Hd : data <> []).
  { apply year_values_ok in Hy. intros ->. discriminate. }
  split.
  - intros Hno. unfold trend_tab. rewrite Hy. cbn [emit lift ubind app].
    unfold in_range. rewrite empty_no_rows; [reflexivity| |exact Hd].
    intros y Hin. specialize (Hno y Hin).
    apply andb_false_iff. rewrite Z.leb_gt, Z.leb_gt. lia.
  - intros c y Hr Hc Hin Hrange. unfold trend_tab. rewrite Hy. cbn [emit lift ubind app].
    unfold in_range.
    rewrite (empty_some_rows years _ data y Hr Hd Hin)
      by (apply andb_true_iff; rewrite !Z.leb_le; lia).
    cbn [negb]. unfold chart_series. rewrite assoc_filter_rows, Hc. cbn [option_map lift ubind app].
    rewrite (year_values_filter _ _ _ Hy), select_filter. reflexivity.
Qed.

Lemma trend_view_witness :
  trend_tab [("Year"%string, IntCol [1999; 2000; 2001; 2005]);
             ("GDP (US$)"%string, FloatCol [1; 2; 3; 4]%float)] 2000 2003 "GDP (US$)"
  = ([ Subheader "GDP (US$) Trend from 2000 to 2003";
       LineChart "GDP (US$) Trend (2000-2003)" [2000; 2001]
         [("GDP (US$)"%string, FloatCol [2; 3]%float)] ], Ok tt).
Proof.
  apply (proj2 (trend_view [("Year"%string, IntCol [1999; 2000; 2001; 2005]);
                            ("GDP (US$)"%string, FloatCol [1; 2; 3; 4]%float)]
                  2000 2003 "GDP (US$)" [1999; 2000; 2001; 2005] eq_refl)
           (FloatCol [1; 2; 3; 4]%float) 2000).
  - repeat constructor.
  - reflexivity.
  - right. left. reflexivity.
  - lia.
Defined.

(** ** The comparison view *)

Lemma value_at_absent (years : list Z) (v : list scalar) (y : Z) :
  ~ In y years -> value_at years v y = None.
Proof.
  intros H. unfold value_at. rewrite select_none; [reflexivity|].
  intros a Ha. apply Z.eqb_neq. intros ->. now apply H.
Qed.

Lemma ubind_lift_ok {A B : Type} (a : A) (k : A -> ui B) : ubind (lift (Ok a)) k = k a.
Proof. unfold ubind, lift. now destruct (k a). Qed.

Lemma compare_tab_eq (data : DataFrame) (start_year end_year : Z) (indicator : string)
    (years : list Z) (c : column) :
  year_values data = Ok years -> assoc indicator data = Some c ->
  compare_tab data start_year end_year indicator =
  ubind (emit (Subheader (append "Comparison of " (append indicator (append " between "
           (append (str_of_int start_year) (append " and " (str_of_int end_year))))))))
    (fun _ =>
       ubind (match value_at years (scalars c) start_year with
              | Some i =>
                  ubind (lift (format_cell i))
                    (fun t => emit (Metric (append indicator (append " ("
                                      (append (str_of_int start_year) ")"))) t None))
              | None => emit (WriteText (append "No data for " (str_of_int start_year)))
              end)
         (fun _ =>
            ubind (match value_at years (scalars c) end_year with
                   | Some f =>
                       ubind (lift (delta_cell (value_at years (scalars c) start_year) f))
                         (fun d =>
                            ubind (lift (format_cell f))
                              (fun t => emit (Metric (append indicator (append " ("
                                                (append (str_of_int end_year) ")"))) t d)))
                   | None => emit (WriteText (append "No data for " (str_of_int end_year)))
                   end)
              (fun _ =>
                 ubind (lift (bar_texts (value_at years (scalars c) start_year)
                                        (value_at years (scalars c) end_year)))
                   (fun t =>
                      emit (BarChart (append indicator (append " Comparison ("
                              (append (str_of_int start_year) (append " vs "
                                (append (str_of_int end_year) ")")))))
                              [start_year; end_year]
                              [chart_value (value_at years (scalars c) start_year);
                               chart_value (value_at years (scalars c) end_year)] t))))).
Proof.
  intros Hy Hc. unfold compare_tab, get_col.
  rewrite Hy, ubind_lift_ok, Hc, ubind_lift_ok. reflexivity.
Qed.

(** X10. The comparison view, by what the two selected years find in the
    table (the sliders offer every year between the first and the last).
    With both years missing the view raises [TypeError] after its two
    notes and draws no chart.  With one of them missing and a number at
    the other there is no delta and the bar of the missing year is
    labelled ["nan"].  With two float64 values the delta is the percent
    change printed with two decimals; with two int64 values the difference
    is taken in int64, where it wraps around, before the division.  On a
    text column the view stops with [TypeError] at the first value it
    formats, after the note of a missing start year if there is one. *)
Theorem compare_view_cases (data : DataFrame) (start_year end_year : Z) (indicator : string)
    (years : list Z) (c : column) :
  year_values data = Ok years -> assoc indicator data = Some c ->
  let title := Subheader (append "Comparison of " (append indicator (append " between "
                 (append (str_of_int start_year) (append " and " (str_of_int end_year)))))) in
  let start_label := append indicator (append " (" (append (str_of_int start_year) ")")) in
  let end_label := append indicator (append " (" (append (str_of_int end_year) ")")) in
  let chart := BarChart (append indicator (append " Comparison ("
                 (append (str_of_int start_year) (append " vs "
                   (append (str_of_int end_year) ")"))))) [start_year; end_year] in
  let initial_value := value_at years (scalars c) start_year in
  let final_value := value_at years (scalars c) end_year in
  (~ In start_year years -> ~ In end_year years ->
   compare_tab data start_year end_year indicator =
   ([ title; WriteText (append "No data for " (str_of_int start_year));
      WriteText (append "No data for " (str_of_int end_year)) ],
    Raise (TypeError "'>=' not supported between instances of 'NoneType' and 'float'"))) /\
  (forall (x : scalar) (t : string),
      ~ In start_year years -> final_value = Some x -> format_cell x = Ok t ->
      compare_tab data start_year end_year indicator =
      ([ title; WriteText (append "No data for " (str_of_int start_year));
         Metric end_label t None;
         chart [None; chart_value (Some x)] ["nan"%string; t] ], Ok tt)) /\
  (forall (x : scalar) (t : string),
      initial_value = Some x -> ~ In end_year years -> format_cell x = Ok t ->
      compare_tab data start_year end_year indicator =
      ([ title; Metric start_label t None;
         WriteText (append "No data for " (str_of_int end_year));
         chart [chart_value (Some x); None] [t; "nan"%string] ], Ok tt)) /\
  (forall i f : float,
      initial_value = Some (SFloat i) -> final_value = Some (SFloat f) ->
      compare_tab data start_year end_year indicator =
      ([ title; Metric start_label (format_large_numbers i) None;
         Metric end_label (format_large_numbers f)
                (Some (append (format_f 2 ((f - i) / i * 100)%float) "%"));
         chart [Some i; Some f] [format_large_numbers i; format_large_numbers f] ], Ok tt)) /\
  (forall i f : Z,
      initial_value = Some (SInt i) -> final_value = Some (SInt f) ->
      compare_tab data start_year end_year indicator =
      ([ title; Metric start_label (format_large_numbers (of_Z i)) None;
         Metric end_label (format_large_numbers (of_Z f))
                (Some (append (format_f 2 (of_Z (wrap64 (f - i)) / of_Z i * 100)%float) "%"));
         chart [Some (of_Z i); Some (of_Z f)]
               [format_large_numbers (of_Z i); format_large_numbers (of_Z f)] ], Ok tt)) /\
  (forall s : string,
      initial_value = Some (SStr s) ->
      compare_tab data start_year end_year indicator =
      ([ title ],
       Raise (TypeError "'>=' not supported between instances of 'str' and 'float'"))) /\
  (forall s : string,
      ~ In start_year years -> final_value = Some (SStr s) ->
      compare_tab data start_year end_year indicator =
      ([ title; WriteText (append "No data for " (str_of_int start_year)) ],
       Raise (TypeError "'>=' not supported between instances of 'str' and 'float'"))).
Proof.
  intros Hy Hc. cbv zeta. rewrite (compare_tab_eq _ _ _ _ _ _ Hy Hc).
  repeat split.
  - intros Hs He. now rewrite (value_at_absent _ _ _ Hs), (value_at_absent _ _ _ He).
  - intros x t Hs He Ht. rewrite (value_at_absent _ _ _ Hs), He. cbn [delta_cell].
    rewrite ubind_lift_ok, Ht, ubind_lift_ok. unfold bar_texts, bar_text. rewrite Ht.
    reflexivity.
  - intros x t Hs He Ht. rewrite Hs, (value_at_absent _ _ _ He), Ht, ubind_lift_ok.
    unfold bar_texts, bar_text. rewrite Ht. reflexivity.
  - intros i f Hs He. now rewrite Hs, He.
  - intros i f Hs He. now rewrite Hs, He.
  - intros s Hs. now rewrite Hs.
  - intros s Hs He. now rewrite (value_at_absent _ _ _ Hs), He.
Qed.

Lemma compare_view_cases_witness :
  compare_tab [("Year"%string, IntCol [2000; 2005]);
               ("Count"%string, IntCol [- 2 ^ 63; 2 ^ 62])]
    2000 2005 "Count"
  = ([ Subheader "Comparison of Count between 2000 and 2005";
       Metric "Count (2000)" "-9223372036854775808.00" None;
       Metric "Count (2005)" "4611686018.43 Billion" (Some "50.00%"%string);
       BarChart "Count Comparison (2000 vs 2005)" [2000; 2005]
         [Some (of_Z (- 2 ^ 63)); Some (of_Z (2 ^ 62))]
         ["-9223372036854775808.00"%string; "4611686018.43 Billion"%string] ], Ok tt).
Proof.
  etransitivity.
  - apply (proj1 (proj2 (proj2 (proj2 (proj2
             (compare_view_cases
                [("Year"%string, IntCol [2000; 2005]);
                 ("Count"%string, IntCol [- 2 ^ 63; 2 ^ 62])]
                2000 2005 "Count" [2000; 2005] (IntCol [- 2 ^ 63; 2 ^ 62])
                eq_refl eq_refl))))) (- 2 ^ 63) (2 ^ 62)); reflexivity.
  - vm_compute. reflexivity.
Defined.

(** ** A source without rows *)




Lemma assoc_height (k : string) (df : DataFrame) (c : column) (n : nat) :
  Forall (fun lc => height (snd lc) = n) df -> assoc k df = Some c -> height c = n.
Proof.
  intros F H. apply assoc_In in H. rewrite Forall_forall in F. exact (F _ H).
Qed.


Lemma set_col_heights (k : string) (c : column) (df : DataFrame) (n : nat) :
  Forall (fun lc => height (snd lc) = n) df -> height c = n ->
  Forall (fun lc => height (snd lc) = n) (set_col k c df).
Proof.
  intros F Hc. induction F as [|[l c'] df H F' IH]; cbn [set_col].
  - repeat constructor. exact Hc.
  - destruct (String.eqb k l); constructor; auto.
Qed.





(** ** The ends of the normalised range *)

(** Two positive finite floats at the same place are the same float. *)
Lemma finite_pos_inj (m m' : positive) (e e' : Z) :
  bounded prec emax m e = true -> bounded prec emax m' e' = true ->
  Zpos m * 2 ^ (e + 1074) = Zpos m' * 2 ^ (e' + 1074) ->
  m = m' /\ e = e'.
Proof.
  intros B B' E.
  apply bounded_inv in B as (He & Hm & Hn). apply bounded_inv in B' as (He' & Hm' & Hn').
  assert (L : Z.log2 (Zpos m) + e = Z.log2 (Zpos m') + e').
  { pose proof (Z.log2_mul_pow2 (Zpos m) (e + 1074) ltac:(lia) ltac:(lia)) as L1.
    pose proof (Z.log2_mul_pow2 (Zpos m') (e' + 1074) ltac:(lia) ltac:(lia)) as L2.
    rewrite E in L1. lia. }
  assert (P52 : 0 < 2 ^ 52) by (apply Z.pow_pos_nonneg; lia).
  assert (U : forall p : positive, Zpos p < 2 ^ 53 -> Z.log2 (Zpos p) <= 52).
  { intros p Hp. apply Z.lt_succ_r. apply Z.log2_lt_pow2; [lia | exact Hp]. }
  assert (D : forall p : positive, 2 ^ 52 <= Zpos p -> 52 <= Z.log2 (Zpos p)).
  { intros p Hp. apply Z.log2_le_pow2; lia. }
  pose proof (U m Hm). pose proof (U m' Hm').
  assert (Ee : e = e').
  { destruct (Z.eq_dec e (-1074)) as [E1|E1]; destruct (Z.eq_dec e' (-1074)) as [E2|E2].
    - lia.
    - specialize (Hn' ltac:(lia)). pose proof (D m' Hn'). lia.
    - specialize (Hn ltac:(lia)). pose proof (D m Hn). lia.
    - specialize (Hn ltac:(lia)). specialize (Hn' ltac:(lia)).
      pose proof (D m Hn). pose proof (D m' Hn'). lia. }
  split; [|exact Ee]. subst e'.
  assert (0 < 2 ^ (e + 1074)) by (apply Z.pow_pos_nonneg; lia).
  apply Z.mul_cancel_r in E; [congruence | lia].
Qed.

Lemma rank_pos_inj (x y : spec_float) :
  valid_binary x = true -> valid_binary y = true ->
  not_nan x = true -> not_nan y = true ->
  0 < rank x < 2 ^ 2098 -> rank y = rank x -> x = y.
Proof.
  intros Vx Vy Nx Ny Hx E.
  destruct (positive_finite x Vx Nx Hx) as (m & e & -> & B).
  destruct (positive_finite y Vy Ny ltac:(lia)) as (m' & e' & -> & B').
  cbn [rank cond_Zopp] in E.
  destruct (finite_pos_inj m m' e e' B B' (eq_sym E)) as (-> & ->). reflexivity.
Qed.

(** A positive finite float divided by itself is one. *)
Lemma div_self (m : positive) (e : Z) :
  SF64div (S754_finite false m e) (S754_finite false m e) = Prim2SF 1.
Proof.
  unfold SF64div. cbn [SFdiv xorb]. unfold SFdiv_core_binary.
  rewrite (Z.sub_diag e), (Z.sub_diag (Zdigits2 (Zpos m) + e)).
  change (Z.min (fexp prec emax 0) 0) with (-53). change (0 - -53) with 53.
  cbv iota. rewrite Z.shiftl_mul_pow2 by lia. rewrite div_eucl_eq.
  rewrite Z.mul_comm, Z.div_mul, Z.mod_mul by lia.
  assert (N : new_location (Zpos m) 0 = loc_Exact).
  { unfold new_location, new_location_even, new_location_odd.
    destruct (Z.even (Zpos m)); reflexivity. }
  rewrite N. vm_compute. reflexivity.
Qed.

Lemma zero_rank (x : spec_float) :
  valid_binary x = true -> not_nan x = true -> rank x = 0 -> exists s, x = S754_zero s.
Proof.
  destruct x as [s|s| |s m e]; try discriminate; [eauto| |]; unfold rank.
  - assert (0 < 2 ^ 2098) by (apply Z.pow_pos_nonneg; lia). destruct s; unfold cond_Zopp; lia.
  - intros V _ H. apply bounded_inv in V as (He & _ & _).
    assert (0 < 2 ^ (e + 1074)) by (apply Z.pow_pos_nonneg; lia).
    destruct s; unfold cond_Zopp in H; nia.
Qed.

Lemma scaled_ends (v : list float) (x : float) :
  is_finite (series_max v - series_min v) = true ->
  PrimFloat.eqb (series_max v) (series_min v) = false ->
  In x v ->
  (PrimFloat.eqb x (series_min v) = true ->
   PrimFloat.eqb ((x - series_min v) / (series_max v - series_min v)) 0 = true) /\
  (PrimFloat.eqb x (series_max v) = true ->
   ((x - series_min v) / (series_max v - series_min v))%float = 1%float).
Proof.
  intros Hf Hne Hin. destruct (sub_finite_inv _ _ Hf) as (Fx & Fn).
  destruct (sub_frank _ _ Fx Fn) as (Hdn & Hdr).
  pose proof (finite_rank _ Fx) as Bx. pose proof (finite_rank _ Fn) as Bn.
  pose proof (finite_rank _ Hf) as Bd.
  assert (Hx : forall y, PrimFloat.eqb x y = true -> PrimFloat.is_nan x = false).
  { intros y H. destruct (PrimFloat.is_nan x) eqn:E; [|reflexivity].
    now rewrite (eqb_nan_l x y E) in H. }
  assert (Hd : frank (series_max v) <> frank (series_min v)).
  { rewrite eqb_rank in Hne by (auto using finite_number). now apply Z.eqb_neq in Hne. }
  assert (Hord : frank (series_min v) <= frank (series_max v)).
  { destruct (PrimFloat.is_nan x) eqn:Nx.
    - (* some entry is a number, since the spread is finite *)
      destruct (Z.le_gt_cases (frank (series_min v)) (frank (series_max v))) as [L|G]; [exact L|].
      exfalso. unfold series_min, series_max in *.
      destruct (forallb PrimFloat.is_nan v) eqn:A; [discriminate Fx|].
      assert (Ex : exists y, In y v /\ PrimFloat.is_nan y = false).
      { clear - A. induction v as [|y v IH]; [discriminate|]. cbn in A.
        destruct (PrimFloat.is_nan y) eqn:Ey.
        - destruct (IH A) as (z & Hz & Nz). exists z. split; [now right | exact Nz].
        - exists y. split; [now left | exact Ey]. }
      destruct Ex as (y & Hy & Ny).
      pose proof (series_min_le v y Hy Ny) as (_ & L1).
      pose proof (series_max_ge v y Hy Ny) as (_ & L2).
      unfold series_min, series_max in L1, L2. rewrite A in L1, L2. lia.
    - pose proof (series_min_le v x Hin Nx) as (_ & L1).
      pose proof (series_max_ge v x Hin Nx) as (_ & L2). lia. }
  pose proof (rnd_pos (frank (series_max v) - frank (series_min v)) ltac:(lia)) as Hpos.
  destruct (positive_finite (Prim2SF (series_max v - series_min v))) as (md & ed & Ed & Bdd);
    [apply Prim2SF_valid | now apply number_not_nan | unfold frank in *; lia|].
  split; intros He.
  - pose proof (Hx _ He) as Nx. rewrite eqb_rank in He by (auto using finite_number).
    apply Z.eqb_eq in He.
    assert (Fv : is_finite x = true).
    { apply rank_finite; [now apply number_not_nan|]. unfold frank in *. lia. }
    destruct (sub_frank x (series_min v) Fv Fn) as (Hnn & Hnr).
    rewrite He, Z.sub_diag, rnd_0 in Hnr.
    destruct (zero_rank (Prim2SF (x - series_min v))) as (s & Ez);
      [apply Prim2SF_valid | now apply number_not_nan | exact Hnr|].
    rewrite FloatAxioms.eqb_spec, FloatAxioms.div_spec, Ez, Ed. reflexivity.
  - pose proof (Hx _ He) as Nx. rewrite eqb_rank in He by (auto using finite_number).
    apply Z.eqb_eq in He.
    assert (Fv : is_finite x = true).
    { apply rank_finite; [now apply number_not_nan|]. unfold frank in *. lia. }
    destruct (sub_frank x (series_min v) Fv Fn) as (Hnn & Hnr).
    rewrite He, <- Hdr in Hnr.
    assert (En : Prim2SF (x - series_min v) = Prim2SF (series_max v - series_min v)).
    { symmetry. apply rank_pos_inj; try apply Prim2SF_valid; try now apply number_not_nan.
      - unfold frank in *. lia.
      - exact Hnr. }
    rewrite <- (SF2Prim_Prim2SF ((x - series_min v) / (series_max v - series_min v))).
    rewrite FloatAxioms.div_spec, En, Ed, div_self. apply SF2Prim_Prim2SF.
Qed.

Lemma series_min_in (v : list float) : is_finite (series_min v) = true -> In (series_min v) v.
Proof.
  unfold series_min. destruct (forallb PrimFloat.is_nan v); [discriminate|]. intros Hf.
  destruct (fold_min_spec
              (map (fun x => if PrimFloat.is_nan x then PrimFloat.infinity else x) v)
              PrimFloat.infinity eq_refl (patched_numbers PrimFloat.infinity v eq_refl))
    as (_ & _ & _ & [E|Hin]).
  - rewrite E in Hf. discriminate Hf.
  - apply in_map_iff in Hin as (x & Ex & Hx). destruct (PrimFloat.is_nan x).
    + rewrite <- Ex in Hf. discriminate Hf.
    + now rewrite <- Ex.
Qed.

Lemma series_max_in (v : list float) : is_finite (series_max v) = true -> In (series_max v) v.
Proof.
  unfold series_max. destruct (forallb PrimFloat.is_nan v); [discriminate|]. intros Hf.
  destruct (fold_max_spec
              (map (fun x => if PrimFloat.is_nan x then PrimFloat.neg_infinity else x) v)
              PrimFloat.neg_infinity eq_refl (patched_numbers PrimFloat.neg_infinity v eq_refl))
    as (_ & _ & _ & [E|Hin]).
  - rewrite E in Hf. discriminate Hf.
  - apply in_map_iff in Hin as (x & Ex & Hx). destruct (PrimFloat.is_nan x).
    + rewrite <- Ex in Hf. discriminate Hf.
    + now rewrite <- Ex.
Qed.

Lemma eqb_self (x : float) : is_finite x = true -> PrimFloat.eqb x x = true.
Proof.
  intros Hf. rewrite eqb_rank by (auto using finite_number). apply Z.eqb_refl.
Qed.

(** X13. On a column whose spread is finite and not zero the normalised range
    is reached at both ends: an entry equal to the minimum is sent to zero
    and an entry equal to the maximum to one, the minimum and the maximum
    are entries of the column, and so zero and one are among the outputs. *)
Theorem min_max_ends (v : list float) :
  is_finite (series_max v - series_min v) = true ->
  PrimFloat.eqb (series_max v) (series_min v) = false ->
  (forall x, In x v -> PrimFloat.eqb x (series_min v) = true ->
     PrimFloat.eqb ((x - series_min v) / (series_max v - series_min v)) 0 = true) /\
  (forall x, In x v -> PrimFloat.eqb x (series_max v) = true ->
     ((x - series_min v) / (series_max v - series_min v))%float = 1%float) /\
  In (series_min v) v /\ In (series_max v) v /\
  (exists r, In r (min_max_scale v) /\ PrimFloat.eqb r 0 = true) /\
  In 1%float (min_max_scale v).
Proof.
  intros Hf Hne. destruct (sub_finite_inv _ _ Hf) as (Fx & Fn).
  pose proof (series_min_in v Fn) as Imn. pose proof (series_max_in v Fx) as Imx.
  assert (Es : min_max_scale v
               = map (fun x => ((x - series_min v) / (series_max v - series_min v))%float) v).
  { unfold min_max_scale. now rewrite (spread_zero v Hf), Hne. }
  split; [intros x Hin; apply (scaled_ends v x Hf Hne Hin)|].
  split; [intros x Hin; apply (scaled_ends v x Hf Hne Hin)|].
  split; [exact Imn|]. split; [exact Imx|]. rewrite Es. split.
  - eexists. split; [apply in_map; exact Imn|].
    apply (scaled_ends v _ Hf Hne Imn). now apply eqb_self.
  - rewrite <- (proj2 (scaled_ends v _ Hf Hne Imx) (eqb_self _ Fx)).
    apply (in_map (fun x => ((x - series_min v) / (series_max v - series_min v))%float)).
    exact Imx.
Qed.

Lemma min_max_ends_witness :
  In 1%float (min_max_scale [2; 4; 3]%float) /\
  exists r, In r (min_max_scale [2; 4; 3]%float) /\ PrimFloat.eqb r 0 = true.
Proof.
  destruct (min_max_ends [2; 4; 3]%float eq_refl eq_refl) as (_ & _ & _ & _ & H0 & H1).
  split; [exact H1 | exact H0].
Defined.

(** ** The relationship view *)

Lemma select_length {A B : Type} (keep : list bool) :
  forall (v : list A) (v' : list B),
    List.length v = List.length v' ->
    List.length (select keep v) = List.length (select keep v').
Proof.
  induction keep as [|b keep IH]; intros [|a v] [|a' v'] H; try discriminate; try reflexivity.
  cbn [select]. injection H as H. destruct b; cbn [List.length]; auto.
Qed.

Lemma filter_rows_heights (keep : list bool) (years : list Z) (data : DataFrame) :
  Forall (fun lc => height (snd lc) = List.length years) data ->
  Forall (fun lc => height (snd lc) = List.length (select keep years)) (filter_rows keep data).
Proof.
  induction 1 as [|[l c] data H _ IH]; cbn [filter_rows map]; constructor; [|exact IH].
  cbn [snd] in *. rewrite height_select_rows.
  destruct c as [v|v|v]; cbn [height] in H; now apply select_length.
Qed.

Lemma min_max_scale_length (v : list float) : List.length (min_max_scale v) = List.length v.
Proof.
  unfold min_max_scale. destruct (PrimFloat.eqb _ _); [reflexivity | apply length_map].
Qed.

Lemma empty_heights (data : DataFrame) (n : nat) :
  Forall (fun lc => height (snd lc) = n) data -> data <> [] -> n <> 0%nat ->
  empty data = false.
Proof.
  intros F Hd Hn. destruct data as [|[l c] data]; [congruence|].
  inversion F as [|? ? H _]; subst. cbn [snd empty] in *. now apply Nat.eqb_neq.
Qed.

Lemma set_col_nonempty (k : string) (c : column) (df : DataFrame) : set_col k c df <> [].
Proof. destruct df as [|[l c'] df]; cbn; [|destruct (String.eqb k l)]; discriminate. Qed.

Lemma min_max_normalize_float (data : DataFrame) (k : string) (v : list float) :
  assoc k data = Some (FloatCol v) ->
  min_max_normalize data k = Ok (FloatCol (min_max_scale v)).
Proof. intros H. unfold min_max_normalize, get_col. now rewrite H. Qed.

(** X11. The relationship view on a range that holds a row: the two selected
    float64 columns are normalised over the rows of the range (their
    minimum and maximum are those of the range, not of the table) and drawn
    against the years of the range, as two series; when the same indicator
    is selected on both axes its column is normalised a second time and
    the chart has that one series. *)
Theorem relationship_view_chart (data : DataFrame) (start_year end_year : Z)
    (related : list string) (w : widgets) (ix iy : nat) (years : list Z)
    (vx vy : list float) (yr : Z) :
  let x := match x_choice w with Some s => s | None => nth ix related EmptyString end in
  let y := match y_choice w with Some s => s | None => nth iy related EmptyString end in
  let keep := in_range start_year end_year years in
  index_of "GDP (US$)" related = Ok ix ->
  index_of "Population Growth" related = Ok iy ->
  year_values data = Ok years ->
  Forall (fun lc => height (snd lc) = List.length years) data ->
  In yr years -> start_year <= yr <= end_year ->
  assoc x data = Some (FloatCol vx) -> assoc y data = Some (FloatCol vy) ->
  relationship_tab data start_year end_year related w =
  ([ Subheader "Compare Indicators Over Time (Normalized)";
     Selectbox "Select X-axis Indicator" related ix;
     Selectbox "Select Y-axis Indicator" related iy;
     LineChart EmptyString
       (filter (fun y => (start_year <=? y) && (y <=? end_year)) years)
       (if String.eqb y x
        then [(x, FloatCol (min_max_scale (min_max_scale (select keep vx))))]
        else [(x, FloatCol (min_max_scale (select keep vx)));
              (y, FloatCol (min_max_scale (select keep vy)))]) ], Ok tt).
Proof.
  intros x y keep Hix Hiy Hy Hr Hin Hrange Hx Hvy.
  assert (Hyear : assoc "Year"%string data = Some (IntCol years)) by now apply year_values_ok.
  assert (Nx : String.eqb "Year" x = false).
  { apply String.eqb_neq. intros E. rewrite <- E in Hx. congruence. }
  assert (Ny : String.eqb "Year" y = false).
  { apply String.eqb_neq. intros E. rewrite <- E in Hvy. congruence. }
  unfold relationship_tab. unfold emit at 1. rewrite ubind_ok. cbv beta.
  rewrite Hix, ubind_lift_ok, selectbox_eq, ubind_ok. cbv beta. fold x.
  rewrite Hiy, ubind_lift_ok, selectbox_eq, ubind_ok. cbv beta. fold y.
  rewrite Hy, ubind_lift_ok. fold keep.
  set (fd := filter_rows keep data).
  assert (Fx : assoc x fd = Some (FloatCol (select keep vx)))
    by (unfold fd; now rewrite assoc_filter_rows, Hx).
  rewrite (min_max_normalize_float fd x _ Fx), ubind_lift_ok.
  set (d1 := set_col x (FloatCol (min_max_scale (select keep vx))) fd).
  set (cy := if String.eqb y x then min_max_scale (select keep vx) else select keep vy).
  assert (Fy : assoc y d1 = Some (FloatCol cy)).
  { unfold d1, cy. rewrite assoc_set_col. destruct (String.eqb y x); [reflexivity|].
    unfold fd. now rewrite assoc_filter_rows, Hvy. }
  rewrite (min_max_normalize_float d1 y _ Fy), ubind_lift_ok.
  set (d2 := set_col y (FloatCol (min_max_scale cy)) d1).
  (* the frame still has its rows *)
  assert (Hlen : List.length (select keep years) <> 0%nat).
  { intros E. apply List.length_zero_iff_nil in E. revert E. unfold keep, in_range.
    apply (select_some _ years years yr eq_refl Hin).
    apply andb_true_iff. rewrite !Z.leb_le. lia. }
  assert (H0 : Forall (fun lc => height (snd lc) = List.length (select keep years)) fd)
    by now apply filter_rows_heights.
  assert (Lx : List.length (select keep vx) = List.length (select keep years)).
  { apply (assoc_height _ _ _ _ H0) in Fx. exact Fx. }
  assert (H1 : Forall (fun lc => height (snd lc) = List.length (select keep years)) d1).
  { apply set_col_heights; [exact H0|]. cbn [height]. now rewrite min_max_scale_length. }
  assert (H2 : Forall (fun lc => height (snd lc) = List.length (select keep years)) d2).
  { apply set_col_heights; [exact H1|]. cbn [height]. rewrite min_max_scale_length.
    apply (assoc_height _ _ _ _ H1) in Fy. exact Fy. }
  rewrite (empty_heights d2 _ H2 (set_col_nonempty _ _ _) Hlen). cbn [negb].
  assert (A2 : forall k, assoc k d2
               = if String.eqb k y then Some (FloatCol (min_max_scale cy))
                 else if String.eqb k x then Some (FloatCol (min_max_scale (select keep vx)))
                 else assoc k fd).
  { intros k. unfold d2, d1. now rewrite !assoc_set_col. }
  unfold chart_series. rewrite (A2 x), (A2 y), !String.eqb_refl.
  assert (Yv : year_values d2 = Ok (select keep years)).
  { apply year_values_ok. rewrite A2, Ny, Nx. unfold fd. now rewrite assoc_filter_rows, Hyear. }
  rewrite (String.eqb_sym x y). unfold cy.
  destruct (String.eqb y x); cbv iota;
    rewrite !ubind_lift_ok, Yv, ubind_lift_ok; unfold keep, in_range;
    rewrite select_filter; reflexivity.
Qed.

Lemma relationship_view_chart_witness :
  relationship_tab [("Year"%string, IntCol [1999; 2000; 2001; 2005]);
                    ("GDP (US$)"%string, FloatCol [1; 2; 3; 4]%float);
                    ("Population Growth"%string, FloatCol [2.5; 2; 3; 1]%float)]
    2000 2003 ["GDP (US$)"; "Population Growth"]%string
    {| start_choice := 2000; end_choice := 2003; indicator_choice := None;
       x_choice := None; y_choice := None |}
  = ([ Subheader "Compare Indicators Over Time (Normalized)";
       Selectbox "Select X-axis Indicator" ["GDP (US$)"; "Population Growth"]%string 0;
       Selectbox "Select Y-axis Indicator" ["GDP (US$)"; "Population Growth"]%string 1;
       LineChart EmptyString [2000; 2001]
         [("GDP (US$)"%string, FloatCol [0; 1]%float);
          ("Population Growth"%string, FloatCol [0; 1]%float)] ], Ok tt) /\
  relationship_tab [("Year"%string, IntCol [1999; 2000; 2001; 2005]);
                    ("GDP (US$)"%string, FloatCol [1; 2; 3; 4]%float);
                    ("Population Growth"%string, FloatCol [2.5; 2; 3; 1]%float)]
    2000 2003 ["GDP (US$)"; "Population Growth"]%string
    {| start_choice := 2000; end_choice := 2003; indicator_choice := None;
       x_choice := None; y_choice := Some "GDP (US$)"%string |}
  = ([ Subheader "Compare Indicators Over Time (Normalized)";
       Selectbox "Select X-axis Indicator" ["GDP (US$)"; "Population Growth"]%string 0;
       Selectbox "Select Y-axis Indicator" ["GDP (US$)"; "Population Growth"]%string 1;
       LineChart EmptyString [2000; 2001]
         [("GDP (US$)"%string, FloatCol [0; 1]%float)] ], Ok tt).
Proof.
  split.
  - apply (relationship_view_chart
             [("Year"%string, IntCol [1999; 2000; 2001; 2005]);
              ("GDP (US$)"%string, FloatCol [1; 2; 3; 4]%float);
              ("Population Growth"%string, FloatCol [2.5; 2; 3; 1]%float)]
             2000 2003 ["GDP (US$)"; "Population Growth"]%string
             {| start_choice := 2000; end_choice := 2003; indicator_choice := None;
                x_choice := None; y_choice := None |}
             0%nat 1%nat [1999; 2000; 2001; 2005]
             [1; 2; 3; 4]%float [2.5; 2; 3; 1]%float 2000).
    + reflexivity.
    + reflexivity.
    + reflexivity.
    + repeat constructor.
    + right. left. reflexivity.
    + lia.
    + reflexivity.
    + reflexivity.
  - apply (relationship_view_chart
             [("Year"%string, IntCol [1999; 2000; 2001; 2005]);
              ("GDP (US$)"%string, FloatCol [1; 2; 3; 4]%float);
              ("Population Growth"%string, FloatCol [2.5; 2; 3; 1]%float)]
             2000 2003 ["GDP (US$)"; "Population Growth"]%string
             {| start_choice := 2000; end_choice := 2003; indicator_choice := None;
                x_choice := None; y_choice := Some "GDP (US$)"%string |}
             0%nat 1%nat [1999; 2000; 2001; 2005]
             [1; 2; 3; 4]%float [1; 2; 3; 4]%float 2000).
    + reflexivity.
    + reflexivity.
    + reflexivity.
    + repeat constructor.
    + right. left. reflexivity.
    + lia.
    + reflexivity.
    + reflexivity.
Defined.

(** ** The delta of an unchanged value *)

(** X12. When the start and the end value are the same finite number other than
    zero, the delta reads ["0.00%"] for a positive value and ["-0.00%"] for
    a negative one (the quotient is a zero with the sign of the value). *)
Theorem delta_unchanged (i : float) :
  is_finite i = true -> PrimFloat.eqb i 0 = false ->
  delta_of (Some i) i = Some (if PrimFloat.ltb i 0 then "-0.00%" else "0.00%")%string.
Proof.
  intros Hf Hz. unfold delta_of, percent_change, format_f. f_equal.
  rewrite FloatAxioms.ltb_spec. rewrite FloatAxioms.eqb_spec in Hz. unfold is_finite in Hf.
  rewrite FloatAxioms.mul_spec, FloatAxioms.div_spec, FloatAxioms.sub_spec.
  change (Prim2SF 0) with (S754_zero false) in *.
  destruct (Prim2SF i) as [s|s| |s m e]; try discriminate.
  unfold SF64sub. cbn [SFsub]. rewrite Z.sub_diag. cbn [binary_normalize].
  destruct s; reflexivity.
Qed.

Lemma delta_unchanged_witness :
  delta_of (Some (-1.5)%float) (-1.5) = Some "-0.00%"%string.
Proof. exact (delta_unchanged (-1.5) eq_refl eq_refl). Defined.

(* ================================================================== *)
(** * The prepared table *)
(* ================================================================== *)

(** ** The rule for 2023, cell by cell *)

Lemma of_Z_eqb_zero (z : Z) : PrimFloat.eqb (of_Z z) 0 = (z =? 0).
Proof.
  destruct (of_Z_frank z) as (N & R).
  rewrite eqb_rank by (exact N || reflexivity). rewrite R, frank_zero.
  destruct (Z.eqb_spec z 0) as [->|Hz].
  - reflexivity.
  - apply Z.eqb_neq. intros E. apply (proj1 (rnd_zero_iff _)) in E.
    assert (0 < 2 ^ 1074) by (apply Z.pow_pos_nonneg; lia). nia.
Qed.

Lemma is_zero_widened (x : scalar) : is_zero (widened x) = is_zero x.
Proof. destruct x as [z|f|s]; cbn; [apply of_Z_eqb_zero | reflexivity | reflexivity]. Qed.

Lemma masked_not_zero (x : scalar) : is_zero (masked true x) = false.
Proof.
  unfold masked. cbn [andb]. destruct (is_zero x) eqn:E; [reflexivity|].
  now rewrite is_zero_widened.
Qed.

Lemma mask_column_cell (hit : list bool) (c : column) (i : nat) (x : scalar) :
  cell c i = Some x ->
  cell (mask_column hit c) i = Some (masked (nth i hit false) x).
Proof.
  unfold cell. destruct c as [v|v|v]; cbn [mask_column scalars].
  - rewrite !nth_error_map, nth_error_mask_float, nth_error_map.
    destruct (nth_error v i) as [z|]; cbn; [|discriminate].
    intros H. injection H as <-. unfold masked. cbn [is_zero widened].
    rewrite of_Z_eqb_zero. now destruct (nth i hit false && (z =? 0)).
  - rewrite !nth_error_map, nth_error_mask_float.
    destruct (nth_error v i) as [y|]; cbn; [|discriminate].
    intros H. injection H as <-. unfold masked. cbn [is_zero widened].
    now destruct (nth i hit false && PrimFloat.eqb y 0).
  - rewrite nth_error_map. destruct (nth_error v i) as [[s|]|]; cbn; try discriminate;
      intros H; injection H as <-; unfold masked; cbn; now rewrite andb_false_r.
Qed.

Lemma cell_height (c : column) (i : nat) :
  (i < height c)%nat <-> exists x, cell c i = Some x.
Proof.
  unfold cell. rewrite <- scalars_length. split.
  - intros H. destruct (nth_error (scalars c) i) as [x|] eqn:E; [eauto|].
    apply nth_error_None in E. lia.
  - intros (x & E). apply nth_error_Some. congruence.
Qed.

Lemma year_hit (years : list Z) (i : nat) :
  nth i (year_is_2023 (IntCol years)) false = (nth i years 0 =? 2023).
Proof.
  cbn [year_is_2023]. change false with ((fun y => y =? 2023) 0). apply map_nth.
Qed.

Lemma distinct_NoDup (l : list string) : distinct l = true <-> NoDup l.
Proof.
  induction l as [|a l IH]; cbn [distinct].
  - split; [constructor | reflexivity].
  - rewrite andb_true_iff, negb_true_iff, IH. split.
    + intros (H & N). constructor; [|exact N]. intros C.
      assert (E : existsb (String.eqb a) l = true)
        by (apply existsb_exists; exists a; split; [exact C | apply String.eqb_refl]).
      congruence.
    + intros H. inversion H as [|a' l' Hn N]; subst. split; [|exact N].
      destruct (existsb (String.eqb a) l) eqn:E; [|reflexivity].
      apply existsb_exists in E as (b & Hb & E). apply String.eqb_eq in E. now subst.
Qed.

Lemma mask_entries (years : list Z) (df : DataFrame) :
  Forall2 (mask_entry years) df
    (map (fun '(l, c) => if String.eqb l "Year" then (l, c)
                         else (l, mask_column (year_is_2023 (IntCol years)) c)) df).
Proof.
  induction df as [|[l c] df IH]; cbn [map]; constructor; [|exact IH].
  unfold mask_entry. destruct (String.eqb l "Year") eqn:E; cbn [fst snd]; rewrite E.
  - repeat split. intros i x H. exact H.
  - repeat split; [apply mask_column_height|].
    intros i x H. rewrite <- year_hit. now apply mask_column_cell.
Qed.

Lemma mask_entry_zero_free (years : list Z) (a b : string * column) (i : nat) (x : scalar) :
  mask_entry years a b -> fst b <> "Year"%string ->
  nth_error years i = Some 2023 -> cell (snd b) i = Some x -> is_zero x = false.
Proof.
  intros (El & Eh & Hc) Hl Hi Hx.
  assert (Hlt : (i < height (snd a))%nat)
    by (rewrite <- Eh; apply cell_height; eauto).
  apply cell_height in Hlt as (x0 & Hx0). specialize (Hc i x0 Hx0).
  rewrite El in Hl. apply String.eqb_neq in Hl. rewrite Hl in Hc.
  rewrite (nth_error_nth _ _ 0 Hi) in Hc. cbn in Hc.
  rewrite Hx in Hc. injection Hc as ->. apply masked_not_zero.
Qed.

Lemma mask_entries_zero_free (years : list Z) (df out : DataFrame) :
  Forall2 (mask_entry years) df out ->
  forall i l c x,
    nth_error years i = Some 2023 -> In (l, c) out -> l <> "Year"%string ->
    cell c i = Some x -> is_zero x = false.
Proof.
  intros HF i l c x Hi Hin Hl Hx.
  induction HF as [|a b df' out' Hab HF IH]; [contradiction|].
  destruct Hin as [->|Hin]; [|now apply IH].
  now apply (mask_entry_zero_free years a (l, c) i x).
Qed.

(** ** The prepared table, column by column *)

Lemma load_before_rule (csv : result DataFrame) (out : DataFrame) :
  load_and_process_data csv = Ok out ->
  exists df d1 d2 d3 years,
    csv = Ok df /\ normalize_year (rename df) = Ok d1 /\
    astype convert_dtype d1 = Ok d2 /\ reformat_gdp d2 = Ok d3 /\
    labels d3 = map rename_label (labels df) /\
    assoc "Year"%string d3 = Some (IntCol years) /\
    mask_zero_2023 d3 = Ok out /\
    out = map (fun '(l, c) => if String.eqb l "Year" then (l, c)
                              else (l, mask_column (year_is_2023 (IntCol years)) c)) d3.
Proof.
  intros H. apply load_steps in H as (df & d1 & d2 & d3 & -> & H1 & H2 & H3 & H4).
  pose proof H1 as H1'. pose proof H2 as H2'. pose proof H3 as H3'. pose proof H4 as H4'.
  apply normalize_year_ok in H1 as (cy & ys & Hy & Ht & ->).
  apply astype_ok in H2 as (_ & HF).
  apply reformat_gdp_ok in H3 as (g & v & Hg & ->).
  apply mask_zero_2023_ok in H4 as (y & Hy3 & ->).
  assert (E : y = IntCol ys).
  { rewrite assoc_set_col in Hy3. cbn [String.eqb Ascii.eqb Bool.eqb] in Hy3.
    destruct (Forall2_assoc convert_dtype _ _ "Year" (IntCol ys) HF) as (c' & Hc' & Hc).
    - rewrite assoc_set_col. reflexivity.
    - cbn in Hc. injection Hc as <-. congruence. }
  subst y. exists df, (set_col "Year" (IntCol ys) (rename df)), d2,
    (set_col "GDP (US$)" (FloatCol v) d2), ys.
  repeat split; auto.
  rewrite (labels_set_col _ _ _ _ Hg), (Forall2_labels _ _ _ HF),
    (labels_set_col _ _ _ _ Hy). apply labels_rename.
Qed.

Lemma load_extra_column (csv : result DataFrame) (df out : DataFrame)
    (j : nat) (l : string) (c : column) :
  csv = Ok df -> load_and_process_data csv = Ok out ->
  nth_error df j = Some (l, c) -> assoc (rename_label l) convert_dtype = None ->
  exists years,
    assoc "Year"%string out = Some (IntCol years) /\
    nth_error out j = Some (rename_label l, mask_column (year_is_2023 (IntCol years)) c).
Proof.
  intros -> H Hj Ho.
  destruct (load_year _ _ H) as (df0 & cy0 & years & E0 & _ & _ & Hyo).
  injection E0 as <-. exists years. split; [exact Hyo|].
  apply load_steps in H as (df0 & d1 & d2 & d3 & E0 & H1 & H2 & H3 & H4).
  injection E0 as <-.
  apply normalize_year_ok in H1 as (cy & ys & Hy & _ & ->).
  apply astype_ok in H2 as (_ & HF).
  apply reformat_gdp_ok in H3 as (g & v & Hg & ->).
  apply mask_zero_2023_ok in H4 as (y & Hy3 & ->).
  rewrite assoc_mask, Hy3 in Hyo. cbn in Hyo. injection Hyo as ->.
  assert (Hr : nth_error (rename df) j = Some (rename_label l, c))
    by (unfold rename; now rewrite nth_error_map, Hj).
  apply (nth_error_set_col "Year" (IntCol ys)) in Hr;
    [|apply has_label_In; apply assoc_In in Hy; now apply (in_map fst) in Hy
     |now apply year_not_outside].
  destruct (Forall2_nth _ _ _ _ _ _ HF Hr) as (c' & Hc' & E). rewrite Ho in E. subst c'.
  apply (nth_error_set_col "GDP (US$)" (FloatCol v)) in Hc';
    [|apply has_label_In; apply assoc_In in Hg; now apply (in_map fst) in Hg
     |now apply gdp_not_outside].
  rewrite nth_error_map, Hc'. cbn.
  apply year_not_outside in Ho. apply String.eqb_neq in Ho. now rewrite Ho.
Qed.

Lemma mask_column_text (hit : list bool) (c : column) :
  if is_text c then mask_column hit c = c
  else has_dtype float64 (mask_column hit c) = true.
Proof. destruct c; reflexivity. Qed.

(** C3, as the code has it. The rule for 2023 keeps the shape of the table
    (the columns, their labels and their heights) and leaves [Year] as it
    is; in every other column a cell equal to zero in a row of 2023
    becomes the marker NaN, and every other cell keeps its value, an
    integer being converted to float64 (the column becomes float64 by the
    assignment, whether or not one of its rows is hit), so no cell of a
    row of 2023 equals zero afterwards. The prepared table is the result
    of the rule on the table the first three steps build, whose [Year] is
    int64. *)
Theorem zero_masked_2023 :
  (forall (df : DataFrame) (years : list Z),
      assoc "Year"%string df = Some (IntCol years) -> distinct (labels df) = true ->
      exists out,
        mask_zero_2023 df = Ok out /\ Forall2 (mask_entry years) df out /\
        forall i l c x,
          nth_error years i = Some 2023 -> In (l, c) out -> l <> "Year"%string ->
          cell c i = Some x -> is_zero x = false) /\
  (forall (csv : result DataFrame) (df out : DataFrame),
      csv = Ok df -> distinct (map rename_label (labels df)) = true ->
      load_and_process_data csv = Ok out ->
      exists d1 d2 d3 years,
        normalize_year (rename df) = Ok d1 /\ astype convert_dtype d1 = Ok d2 /\
        reformat_gdp d2 = Ok d3 /\
        assoc "Year"%string d3 = Some (IntCol years) /\ distinct (labels d3) = true /\
        mask_zero_2023 d3 = Ok out).
Proof.
  split.
  - intros df years Hy _. unfold mask_zero_2023, get_col. rewrite Hy. cbn [bind].
    eexists. split; [reflexivity|]. pose proof (mask_entries years df) as HF.
    split; [exact HF|].
    exact (mask_entries_zero_free years _ _ HF).
  - intros csv df out -> Hd H.
    apply load_before_rule in H as (df0 & d1 & d2 & d3 & years & E & H1 & H2 & H3 & Hl & Hy & H4 & _).
    injection E as <-. exists d1, d2, d3, years. repeat split; auto. now rewrite Hl.
Qed.

Lemma zero_masked_2023_witness :
  exists out d3 years,
    load_and_process_data (Ok sample_frame) = Ok out /\
    assoc "Year"%string d3 = Some (IntCol years) /\
    Forall2 (mask_entry years) d3 out /\
    forall i l c x,
      nth_error years i = Some 2023 -> In (l, c) out -> l <> "Year"%string ->
      cell c i = Some x -> is_zero x = false.
Proof.
  destruct (load_and_process_data (Ok sample_frame)) as [out|e] eqn:E;
    [|vm_compute in E; discriminate].
  destruct (proj2 zero_masked_2023 (Ok sample_frame) sample_frame out eq_refl eq_refl E)
    as (d1 & d2 & d3 & years & _ & _ & _ & Hy & Hd & Hm).
  destruct (proj1 zero_masked_2023 d3 years Hy Hd) as (out' & Hm' & HF & Hz).
  rewrite Hm in Hm'. injection Hm' as <-.
  exists out, d3, years. auto.
Defined.

(** The claim C3 fails on a source with one more column, read as int64:
    in the row of 2022 (the years are 2022 and 2023) the integer
    9007199254740993 comes back as the float64 9007199254740992. *)
Lemma integer_cell_rounded :
  (c <- get_col "Year" counted_frame ;; Ok (cell c 0)) = Ok (Some (SInt 2022)) /\
  (c <- get_col "Count" counted_frame ;; Ok (cell c 0))
  = Ok (Some (SInt 9007199254740993)) /\
  (out <- load_and_process_data (Ok counted_frame) ;;
   c <- get_col "Count" out ;; Ok (cell c 0))
  = Ok (Some (SFloat 9007199254740992)).
Proof. repeat split; vm_compute; reflexivity. Qed.




(** C5, as the code has it. The load raises when a label of the cast table
    is missing once the headers are renamed ([KeyError], unless a year
    token was rejected first). A source that loads keeps all its columns,
    in order, under their renamed labels; a column the cast table does not
    name is neither dropped nor refused: it comes out at its place with
    the rule for 2023 applied to its cells (a zero in a row of 2023
    becomes NaN, an integer becomes a float64, a text stays). *)
Theorem schema_mismatch :
  (forall (csv : result DataFrame) (df : DataFrame) (k : string),
      csv = Ok df -> In k (map fst convert_dtype) ->
      ~ In k (map rename_label (labels df)) ->
      exists e, load_and_process_data csv = Raise e /\
        ((exists k', e = KeyError k' /\ In k' (map fst convert_dtype) /\
                     ~ In k' (map rename_label (labels df))) \/
         (exists what, e = ValueError what))) /\
  (forall (csv : result DataFrame) (df out : DataFrame),
      csv = Ok df -> distinct (map rename_label (labels df)) = true ->
      load_and_process_data csv = Ok out ->
      labels out = map rename_label (labels df) /\
      exists years,
        assoc "Year"%string out = Some (IntCol years) /\
        forall j l c,
          nth_error df j = Some (l, c) -> assoc (rename_label l) convert_dtype = None ->
          exists c',
            nth_error out j = Some (rename_label l, c') /\
            height c' = height c /\
            (if is_text c then c' = c else has_dtype float64 c' = true) /\
            forall i x, cell c i = Some x ->
                        cell c' i = Some (masked (nth i years 0 =? 2023) x)).
Proof.
  split.
  - intros csv df k -> Hk Hn. rewrite <- labels_rename in *.
    unfold load_and_process_data. cbn. unfold normalize_year, get_col.
    destruct (assoc "Year" (rename df)) as [c|] eqn:Hy; cbn.
    + destruct (traverse year_of (scalars c)) as [ys|e] eqn:Ht; cbn.
      * rewrite <- (labels_set_col "Year" (IntCol ys) c _ Hy) in Hn.
        destruct (astype_missing _ _ _ Hk Hn) as (k' & -> & Hk' & Hn').
        cbn. eexists. split; [reflexivity|]. left. exists k'. repeat split; auto.
        now rewrite (labels_set_col "Year" (IntCol ys) c _ Hy) in Hn'.
      * eexists. split; [reflexivity|]. right.
        clear - Ht. revert e Ht. induction (scalars c) as [|a l IH]; cbn; [discriminate|].
        intros e. unfold year_of at 1.
        destruct (py_int _); cbn; [|intros H; injection H as <-; eauto].
        destruct (traverse year_of l); cbn; [discriminate|].
        intros H; injection H as <-. eauto.
    + eexists. split; [reflexivity|]. left. exists "Year"%string.
      repeat split; [cbn; auto|]. now apply assoc_None.
  - intros csv df out E _ H. split.
    + pose proof H as H'.
      apply load_before_rule in H' as (df0 & d1 & d2 & d3 & years & E0 & _ & _ & _ & Hl & _ & _ & ->).
      rewrite E in E0. injection E0 as <-. now rewrite labels_mask.
    + destruct (load_year _ _ H) as (df0 & cy0 & years & _ & _ & _ & Hyo).
      exists years. split; [exact Hyo|]. intros j l c Hj Ho.
      destruct (load_extra_column csv df out j l c E H Hj Ho) as (years' & Hyo' & Hn).
      rewrite Hyo in Hyo'. injection Hyo' as <-.
      eexists. split; [exact Hn|]. split; [apply mask_column_height|].
      split; [apply mask_column_text|].
      intros i x Hx. rewrite <- year_hit. now apply mask_column_cell.
Qed.

Lemma schema_mismatch_witness :
  (exists e, load_and_process_data (Ok (tl sample_frame)) = Raise e /\
     ((exists k', e = KeyError k' /\ In k' (map fst convert_dtype) /\
                  ~ In k' (map rename_label (labels (tl sample_frame)))) \/
      (exists what, e = ValueError what))) /\
  (exists out c',
     load_and_process_data (Ok counted_frame) = Ok out /\
     nth_error out 17 = Some ("Count"%string, c') /\
     cell c' 1 = Some (SFloat PrimFloat.nan)).
Proof.
  split.
  - apply (proj1 schema_mismatch (Ok (tl sample_frame)) (tl sample_frame) "Year"%string).
    + reflexivity.
    + cbn. auto.
    + vm_compute. intros H.
      repeat (destruct H as [H|H]; [discriminate|]). exact H.
  - destruct (load_and_process_data (Ok counted_frame)) as [out|e] eqn:E;
      [|vm_compute in E; discriminate].
    destruct (proj2 schema_mismatch (Ok counted_frame) counted_frame out eq_refl eq_refl E)
      as (_ & years & Hy & Hx).
    destruct (Hx 17%nat "Count"%string (IntCol [9007199254740993; 0]) eq_refl eq_refl)
      as (c' & Hn & _ & _ & Hc).
    exists out, c'. split; [reflexivity|]. split; [exact Hn|].
    assert (Ey : years = [2022; 2023])
      by (vm_compute in E; injection E as <-; vm_compute in Hy; congruence).
    subst years. exact (Hc 1%nat (SInt 0) eq_refl).
Defined.

(** The claim C5 fails on a source whose headers are not those of the
    renaming table (it has "Population Growth" and "Notes", which the table
    does not know): the load succeeds and every column is kept. *)
Lemma unmatched_headers_load :
  (out <- load_and_process_data (Ok sample_frame) ;; Ok (labels out))
  = Ok (map rename_label (labels sample_frame)) /\
  In "Notes"%string (map rename_label (labels sample_frame)) /\
  assoc "Notes"%string rename_columns = None /\
  assoc "Population Growth"%string rename_columns = None.
Proof. repeat split; vm_compute; auto 20. Qed.
